(** * Decoding of orders and order items (order.go)

    A shallow embedding of the two custom decoders of order.go,
    [OrderItem.UnmarshalJSON] and [Order.UnmarshalJSON], over a model of the
    part of Go's encoding/json they call, and the properties of the
    specification stated and settled on that embedding. *)

From Stdlib Require Import Ascii String.
From stdpp Require Import base numbers strings list option gmap.

Open Scope Z_scope.
Open Scope string_scope.

Set Warnings "-register-all".

(** ** Outcome of a Go call that returns [error]

    A method with a pointer receiver is a function from the receiver's
    contents to its new contents and the returned error ([None] is Go's
    [nil]); a runtime panic (here: a nil pointer dereference) gives neither. *)

Inductive error : Type :=
| SyntaxError
| UnmarshalTypeError (Value : string) (GoType : string)
| OtherError (msg : string).

Inductive outcome (T : Type) : Type :=
| Returned (v : T) (err : option error)
| Panicked.
Arguments Returned {T} v err.
Arguments Panicked {T}.

(** ** encoding/json, as far as order.go uses it *)

Module json.

(** A scanned JSON value. A number keeps its literal: what it decodes to
    depends on the Go type it is stored in. *)
Inductive value : Type :=
| Null
| Bool (b : bool)
| Number (lit : string)
| Str (s : string)
| Array (elems : list value)
| Object (members : list (string * value)).

(** *** Scanner *)

Definition byte (c : ascii) : N := N_of_ascii c.

Definition between (lo hi : N) (c : ascii) : bool :=
  (lo <=? byte c)%N && (byte c <=? hi)%N.

Definition isByte (n : N) (c : ascii) : bool := (byte c =? n)%N.

Definition isSpace (c : ascii) : bool :=
  isByte 32 c || isByte 9 c || isByte 13 c || isByte 10 c.

Definition isDigit (c : ascii) : bool := between 48 57 c.

Fixpoint skipSpace (s : string) : string :=
  match s with
  | String c t => if isSpace c then skipSpace t else s
  | EmptyString => s
  end.

Fixpoint digits (s : string) : string * string :=
  match s with
  | String c t =>
      if isDigit c then let '(ds, r) := digits t in (String c ds, r)
      else (EmptyString, s)
  | EmptyString => (EmptyString, EmptyString)
  end.

(** A number literal: an optional minus sign; a zero, or a digit from 1 to 9
    and more digits; then optionally a point and digits; then optionally an
    [e] or [E], a sign and digits. *)
Definition exponent (lit s : string) : option (string * string) :=
  match s with
  | String c t =>
      if isByte 101 c || isByte 69 c then
        let '(sg, t1) :=
          match t with
          | String c1 t1 =>
              if isByte 43 c1 || isByte 45 c1 then (String c1 EmptyString, t1)
              else (EmptyString, t)
          | EmptyString => (EmptyString, t)
          end in
        let '(ds, r) := digits t1 in
        match ds with
        | EmptyString => None
        | _ => Some (lit ++ String c sg ++ ds, r)
        end
      else Some (lit, s)
  | EmptyString => Some (lit, s)
  end.

Definition fraction (lit s : string) : option (string * string) :=
  match s with
  | String c t =>
      if isByte 46 c then
        let '(ds, r) := digits t in
        match ds with
        | EmptyString => None
        | _ => exponent (lit ++ String c ds) r
        end
      else exponent lit s
  | EmptyString => Some (lit, s)
  end.

Definition number (s : string) : option (string * string) :=
  let '(sg, s1) :=
    match s with
    | String c t => if isByte 45 c then (String c EmptyString, t) else (EmptyString, s)
    | EmptyString => (EmptyString, s)
    end in
  match s1 with
  | String c t =>
      if isByte 48 c then fraction (sg ++ String c EmptyString) t
      else if between 49 57 c then
        let '(ds, r) := digits t in fraction (sg ++ String c ds) r
      else None
  | EmptyString => None
  end.

(** Hexadecimal digit of a [\u] escape. *)
Definition hex (c : ascii) : option N :=
  if isDigit c then Some (byte c - 48)%N
  else if between 97 102 c then Some (byte c - 87)%N
  else if between 65 70 c then Some (byte c - 55)%N
  else None.

Definition getu4 (a b c d : ascii) : option N :=
  match hex a, hex b, hex c, hex d with
  | Some x, Some y, Some z, Some w => Some (((x * 16 + y) * 16 + z) * 16 + w)%N
  | _, _, _, _ => None
  end.

Definition chr (n : N) : ascii := ascii_of_N n.

(** utf8.EncodeRune *)
Definition EncodeRune (r : N) : string :=
  if (r <? 128)%N then String (chr r) EmptyString
  else if (r <? 2048)%N then
    String (chr (192 + r / 64)) (String (chr (128 + r mod 64)) EmptyString)
  else if (r <? 65536)%N then
    String (chr (224 + r / 4096))
      (String (chr (128 + (r / 64) mod 64))
         (String (chr (128 + r mod 64)) EmptyString))
  else
    String (chr (240 + r / 262144))
      (String (chr (128 + (r / 4096) mod 64))
         (String (chr (128 + (r / 64) mod 64))
            (String (chr (128 + r mod 64)) EmptyString))).

Definition ReplacementChar : N := 65533.

Definition IsSurrogate (r : N) : bool := (55296 <=? r)%N && (r <? 57344)%N.

(** utf16.DecodeRune *)
Definition DecodeRune (r1 r2 : N) : N :=
  if (55296 <=? r1)%N && (r1 <? 56320)%N && (56320 <=? r2)%N && (r2 <? 57344)%N
  then ((r1 - 55296) * 1024 + (r2 - 56320) + 65536)%N
  else ReplacementChar.

(** The escapes of one character. *)
Definition escape (c : ascii) : option ascii :=
  if isByte 34 c || isByte 92 c || isByte 47 c then Some c
  else if isByte 98 c then Some (chr 8)
  else if isByte 102 c then Some (chr 12)
  else if isByte 110 c then Some (chr 10)
  else if isByte 114 c then Some (chr 13)
  else if isByte 116 c then Some (chr 9)
  else None.

(** Well-formed UTF-8 sequences of two, three and four bytes. *)
Definition cont (c : ascii) : bool := between 128 191 c.

Definition utf8_2 (a b : ascii) : bool := between 194 223 a && cont b.

Definition utf8_3 (a b c : ascii) : bool :=
  (isByte 224 a && between 160 191 b
   || (between 225 236 a || between 238 239 a) && cont b
   || isByte 237 a && between 128 159 b) && cont c.

Definition utf8_4 (a b c d : ascii) : bool :=
  (isByte 240 a && between 144 191 b
   || between 241 243 a && cont b
   || isByte 244 a && between 128 143 b) && cont c && cont d.

Definition prepend (p : string) (r : option (string * string)) : option (string * string) :=
  match r with
  | Some (s, rest) => Some (p ++ s, rest)
  | None => None
  end.

(** The contents of a string literal, from after its opening quote: the
    unquoted string and the input after the closing quote. Control
    characters and malformed escapes are syntax errors; a lone surrogate
    escape and ill-formed UTF-8 become U+FFFD. *)
Fixpoint unquote (s : string) : option (string * string) :=
  match s with
  | EmptyString => None
  | String c t =>
      if isByte 34 c then Some (EmptyString, t)
      else if isByte 92 c then
        match t with
        | EmptyString => None
        | String e t1 =>
            match escape e with
            | Some b => prepend (String b EmptyString) (unquote t1)
            | None =>
                if isByte 117 e then
                  match t1 with
                  | String h1 (String h2 (String h3 (String h4 t2))) =>
                      match getu4 h1 h2 h3 h4 with
                      | None => None
                      | Some rr =>
                          if IsSurrogate rr then
                            match t2 with
                            | String b1 (String b2 (String g1 (String g2 (String g3 (String g4 t3))))) =>
                                match (if isByte 92 b1 && isByte 117 b2 then getu4 g1 g2 g3 g4 else None) with
                                | Some rr1 =>
                                    if (DecodeRune rr rr1 =? ReplacementChar)%N
                                    then prepend (EncodeRune ReplacementChar) (unquote t2)
                                    else prepend (EncodeRune (DecodeRune rr rr1)) (unquote t3)
                                | None => prepend (EncodeRune ReplacementChar) (unquote t2)
                                end
                            | _ => prepend (EncodeRune ReplacementChar) (unquote t2)
                            end
                          else prepend (EncodeRune rr) (unquote t2)
                      end
                  | _ => None
                  end
                else None
            end
        end
      else if (byte c <? 32)%N then None
      else if (byte c <? 128)%N then prepend (String c EmptyString) (unquote t)
      else
        match t with
        | String c2 t2 =>
            if utf8_2 c c2 then prepend (String c (String c2 EmptyString)) (unquote t2)
            else
              match t2 with
              | String c3 t3 =>
                  if utf8_3 c c2 c3
                  then prepend (String c (String c2 (String c3 EmptyString))) (unquote t3)
                  else
                    match t3 with
                    | String c4 t4 =>
                        if utf8_4 c c2 c3 c4
                        then prepend (String c (String c2 (String c3 (String c4 EmptyString))))
                               (unquote t4)
                        else prepend (EncodeRune ReplacementChar) (unquote t)
                    | EmptyString => prepend (EncodeRune ReplacementChar) (unquote t)
                    end
              | EmptyString => prepend (EncodeRune ReplacementChar) (unquote t)
              end
        | EmptyString => None
        end
  end.

Fixpoint literal (lit s : string) : option string :=
  match lit, s with
  | EmptyString, _ => Some s
  | String a l, String b t => if Ascii.eqb a b then literal l t else None
  | String _ _, EmptyString => None
  end.

(** One value and the input left after it. [fuel] bounds the number of
    nested calls; [parse] below gives more than any text can use
    ([parse_fuel]). The limit that recent versions of the package put on
    the depth of nesting is not modelled. *)
Fixpoint scanValue (fuel : nat) (s : string) : option (value * string) :=
  match fuel with
  | O => None
  | S fuel =>
      match skipSpace s with
      | EmptyString => None
      | String c t =>
          if isByte 123 c then
            match skipSpace t with
            | String c1 t1 =>
                if isByte 125 c1 then Some (Object [], t1)
                else
                  match scanMembers fuel (String c1 t1) with
                  | Some (ms, r) => Some (Object ms, r)
                  | None => None
                  end
            | EmptyString => None
            end
          else if isByte 91 c then
            match skipSpace t with
            | String c1 t1 =>
                if isByte 93 c1 then Some (Array [], t1)
                else
                  match scanElems fuel (String c1 t1) with
                  | Some (vs, r) => Some (Array vs, r)
                  | None => None
                  end
            | EmptyString => None
            end
          else if isByte 34 c then
            match unquote t with
            | Some (x, r) => Some (Str x, r)
            | None => None
            end
          else if isByte 110 c then
            match literal "ull" t with Some r => Some (Null, r) | None => None end
          else if isByte 116 c then
            match literal "rue" t with Some r => Some (Bool true, r) | None => None end
          else if isByte 102 c then
            match literal "alse" t with Some r => Some (Bool false, r) | None => None end
          else
            match number (String c t) with
            | Some (lit, r) => Some (Number lit, r)
            | None => None
            end
      end
  end
with scanElems (fuel : nat) (s : string) : option (list value * string) :=
  match fuel with
  | O => None
  | S fuel =>
      match scanValue fuel s with
      | None => None
      | Some (v, r) =>
          match skipSpace r with
          | String c t =>
              if isByte 44 c then
                match scanElems fuel t with
                | Some (vs, r1) => Some (v :: vs, r1)
                | None => None
                end
              else if isByte 93 c then Some ([v], t)
              else None
          | EmptyString => None
          end
      end
  end
with scanMembers (fuel : nat) (s : string) : option (list (string * value) * string) :=
  match fuel with
  | O => None
  | S fuel =>
      match skipSpace s with
      | String q t =>
          if isByte 34 q then
            match unquote t with
            | None => None
            | Some (k, r) =>
                match skipSpace r with
                | String c r1 =>
                    if isByte 58 c then
                      match scanValue fuel r1 with
                      | None => None
                      | Some (v, r2) =>
                          match skipSpace r2 with
                          | String d r3 =>
                              if isByte 44 d then
                                match scanMembers fuel r3 with
                                | Some (ms, r4) => Some ((k, v) :: ms, r4)
                                | None => None
                                end
                              else if isByte 125 d then Some ([(k, v)], r3)
                              else None
                          | EmptyString => None
                          end
                      end
                    else None
                | EmptyString => None
                end
            end
          else None
      | EmptyString => None
      end
  end.

(** A JSON text: one value between optional white space. *)
Definition parse (s : string) : option value :=
  match scanValue (2 * String.length s + 2) s with
  | Some (v, r) =>
      match skipSpace r with
      | EmptyString => Some v
      | String _ _ => None
      end
  | None => None
  end.

(** *** Byte slices

    The package is handed its input as text. What it hands on, to an
    Unmarshaler or into a RawMessage, is the part of that text which holds
    one value it has scanned; the model keeps such a part as the value
    scanned, which is what scanning those bytes again gives. *)
Inductive bytes : Type :=
| Text (s : string)
| Scanned (v : value).

Definition scan (data : bytes) : option value :=
  match data with
  | Text s => parse s
  | Scanned v => Some v
  end.

(** *** Decoding into a Go value

    Storing a scanned value in a Go value of type [T] either goes through,
    remembering the first UnmarshalTypeError met on the way (decoding goes
    on after one), or is given up when an Unmarshaler returns an error, or
    panics when an Unmarshaler does. The Go value is kept as far as it was
    written in each case but the last. *)
Inductive result (T : Type) : Type :=
| Stored (v : T) (saved : option error)
| Aborted (v : T) (err : error)
| Panics.
Arguments Stored {T} v saved.
Arguments Aborted {T} v err.
Arguments Panics {T}.

Definition mapResult {T U : Type} (f : T -> U) (r : result T) : result U :=
  match r with
  | Stored v saved => Stored (f v) saved
  | Aborted v err => Aborted (f v) err
  | Panics => Panics
  end.

(** What the package knows of a Go type: its zero value and how a scanned
    value is stored in a value of the type. *)
Record Decoder (T : Type) : Type := {
  zero : T;
  decode : value -> T -> result T
}.
Arguments zero {T} d.
Arguments decode {T} d j v.

(** The first error is the one reported. *)
Definition saveError (saved new : option error) : option error :=
  match saved with
  | Some _ => saved
  | None => new
  end.

Definition kind (j : value) : string :=
  match j with
  | Null => "null"
  | Bool _ => "bool"
  | Number _ => "number"
  | Str _ => "string"
  | Array _ => "array"
  | Object _ => "object"
  end.

Definition mismatch {T : Type} (j : value) (GoType : string) (v : T) : result T :=
  Stored v (Some (UnmarshalTypeError (kind j) GoType)).

(** strconv.ParseInt(s, 10, 64) *)
Fixpoint digitsValue (s : string) (acc : Z) : option Z :=
  match s with
  | EmptyString => Some acc
  | String c t =>
      if isDigit c then digitsValue t (acc * 10 + (Z.of_N (byte c) - 48)) else None
  end.

Definition ParseInt (s : string) : option Z :=
  let '(neg, ds) :=
    match s with
    | String c t =>
        if isByte 45 c then (true, t)
        else if isByte 43 c then (false, t)
        else (false, s)
    | EmptyString => (false, s)
    end in
  match ds with
  | EmptyString => None
  | String _ _ =>
      match digitsValue ds 0 with
      | Some n =>
          let n := if neg then - n else n in
          if ((- 2 ^ 63 <=? n) && (n <=? 2 ^ 63 - 1))%Z then Some n else None
      | None => None
      end
  end.

Definition int64 : Decoder Z := {|
  zero := 0;
  decode j v :=
    match j with
    | Null => Stored v None
    | Number lit =>
        match ParseInt lit with
        | Some n => Stored n None
        | None => Stored v (Some (UnmarshalTypeError ("number " ++ lit) "int64"))
        end
    | _ => mismatch j "int64" v
    end
|}.

Definition string : Decoder String.string := {|
  zero := EmptyString;
  decode j v :=
    match j with
    | Null => Stored v None
    | Str s => Stored s None
    | _ => mismatch j "string" v
    end
|}.

(** A type declared as a string ([type Currency string]) is decoded as a
    string; the error of a mismatch names the declared type. *)
Definition named (GoType : String.string) : Decoder String.string := {|
  zero := EmptyString;
  decode j v :=
    match j with
    | Null => Stored v None
    | Str s => Stored s None
    | _ => mismatch j GoType v
    end
|}.

Definition bool : Decoder Datatypes.bool := {|
  zero := false;
  decode j v :=
    match j with
    | Null => Stored v None
    | Bool b => Stored b None
    | _ => mismatch j "bool" v
    end
|}.

(** A pointer: null makes it nil; for any other value a nil pointer is
    first made to point to a new zero value, and the value is stored in
    what it points to. *)
Definition ptr {T : Type} (d : Decoder T) : Decoder (option T) := {|
  zero := None;
  decode j p :=
    match j with
    | Null => Stored None None
    | _ => mapResult Some (decode d j (default (zero d) p))
    end
|}.

(** A slice (a nil slice and an empty one are not told apart): the
    elements are stored one after the other, over the elements the slice
    already has and then over zero values, and the slice is cut to the length
    of the array. *)
Fixpoint elements {T : Type} (d : Decoder T) (js : list value) (vs : list T)
    (saved : option error) : result (list T) :=
  match js with
  | [] => Stored [] saved
  | j :: js' =>
      match decode d j (hd (zero d) vs) with
      | Stored v e => mapResult (cons v) (elements d js' (tl vs) (saveError saved e))
      | Aborted v err => Aborted (v :: tl vs) err
      | Panics => Panics
      end
  end.

Definition slice {T : Type} (d : Decoder T) (GoType : String.string) : Decoder (list T) := {|
  zero := [];
  decode j vs :=
    match j with
    | Null => Stored [] None
    | Array js => elements d js vs None
    | _ => mismatch j GoType vs
    end
|}.

(** A map with string keys (a nil map and an empty one are not told apart):
    each member is stored in a new zero value, which is then put in the map
    under the member's name. *)
Fixpoint entries {T : Type} (d : Decoder T) (ms : list (String.string * value))
    (m : gmap String.string T) (saved : option error) : result (gmap String.string T) :=
  match ms with
  | [] => Stored m saved
  | (k, j) :: ms' =>
      match decode d j (zero d) with
      | Stored v e => entries d ms' (<[k := v]> m) (saveError saved e)
      | Aborted _ err => Aborted m err
      | Panics => Panics
      end
  end.

Definition map {T : Type} (d : Decoder T) (GoType : String.string) :
    Decoder (gmap String.string T) := {|
  zero := ∅;
  decode j m :=
    match j with
    | Null => Stored ∅ None
    | Object ms => entries d ms m None
    | _ => mismatch j GoType m
    end
|}.

(** A struct is known by its fields with a json name: the name and how a
    value is stored in that field of a struct value. *)
Record Field (T : Type) : Type := {
  name : String.string;
  store : value -> T -> result T
}.
Arguments name {T} f.
Arguments store {T} f j v.

Definition field {T F : Type} (name : String.string) (get : T -> F) (set : F -> T -> T)
    (d : Decoder F) : Field T := {|
  name := name;
  store j v := mapResult (fun x => set x v) (decode d j (get v))
|}.

(** Names are matched exactly or, failing that, without regard to case:
    letters fold to upper case, and so do the two runes that fold to a
    letter, U+017F to S and U+212A to K. *)
Fixpoint foldName (s : String.string) : String.string :=
  match s with
  | EmptyString => EmptyString
  | String c t =>
      if between 97 122 c then String (chr (byte c - 32)) (foldName t)
      else
        match t with
        | String c2 t2 =>
            if isByte 197 c && isByte 191 c2 then String (chr 83) (foldName t2)
            else
              match t2 with
              | String c3 t3 =>
                  if isByte 226 c && isByte 132 c2 && isByte 170 c3
                  then String (chr 75) (foldName t3)
                  else String c (foldName t)
              | EmptyString => String c (foldName t)
              end
        | EmptyString => String c EmptyString
        end
  end.

Definition findField {T : Type} (fields : list (Field T)) (key : String.string) :
    option (Field T) :=
  match List.find (fun f => String.eqb (name f) key) fields with
  | Some f => Some f
  | None => List.find (fun f => String.eqb (foldName (name f)) (foldName key)) fields
  end.

(** The members of an object are stored in the order of the text; a member
    that names no field is skipped. *)
Fixpoint members {T : Type} (fields : list (Field T)) (ms : list (String.string * value))
    (v : T) (saved : option error) : result T :=
  match ms with
  | [] => Stored v saved
  | (k, j) :: ms' =>
      match findField fields k with
      | None => members fields ms' v saved
      | Some f =>
          match store f j v with
          | Stored v' e => members fields ms' v' (saveError saved e)
          | Aborted v' err => Aborted v' err
          | Panics => Panics
          end
      end
  end.

Definition struct {T : Type} (GoType : String.string) (z : T) (fields : list (Field T)) :
    Decoder T := {|
  zero := z;
  decode j v :=
    match j with
    | Null => Stored v None
    | Object ms => members fields ms v None
    | _ => mismatch j GoType v
    end
|}.

(** A type with an UnmarshalJSON method is handed the bytes of the value,
    null included; an error it returns ends the decoding. *)
Definition unmarshaler {T : Type} (z : T) (UnmarshalJSON : bytes -> T -> outcome T) :
    Decoder T := {|
  zero := z;
  decode j v :=
    match UnmarshalJSON (Scanned j) v with
    | Returned v' None => Stored v' None
    | Returned v' (Some err) => Aborted v' err
    | Panicked => Panics
    end
|}.

(** RawMessage keeps the bytes it is handed. *)
Definition RawMessage : Decoder bytes :=
  unmarshaler (Text EmptyString) (fun data _ => Returned data None).

(** [json.Unmarshal(data, &v)]: a text that is not one JSON value is a
    SyntaxError and [v] is left alone; otherwise the value is stored in [v]
    and the error that ended the decoding, or else the first one saved, is
    returned. *)
Definition Unmarshal {T : Type} (d : Decoder T) (data : bytes) (v : T) : outcome T :=
  match scan data with
  | None => Returned v (Some SyntaxError)
  | Some j =>
      match decode d j v with
      | Stored v' saved => Returned v' saved
      | Aborted v' err => Returned v' (Some err)
      | Panics => Panicked
      end
  end.

End json.

(** ** order.go: the types *)

(** OrderStatus represents the statuses of an order object. *)
Definition OrderStatus : Type := string.
Definition OrderStatusCanceled : OrderStatus := "canceled".
Definition OrderStatusCreated : OrderStatus := "created".
Definition OrderStatusFulfilled : OrderStatus := "fulfilled".
Definition OrderStatusPaid : OrderStatus := "paid".
Definition OrderStatusReturned : OrderStatus := "returned".

(** OrderDeliveryEstimateType represents the type of delivery estimate for
    shipping methods. *)
Definition OrderDeliveryEstimateType : Type := string.
Definition OrderDeliveryEstimateTypeExact : OrderDeliveryEstimateType := "exact".
Definition OrderDeliveryEstimateTypeRange : OrderDeliveryEstimateType := "range".

(** OrderItemType represents the type of order item. *)
Definition OrderItemType : Type := string.
Definition OrderItemTypeCoupon : OrderItemType := "coupon".
Definition OrderItemTypeDiscount : OrderItemType := "discount".
Definition OrderItemTypeShipping : OrderItemType := "shipping".
Definition OrderItemTypeSKU : OrderItemType := "sku".
Definition OrderItemTypeTax : OrderItemType := "tax".

(** OrderItemParentType represents the type of order item parent. *)
Definition OrderItemParentType : Type := string.
Definition OrderItemParentTypeCoupon : OrderItemParentType := "coupon".
Definition OrderItemParentTypeShipping : OrderItemParentType := "shipping".
Definition OrderItemParentTypeSKU : OrderItemParentType := "sku".

(** Modelled from the spec: the type Currency is declared outside src/; the
    spec has it as an ISO code, a string. *)
Definition Currency : Type := string.

(** Modelled from the spec: the struct SKU is declared outside src/. The
    spec has it as a full object decoded from the parent fragment and names
    one field of it, the ID, which order.go reads. *)
Record SKU : Type := {
  SKU_ID : string
}.

Definition SKU_zero : SKU := {| SKU_ID := EmptyString |}.

Definition set_SKU_ID (x : string) (r : SKU) : SKU := {| SKU_ID := x |}.

Definition SKU_json : json.Decoder SKU :=
  json.struct "stripe.SKU" SKU_zero
    [ json.field "id" SKU_ID set_SKU_ID json.string ].

(** OrderItemParent describes the parent of an order item. *)
Record OrderItemParent : Type := {
  OrderItemParent_ID : string;
  OrderItemParent_SKU : option SKU;
  OrderItemParent_Type : OrderItemParentType
}.

Definition OrderItemParent_zero : OrderItemParent := {|
  OrderItemParent_ID := EmptyString;
  OrderItemParent_SKU := None;
  OrderItemParent_Type := EmptyString
|}.

Definition set_OrderItemParent_ID (x : string) (r : OrderItemParent) : OrderItemParent := {|
  OrderItemParent_ID := x;
  OrderItemParent_SKU := OrderItemParent_SKU r;
  OrderItemParent_Type := OrderItemParent_Type r
|}.

Definition set_OrderItemParent_SKU (x : option SKU) (r : OrderItemParent) : OrderItemParent := {|
  OrderItemParent_ID := OrderItemParent_ID r;
  OrderItemParent_SKU := x;
  OrderItemParent_Type := OrderItemParent_Type r
|}.

Definition set_OrderItemParent_Type (x : OrderItemParentType) (r : OrderItemParent) : OrderItemParent := {|
  OrderItemParent_ID := OrderItemParent_ID r;
  OrderItemParent_SKU := OrderItemParent_SKU r;
  OrderItemParent_Type := x
|}.

(** OrderItem is the resource representing an order item. *)
Record OrderItem : Type := {
  OrderItem_Amount : Z;
  OrderItem_Currency : Currency;
  OrderItem_Description : string;
  OrderItem_Parent : option OrderItemParent;
  OrderItem_Quantity : Z;
  OrderItem_Type : OrderItemType
}.

Definition OrderItem_zero : OrderItem := {|
  OrderItem_Amount := 0;
  OrderItem_Currency := EmptyString;
  OrderItem_Description := EmptyString;
  OrderItem_Parent := None;
  OrderItem_Quantity := 0;
  OrderItem_Type := EmptyString
|}.

Definition set_OrderItem_Amount (x : Z) (r : OrderItem) : OrderItem := {|
  OrderItem_Amount := x;
  OrderItem_Currency := OrderItem_Currency r;
  OrderItem_Description := OrderItem_Description r;
  OrderItem_Parent := OrderItem_Parent r;
  OrderItem_Quantity := OrderItem_Quantity r;
  OrderItem_Type := OrderItem_Type r
|}.

Definition set_OrderItem_Currency (x : Currency) (r : OrderItem) : OrderItem := {|
  OrderItem_Amount := OrderItem_Amount r;
  OrderItem_Currency := x;
  OrderItem_Description := OrderItem_Description r;
  OrderItem_Parent := OrderItem_Parent r;
  OrderItem_Quantity := OrderItem_Quantity r;
  OrderItem_Type := OrderItem_Type r
|}.

Definition set_OrderItem_Description (x : string) (r : OrderItem) : OrderItem := {|
  OrderItem_Amount := OrderItem_Amount r;
  OrderItem_Currency := OrderItem_Currency r;
  OrderItem_Description := x;
  OrderItem_Parent := OrderItem_Parent r;
  OrderItem_Quantity := OrderItem_Quantity r;
  OrderItem_Type := OrderItem_Type r
|}.

Definition set_OrderItem_Parent (x : option OrderItemParent) (r : OrderItem) : OrderItem := {|
  OrderItem_Amount := OrderItem_Amount r;
  OrderItem_Currency := OrderItem_Currency r;
  OrderItem_Description := OrderItem_Description r;
  OrderItem_Parent := x;
  OrderItem_Quantity := OrderItem_Quantity r;
  OrderItem_Type := OrderItem_Type r
|}.

Definition set_OrderItem_Quantity (x : Z) (r : OrderItem) : OrderItem := {|
  OrderItem_Amount := OrderItem_Amount r;
  OrderItem_Currency := OrderItem_Currency r;
  OrderItem_Description := OrderItem_Description r;
  OrderItem_Parent := OrderItem_Parent r;
  OrderItem_Quantity := x;
  OrderItem_Type := OrderItem_Type r
|}.

Definition set_OrderItem_Type (x : OrderItemType) (r : OrderItem) : OrderItem := {|
  OrderItem_Amount := OrderItem_Amount r;
  OrderItem_Currency := OrderItem_Currency r;
  OrderItem_Description := OrderItem_Description r;
  OrderItem_Parent := OrderItem_Parent r;
  OrderItem_Quantity := OrderItem_Quantity r;
  OrderItem_Type := x
|}.


(** The fields of [type orderItem OrderItem], the same struct without the
    method: Parent is tagged [json:"-"] and is no field for the package. *)
Definition orderItem : json.Decoder OrderItem :=
  json.struct "stripe.orderItem" OrderItem_zero
    [ json.field "amount" OrderItem_Amount set_OrderItem_Amount json.int64;
      json.field "currency" OrderItem_Currency set_OrderItem_Currency
        (json.named "stripe.Currency");
      json.field "description" OrderItem_Description set_OrderItem_Description json.string;
      json.field "quantity" OrderItem_Quantity set_OrderItem_Quantity json.int64;
      json.field "type" OrderItem_Type set_OrderItem_Type (json.named "stripe.OrderItemType") ].

(** [map[string]*json.RawMessage] *)
Definition rawObject_json : json.Decoder (gmap string (option json.bytes)) :=
  json.map (json.ptr json.RawMessage) "map[string]*json.RawMessage".

(** ** order.go: OrderItem.UnmarshalJSON *)

(** [oi] with [oi.Parent] pointing to [parent]. *)
Definition with_Parent (parent : OrderItemParent) (oi : OrderItem) : OrderItem :=
  set_OrderItem_Parent (Some parent) oi.

(** UnmarshalJSON handles deserialization of an OrderItem. This custom
    unmarshaling is needed because the resulting Parent property may be an id
    or a full SKU struct when parent is expanded.

    [*rawObject["parent"]] dereferences what the map has under the key, nil
    when it has nothing; [oi.Parent.SKU.ID] dereferences [oi.Parent.SKU]. *)
Definition OrderItem_UnmarshalJSON (data : json.bytes) (oi : OrderItem) : outcome OrderItem :=
  match json.Unmarshal orderItem data OrderItem_zero with
  | Panicked => Panicked
  | Returned _ (Some err) => Returned oi (Some err)
  | Returned v None =>
      let oi := v in
      let parent := OrderItemParent_zero in
      match json.Unmarshal rawObject_json data ∅ with
      | Panicked => Panicked
      | Returned _ (Some err) => Returned (with_Parent parent oi) (Some err)
      | Returned rawObject None =>
          if String.eqb (OrderItem_Type oi) OrderItemTypeCoupon then
            match default None (rawObject !! "parent") with
            | None => Panicked
            | Some raw =>
                match json.Unmarshal json.string raw (OrderItemParent_ID parent) with
                | Panicked => Panicked
                | Returned id err =>
                    let parent := set_OrderItemParent_ID id parent in
                    match err with
                    | Some _ =>
                        let parent := set_OrderItemParent_Type OrderItemParentTypeCoupon parent in
                        Returned (with_Parent parent oi) err
                    | None => Returned (with_Parent parent oi) err
                    end
                end
            end
          else if String.eqb (OrderItem_Type oi) OrderItemTypeShipping then
            match default None (rawObject !! "parent") with
            | None => Panicked
            | Some raw =>
                match json.Unmarshal json.string raw (OrderItemParent_ID parent) with
                | Panicked => Panicked
                | Returned id err =>
                    let parent := set_OrderItemParent_ID id parent in
                    match err with
                    | Some _ =>
                        let parent := set_OrderItemParent_Type OrderItemParentTypeShipping parent in
                        Returned (with_Parent parent oi) err
                    | None => Returned (with_Parent parent oi) err
                    end
                end
            end
          else if String.eqb (OrderItem_Type oi) OrderItemTypeSKU then
            match default None (rawObject !! "parent") with
            | None => Panicked
            | Some raw =>
                match json.Unmarshal (json.ptr SKU_json) raw (OrderItemParent_SKU parent) with
                | Panicked => Panicked
                | Returned sku err =>
                    let parent := set_OrderItemParent_SKU sku parent in
                    match err with
                    | Some _ =>
                        match OrderItemParent_SKU parent with
                        | None => Panicked
                        | Some s =>
                            let parent := set_OrderItemParent_ID (SKU_ID s) parent in
                            let parent := set_OrderItemParent_Type OrderItemParentTypeSKU parent in
                            Returned (with_Parent parent oi) err
                        end
                    | None => Returned (with_Parent parent oi) err
                    end
                end
            end
          else Returned (with_Parent parent oi) None
      end
  end.

(** [*OrderItem], as the package meets it in [Order.Items]. *)
Definition OrderItem_json : json.Decoder OrderItem :=
  json.unmarshaler OrderItem_zero OrderItem_UnmarshalJSON.

(** ** order.go: Order and the structs it is made of *)

(** The resource types that Order refers to and that are declared outside
    src/ (the spec leaves them out of scope): each is taken as it comes, a Go
    type with whatever the package does to decode it. *)
Class Siblings : Type := {
  Charge : Type;
  Charge_json : json.Decoder Charge;
  Customer : Type;
  Customer_json : json.Decoder Customer;
  OrderReturnList : Type;
  OrderReturnList_json : json.Decoder OrderReturnList;
  Address : Type;
  Address_json : json.Decoder Address
}.

Section Order.

Context `{Siblings}.

(** Shipping describes the shipping hash on an order. *)
Record Shipping : Type := {
  Shipping_Address : option Address;
  Shipping_Carrier : string;
  Shipping_Name : string;
  Shipping_Phone : string;
  Shipping_TrackingNumber : string
}.

Definition Shipping_zero : Shipping := {|
  Shipping_Address := None;
  Shipping_Carrier := EmptyString;
  Shipping_Name := EmptyString;
  Shipping_Phone := EmptyString;
  Shipping_TrackingNumber := EmptyString
|}.

Definition set_Shipping_Address (x : option Address) (r : Shipping) : Shipping := {|
  Shipping_Address := x;
  Shipping_Carrier := Shipping_Carrier r;
  Shipping_Name := Shipping_Name r;
  Shipping_Phone := Shipping_Phone r;
  Shipping_TrackingNumber := Shipping_TrackingNumber r
|}.

Definition set_Shipping_Carrier (x : string) (r : Shipping) : Shipping := {|
  Shipping_Address := Shipping_Address r;
  Shipping_Carrier := x;
  Shipping_Name := Shipping_Name r;
  Shipping_Phone := Shipping_Phone r;
  Shipping_TrackingNumber := Shipping_TrackingNumber r
|}.

Definition set_Shipping_Name (x : string) (r : Shipping) : Shipping := {|
  Shipping_Address := Shipping_Address r;
  Shipping_Carrier := Shipping_Carrier r;
  Shipping_Name := x;
  Shipping_Phone := Shipping_Phone r;
  Shipping_TrackingNumber := Shipping_TrackingNumber r
|}.

Definition set_Shipping_Phone (x : string) (r : Shipping) : Shipping := {|
  Shipping_Address := Shipping_Address r;
  Shipping_Carrier := Shipping_Carrier r;
  Shipping_Name := Shipping_Name r;
  Shipping_Phone := x;
  Shipping_TrackingNumber := Shipping_TrackingNumber r
|}.

Definition set_Shipping_TrackingNumber (x : string) (r : Shipping) : Shipping := {|
  Shipping_Address := Shipping_Address r;
  Shipping_Carrier := Shipping_Carrier r;
  Shipping_Name := Shipping_Name r;
  Shipping_Phone := Shipping_Phone r;
  Shipping_TrackingNumber := x
|}.


Definition Shipping_json : json.Decoder Shipping :=
  json.struct "stripe.Shipping" Shipping_zero
    [ json.field "address" Shipping_Address set_Shipping_Address (json.ptr Address_json);
      json.field "carrier" Shipping_Carrier set_Shipping_Carrier json.string;
      json.field "name" Shipping_Name set_Shipping_Name json.string;
      json.field "phone" Shipping_Phone set_Shipping_Phone json.string;
      json.field "tracking_number" Shipping_TrackingNumber set_Shipping_TrackingNumber
        json.string ].

(** DeliveryEstimate: the estimated delivery of a shipping method. *)
Record DeliveryEstimate : Type := {
  DeliveryEstimate_Date : string;
  DeliveryEstimate_Earliest : string;
  DeliveryEstimate_Latest : string;
  DeliveryEstimate_Type : OrderDeliveryEstimateType
}.

Definition DeliveryEstimate_zero : DeliveryEstimate := {|
  DeliveryEstimate_Date := EmptyString;
  DeliveryEstimate_Earliest := EmptyString;
  DeliveryEstimate_Latest := EmptyString;
  DeliveryEstimate_Type := EmptyString
|}.

Definition set_DeliveryEstimate_Date (x : string) (r : DeliveryEstimate) : DeliveryEstimate := {|
  DeliveryEstimate_Date := x;
  DeliveryEstimate_Earliest := DeliveryEstimate_Earliest r;
  DeliveryEstimate_Latest := DeliveryEstimate_Latest r;
  DeliveryEstimate_Type := DeliveryEstimate_Type r
|}.

Definition set_DeliveryEstimate_Earliest (x : string) (r : DeliveryEstimate) : DeliveryEstimate := {|
  DeliveryEstimate_Date := DeliveryEstimate_Date r;
  DeliveryEstimate_Earliest := x;
  DeliveryEstimate_Latest := DeliveryEstimate_Latest r;
  DeliveryEstimate_Type := DeliveryEstimate_Type r
|}.

Definition set_DeliveryEstimate_Latest (x : string) (r : DeliveryEstimate) : DeliveryEstimate := {|
  DeliveryEstimate_Date := DeliveryEstimate_Date r;
  DeliveryEstimate_Earliest := DeliveryEstimate_Earliest r;
  DeliveryEstimate_Latest := x;
  DeliveryEstimate_Type := DeliveryEstimate_Type r
|}.

Definition set_DeliveryEstimate_Type (x : OrderDeliveryEstimateType) (r : DeliveryEstimate) : DeliveryEstimate := {|
  DeliveryEstimate_Date := DeliveryEstimate_Date r;
  DeliveryEstimate_Earliest := DeliveryEstimate_Earliest r;
  DeliveryEstimate_Latest := DeliveryEstimate_Latest r;
  DeliveryEstimate_Type := x
|}.


Definition DeliveryEstimate_json : json.Decoder DeliveryEstimate :=
  json.struct "stripe.DeliveryEstimate" DeliveryEstimate_zero
    [ json.field "date" DeliveryEstimate_Date set_DeliveryEstimate_Date json.string;
      json.field "earliest" DeliveryEstimate_Earliest set_DeliveryEstimate_Earliest json.string;
      json.field "latest" DeliveryEstimate_Latest set_DeliveryEstimate_Latest json.string;
      json.field "type" DeliveryEstimate_Type set_DeliveryEstimate_Type
        (json.named "stripe.OrderDeliveryEstimateType") ].

(** ShippingMethod describes a shipping method as available on an order. *)
Record ShippingMethod : Type := {
  ShippingMethod_Amount : Z;
  ShippingMethod_ID : string;
  ShippingMethod_Currency : Currency;
  ShippingMethod_DeliveryEstimate : option DeliveryEstimate;
  ShippingMethod_Description : string
}.

Definition ShippingMethod_zero : ShippingMethod := {|
  ShippingMethod_Amount := 0;
  ShippingMethod_ID := EmptyString;
  ShippingMethod_Currency := EmptyString;
  ShippingMethod_DeliveryEstimate := None;
  ShippingMethod_Description := EmptyString
|}.

Definition set_ShippingMethod_Amount (x : Z) (r : ShippingMethod) : ShippingMethod := {|
  ShippingMethod_Amount := x;
  ShippingMethod_ID := ShippingMethod_ID r;
  ShippingMethod_Currency := ShippingMethod_Currency r;
  ShippingMethod_DeliveryEstimate := ShippingMethod_DeliveryEstimate r;
  ShippingMethod_Description := ShippingMethod_Description r
|}.

Definition set_ShippingMethod_ID (x : string) (r : ShippingMethod) : ShippingMethod := {|
  ShippingMethod_Amount := ShippingMethod_Amount r;
  ShippingMethod_ID := x;
  ShippingMethod_Currency := ShippingMethod_Currency r;
  ShippingMethod_DeliveryEstimate := ShippingMethod_DeliveryEstimate r;
  ShippingMethod_Description := ShippingMethod_Description r
|}.

Definition set_ShippingMethod_Currency (x : Currency) (r : ShippingMethod) : ShippingMethod := {|
  ShippingMethod_Amount := ShippingMethod_Amount r;
  ShippingMethod_ID := ShippingMethod_ID r;
  ShippingMethod_Currency := x;
  ShippingMethod_DeliveryEstimate := ShippingMethod_DeliveryEstimate r;
  ShippingMethod_Description := ShippingMethod_Description r
|}.

Definition set_ShippingMethod_DeliveryEstimate (x : option DeliveryEstimate) (r : ShippingMethod) : ShippingMethod := {|
  ShippingMethod_Amount := ShippingMethod_Amount r;
  ShippingMethod_ID := ShippingMethod_ID r;
  ShippingMethod_Currency := ShippingMethod_Currency r;
  ShippingMethod_DeliveryEstimate := x;
  ShippingMethod_Description := ShippingMethod_Description r
|}.

Definition set_ShippingMethod_Description (x : string) (r : ShippingMethod) : ShippingMethod := {|
  ShippingMethod_Amount := ShippingMethod_Amount r;
  ShippingMethod_ID := ShippingMethod_ID r;
  ShippingMethod_Currency := ShippingMethod_Currency r;
  ShippingMethod_DeliveryEstimate := ShippingMethod_DeliveryEstimate r;
  ShippingMethod_Description := x
|}.


Definition ShippingMethod_json : json.Decoder ShippingMethod :=
  json.struct "stripe.ShippingMethod" ShippingMethod_zero
    [ json.field "amount" ShippingMethod_Amount set_ShippingMethod_Amount json.int64;
      json.field "id" ShippingMethod_ID set_ShippingMethod_ID json.string;
      json.field "currency" ShippingMethod_Currency set_ShippingMethod_Currency
        (json.named "stripe.Currency");
      json.field "delivery_estimate" ShippingMethod_DeliveryEstimate
        set_ShippingMethod_DeliveryEstimate (json.ptr DeliveryEstimate_json);
      json.field "description" ShippingMethod_Description set_ShippingMethod_Description
        json.string ].

(** StatusTransitions are the timestamps at which the order status was updated. *)
Record StatusTransitions : Type := {
  StatusTransitions_Canceled : Z;
  StatusTransitions_Fulfilled : Z;
  StatusTransitions_Paid : Z;
  StatusTransitions_Returned : Z
}.

Definition StatusTransitions_zero : StatusTransitions := {|
  StatusTransitions_Canceled := 0;
  StatusTransitions_Fulfilled := 0;
  StatusTransitions_Paid := 0;
  StatusTransitions_Returned := 0
|}.

Definition set_StatusTransitions_Canceled (x : Z) (r : StatusTransitions) : StatusTransitions := {|
  StatusTransitions_Canceled := x;
  StatusTransitions_Fulfilled := StatusTransitions_Fulfilled r;
  StatusTransitions_Paid := StatusTransitions_Paid r;
  StatusTransitions_Returned := StatusTransitions_Returned r
|}.

Definition set_StatusTransitions_Fulfilled (x : Z) (r : StatusTransitions) : StatusTransitions := {|
  StatusTransitions_Canceled := StatusTransitions_Canceled r;
  StatusTransitions_Fulfilled := x;
  StatusTransitions_Paid := StatusTransitions_Paid r;
  StatusTransitions_Returned := StatusTransitions_Returned r
|}.

Definition set_StatusTransitions_Paid (x : Z) (r : StatusTransitions) : StatusTransitions := {|
  StatusTransitions_Canceled := StatusTransitions_Canceled r;
  StatusTransitions_Fulfilled := StatusTransitions_Fulfilled r;
  StatusTransitions_Paid := x;
  StatusTransitions_Returned := StatusTransitions_Returned r
|}.

Definition set_StatusTransitions_Returned (x : Z) (r : StatusTransitions) : StatusTransitions := {|
  StatusTransitions_Canceled := StatusTransitions_Canceled r;
  StatusTransitions_Fulfilled := StatusTransitions_Fulfilled r;
  StatusTransitions_Paid := StatusTransitions_Paid r;
  StatusTransitions_Returned := x
|}.


Definition StatusTransitions_json : json.Decoder StatusTransitions :=
  json.struct "stripe.StatusTransitions" StatusTransitions_zero
    [ json.field "canceled" StatusTransitions_Canceled set_StatusTransitions_Canceled json.int64;
      json.field "fulfiled" StatusTransitions_Fulfilled set_StatusTransitions_Fulfilled json.int64;
      json.field "paid" StatusTransitions_Paid set_StatusTransitions_Paid json.int64;
      json.field "returned" StatusTransitions_Returned set_StatusTransitions_Returned json.int64 ].

(** Order is the resource representing an order. *)
Record Order : Type := {
  Order_Amount : Z;
  Order_AmountReturned : Z;
  Order_Application : string;
  Order_ApplicationFee : Z;
  Order_Charge : option Charge;
  Order_Created : Z;
  Order_Currency : Currency;
  Order_Customer : Customer;
  Order_Email : string;
  Order_ID : string;
  Order_Items : list (option OrderItem);
  Order_Livemode : bool;
  Order_Metadata : gmap string string;
  Order_Returns : option OrderReturnList;
  Order_SelectedShippingMethod : option string;
  Order_Shipping : option Shipping;
  Order_ShippingMethods : list (option ShippingMethod);
  Order_Status : string;
  Order_StatusTransitions : StatusTransitions;
  Order_Updated : Z
}.

Definition Order_zero : Order := {|
  Order_Amount := 0;
  Order_AmountReturned := 0;
  Order_Application := EmptyString;
  Order_ApplicationFee := 0;
  Order_Charge := None;
  Order_Created := 0;
  Order_Currency := EmptyString;
  Order_Customer := json.zero Customer_json;
  Order_Email := EmptyString;
  Order_ID := EmptyString;
  Order_Items := [];
  Order_Livemode := false;
  Order_Metadata := ∅;
  Order_Returns := None;
  Order_SelectedShippingMethod := None;
  Order_Shipping := None;
  Order_ShippingMethods := [];
  Order_Status := EmptyString;
  Order_StatusTransitions := StatusTransitions_zero;
  Order_Updated := 0
|}.

Definition set_Order_Amount (x : Z) (r : Order) : Order := {|
  Order_Amount := x;
  Order_AmountReturned := Order_AmountReturned r;
  Order_Application := Order_Application r;
  Order_ApplicationFee := Order_ApplicationFee r;
  Order_Charge := Order_Charge r;
  Order_Created := Order_Created r;
  Order_Currency := Order_Currency r;
  Order_Customer := Order_Customer r;
  Order_Email := Order_Email r;
  Order_ID := Order_ID r;
  Order_Items := Order_Items r;
  Order_Livemode := Order_Livemode r;
  Order_Metadata := Order_Metadata r;
  Order_Returns := Order_Returns r;
  Order_SelectedShippingMethod := Order_SelectedShippingMethod r;
  Order_Shipping := Order_Shipping r;
  Order_ShippingMethods := Order_ShippingMethods r;
  Order_Status := Order_Status r;
  Order_StatusTransitions := Order_StatusTransitions r;
  Order_Updated := Order_Updated r
|}.

Definition set_Order_AmountReturned (x : Z) (r : Order) : Order := {|
  Order_Amount := Order_Amount r;
  Order_AmountReturned := x;
  Order_Application := Order_Application r;
  Order_ApplicationFee := Order_ApplicationFee r;
  Order_Charge := Order_Charge r;
  Order_Created := Order_Created r;
  Order_Currency := Order_Currency r;
  Order_Customer := Order_Customer r;
  Order_Email := Order_Email r;
  Order_ID := Order_ID r;
  Order_Items := Order_Items r;
  Order_Livemode := Order_Livemode r;
  Order_Metadata := Order_Metadata r;
  Order_Returns := Order_Returns r;
  Order_SelectedShippingMethod := Order_SelectedShippingMethod r;
  Order_Shipping := Order_Shipping r;
  Order_ShippingMethods := Order_ShippingMethods r;
  Order_Status := Order_Status r;
  Order_StatusTransitions := Order_StatusTransitions r;
  Order_Updated := Order_Updated r
|}.

Definition set_Order_Application (x : string) (r : Order) : Order := {|
  Order_Amount := Order_Amount r;
  Order_AmountReturned := Order_AmountReturned r;
  Order_Application := x;
  Order_ApplicationFee := Order_ApplicationFee r;
  Order_Charge := Order_Charge r;
  Order_Created := Order_Created r;
  Order_Currency := Order_Currency r;
  Order_Customer := Order_Customer r;
  Order_Email := Order_Email r;
  Order_ID := Order_ID r;
  Order_Items := Order_Items r;
  Order_Livemode := Order_Livemode r;
  Order_Metadata := Order_Metadata r;
  Order_Returns := Order_Returns r;
  Order_SelectedShippingMethod := Order_SelectedShippingMethod r;
  Order_Shipping := Order_Shipping r;
  Order_ShippingMethods := Order_ShippingMethods r;
  Order_Status := Order_Status r;
  Order_StatusTransitions := Order_StatusTransitions r;
  Order_Updated := Order_Updated r
|}.

Definition set_Order_ApplicationFee (x : Z) (r : Order) : Order := {|
  Order_Amount := Order_Amount r;
  Order_AmountReturned := Order_AmountReturned r;
  Order_Application := Order_Application r;
  Order_ApplicationFee := x;
  Order_Charge := Order_Charge r;
  Order_Created := Order_Created r;
  Order_Currency := Order_Currency r;
  Order_Customer := Order_Customer r;
  Order_Email := Order_Email r;
  Order_ID := Order_ID r;
  Order_Items := Order_Items r;
  Order_Livemode := Order_Livemode r;
  Order_Metadata := Order_Metadata r;
  Order_Returns := Order_Returns r;
  Order_SelectedShippingMethod := Order_SelectedShippingMethod r;
  Order_Shipping := Order_Shipping r;
  Order_ShippingMethods := Order_ShippingMethods r;
  Order_Status := Order_Status r;
  Order_StatusTransitions := Order_StatusTransitions r;
  Order_Updated := Order_Updated r
|}.

Definition set_Order_Charge (x : option Charge) (r : Order) : Order := {|
  Order_Amount := Order_Amount r;
  Order_AmountReturned := Order_AmountReturned r;
  Order_Application := Order_Application r;
  Order_ApplicationFee := Order_ApplicationFee r;
  Order_Charge := x;
  Order_Created := Order_Created r;
  Order_Currency := Order_Currency r;
  Order_Customer := Order_Customer r;
  Order_Email := Order_Email r;
  Order_ID := Order_ID r;
  Order_Items := Order_Items r;
  Order_Livemode := Order_Livemode r;
  Order_Metadata := Order_Metadata r;
  Order_Returns := Order_Returns r;
  Order_SelectedShippingMethod := Order_SelectedShippingMethod r;
  Order_Shipping := Order_Shipping r;
  Order_ShippingMethods := Order_ShippingMethods r;
  Order_Status := Order_Status r;
  Order_StatusTransitions := Order_StatusTransitions r;
  Order_Updated := Order_Updated r
|}.

Definition set_Order_Created (x : Z) (r : Order) : Order := {|
  Order_Amount := Order_Amount r;
  Order_AmountReturned := Order_AmountReturned r;
  Order_Application := Order_Application r;
  Order_ApplicationFee := Order_ApplicationFee r;
  Order_Charge := Order_Charge r;
  Order_Created := x;
  Order_Currency := Order_Currency r;
  Order_Customer := Order_Customer r;
  Order_Email := Order_Email r;
  Order_ID := Order_ID r;
  Order_Items := Order_Items r;
  Order_Livemode := Order_Livemode r;
  Order_Metadata := Order_Metadata r;
  Order_Returns := Order_Returns r;
  Order_SelectedShippingMethod := Order_SelectedShippingMethod r;
  Order_Shipping := Order_Shipping r;
  Order_ShippingMethods := Order_ShippingMethods r;
  Order_Status := Order_Status r;
  Order_StatusTransitions := Order_StatusTransitions r;
  Order_Updated := Order_Updated r
|}.

Definition set_Order_Currency (x : Currency) (r : Order) : Order := {|
  Order_Amount := Order_Amount r;
  Order_AmountReturned := Order_AmountReturned r;
  Order_Application := Order_Application r;
  Order_ApplicationFee := Order_ApplicationFee r;
  Order_Charge := Order_Charge r;
  Order_Created := Order_Created r;
  Order_Currency := x;
  Order_Customer := Order_Customer r;
  Order_Email := Order_Email r;
  Order_ID := Order_ID r;
  Order_Items := Order_Items r;
  Order_Livemode := Order_Livemode r;
  Order_Metadata := Order_Metadata r;
  Order_Returns := Order_Returns r;
  Order_SelectedShippingMethod := Order_SelectedShippingMethod r;
  Order_Shipping := Order_Shipping r;
  Order_ShippingMethods := Order_ShippingMethods r;
  Order_Status := Order_Status r;
  Order_StatusTransitions := Order_StatusTransitions r;
  Order_Updated := Order_Updated r
|}.

Definition set_Order_Customer (x : Customer) (r : Order) : Order := {|
  Order_Amount := Order_Amount r;
  Order_AmountReturned := Order_AmountReturned r;
  Order_Application := Order_Application r;
  Order_ApplicationFee := Order_ApplicationFee r;
  Order_Charge := Order_Charge r;
  Order_Created := Order_Created r;
  Order_Currency := Order_Currency r;
  Order_Customer := x;
  Order_Email := Order_Email r;
  Order_ID := Order_ID r;
  Order_Items := Order_Items r;
  Order_Livemode := Order_Livemode r;
  Order_Metadata := Order_Metadata r;
  Order_Returns := Order_Returns r;
  Order_SelectedShippingMethod := Order_SelectedShippingMethod r;
  Order_Shipping := Order_Shipping r;
  Order_ShippingMethods := Order_ShippingMethods r;
  Order_Status := Order_Status r;
  Order_StatusTransitions := Order_StatusTransitions r;
  Order_Updated := Order_Updated r
|}.

Definition set_Order_Email (x : string) (r : Order) : Order := {|
  Order_Amount := Order_Amount r;
  Order_AmountReturned := Order_AmountReturned r;
  Order_Application := Order_Application r;
  Order_ApplicationFee := Order_ApplicationFee r;
  Order_Charge := Order_Charge r;
  Order_Created := Order_Created r;
  Order_Currency := Order_Currency r;
  Order_Customer := Order_Customer r;
  Order_Email := x;
  Order_ID := Order_ID r;
  Order_Items := Order_Items r;
  Order_Livemode := Order_Livemode r;
  Order_Metadata := Order_Metadata r;
  Order_Returns := Order_Returns r;
  Order_SelectedShippingMethod := Order_SelectedShippingMethod r;
  Order_Shipping := Order_Shipping r;
  Order_ShippingMethods := Order_ShippingMethods r;
  Order_Status := Order_Status r;
  Order_StatusTransitions := Order_StatusTransitions r;
  Order_Updated := Order_Updated r
|}.

Definition set_Order_ID (x : string) (r : Order) : Order := {|
  Order_Amount := Order_Amount r;
  Order_AmountReturned := Order_AmountReturned r;
  Order_Application := Order_Application r;
  Order_ApplicationFee := Order_ApplicationFee r;
  Order_Charge := Order_Charge r;
  Order_Created := Order_Created r;
  Order_Currency := Order_Currency r;
  Order_Customer := Order_Customer r;
  Order_Email := Order_Email r;
  Order_ID := x;
  Order_Items := Order_Items r;
  Order_Livemode := Order_Livemode r;
  Order_Metadata := Order_Metadata r;
  Order_Returns := Order_Returns r;
  Order_SelectedShippingMethod := Order_SelectedShippingMethod r;
  Order_Shipping := Order_Shipping r;
  Order_ShippingMethods := Order_ShippingMethods r;
  Order_Status := Order_Status r;
  Order_StatusTransitions := Order_StatusTransitions r;
  Order_Updated := Order_Updated r
|}.

Definition set_Order_Items (x : list (option OrderItem)) (r : Order) : Order := {|
  Order_Amount := Order_Amount r;
  Order_AmountReturned := Order_AmountReturned r;
  Order_Application := Order_Application r;
  Order_ApplicationFee := Order_ApplicationFee r;
  Order_Charge := Order_Charge r;
  Order_Created := Order_Created r;
  Order_Currency := Order_Currency r;
  Order_Customer := Order_Customer r;
  Order_Email := Order_Email r;
  Order_ID := Order_ID r;
  Order_Items := x;
  Order_Livemode := Order_Livemode r;
  Order_Metadata := Order_Metadata r;
  Order_Returns := Order_Returns r;
  Order_SelectedShippingMethod := Order_SelectedShippingMethod r;
  Order_Shipping := Order_Shipping r;
  Order_ShippingMethods := Order_ShippingMethods r;
  Order_Status := Order_Status r;
  Order_StatusTransitions := Order_StatusTransitions r;
  Order_Updated := Order_Updated r
|}.

Definition set_Order_Livemode (x : bool) (r : Order) : Order := {|
  Order_Amount := Order_Amount r;
  Order_AmountReturned := Order_AmountReturned r;
  Order_Application := Order_Application r;
  Order_ApplicationFee := Order_ApplicationFee r;
  Order_Charge := Order_Charge r;
  Order_Created := Order_Created r;
  Order_Currency := Order_Currency r;
  Order_Customer := Order_Customer r;
  Order_Email := Order_Email r;
  Order_ID := Order_ID r;
  Order_Items := Order_Items r;
  Order_Livemode := x;
  Order_Metadata := Order_Metadata r;
  Order_Returns := Order_Returns r;
  Order_SelectedShippingMethod := Order_SelectedShippingMethod r;
  Order_Shipping := Order_Shipping r;
  Order_ShippingMethods := Order_ShippingMethods r;
  Order_Status := Order_Status r;
  Order_StatusTransitions := Order_StatusTransitions r;
  Order_Updated := Order_Updated r
|}.

Definition set_Order_Metadata (x : gmap string string) (r : Order) : Order := {|
  Order_Amount := Order_Amount r;
  Order_AmountReturned := Order_AmountReturned r;
  Order_Application := Order_Application r;
  Order_ApplicationFee := Order_ApplicationFee r;
  Order_Charge := Order_Charge r;
  Order_Created := Order_Created r;
  Order_Currency := Order_Currency r;
  Order_Customer := Order_Customer r;
  Order_Email := Order_Email r;
  Order_ID := Order_ID r;
  Order_Items := Order_Items r;
  Order_Livemode := Order_Livemode r;
  Order_Metadata := x;
  Order_Returns := Order_Returns r;
  Order_SelectedShippingMethod := Order_SelectedShippingMethod r;
  Order_Shipping := Order_Shipping r;
  Order_ShippingMethods := Order_ShippingMethods r;
  Order_Status := Order_Status r;
  Order_StatusTransitions := Order_StatusTransitions r;
  Order_Updated := Order_Updated r
|}.

Definition set_Order_Returns (x : option OrderReturnList) (r : Order) : Order := {|
  Order_Amount := Order_Amount r;
  Order_AmountReturned := Order_AmountReturned r;
  Order_Application := Order_Application r;
  Order_ApplicationFee := Order_ApplicationFee r;
  Order_Charge := Order_Charge r;
  Order_Created := Order_Created r;
  Order_Currency := Order_Currency r;
  Order_Customer := Order_Customer r;
  Order_Email := Order_Email r;
  Order_ID := Order_ID r;
  Order_Items := Order_Items r;
  Order_Livemode := Order_Livemode r;
  Order_Metadata := Order_Metadata r;
  Order_Returns := x;
  Order_SelectedShippingMethod := Order_SelectedShippingMethod r;
  Order_Shipping := Order_Shipping r;
  Order_ShippingMethods := Order_ShippingMethods r;
  Order_Status := Order_Status r;
  Order_StatusTransitions := Order_StatusTransitions r;
  Order_Updated := Order_Updated r
|}.

Definition set_Order_SelectedShippingMethod (x : option string) (r : Order) : Order := {|
  Order_Amount := Order_Amount r;
  Order_AmountReturned := Order_AmountReturned r;
  Order_Application := Order_Application r;
  Order_ApplicationFee := Order_ApplicationFee r;
  Order_Charge := Order_Charge r;
  Order_Created := Order_Created r;
  Order_Currency := Order_Currency r;
  Order_Customer := Order_Customer r;
  Order_Email := Order_Email r;
  Order_ID := Order_ID r;
  Order_Items := Order_Items r;
  Order_Livemode := Order_Livemode r;
  Order_Metadata := Order_Metadata r;
  Order_Returns := Order_Returns r;
  Order_SelectedShippingMethod := x;
  Order_Shipping := Order_Shipping r;
  Order_ShippingMethods := Order_ShippingMethods r;
  Order_Status := Order_Status r;
  Order_StatusTransitions := Order_StatusTransitions r;
  Order_Updated := Order_Updated r
|}.

Definition set_Order_Shipping (x : option Shipping) (r : Order) : Order := {|
  Order_Amount := Order_Amount r;
  Order_AmountReturned := Order_AmountReturned r;
  Order_Application := Order_Application r;
  Order_ApplicationFee := Order_ApplicationFee r;
  Order_Charge := Order_Charge r;
  Order_Created := Order_Created r;
  Order_Currency := Order_Currency r;
  Order_Customer := Order_Customer r;
  Order_Email := Order_Email r;
  Order_ID := Order_ID r;
  Order_Items := Order_Items r;
  Order_Livemode := Order_Livemode r;
  Order_Metadata := Order_Metadata r;
  Order_Returns := Order_Returns r;
  Order_SelectedShippingMethod := Order_SelectedShippingMethod r;
  Order_Shipping := x;
  Order_ShippingMethods := Order_ShippingMethods r;
  Order_Status := Order_Status r;
  Order_StatusTransitions := Order_StatusTransitions r;
  Order_Updated := Order_Updated r
|}.

Definition set_Order_ShippingMethods (x : list (option ShippingMethod)) (r : Order) : Order := {|
  Order_Amount := Order_Amount r;
  Order_AmountReturned := Order_AmountReturned r;
  Order_Application := Order_Application r;
  Order_ApplicationFee := Order_ApplicationFee r;
  Order_Charge := Order_Charge r;
  Order_Created := Order_Created r;
  Order_Currency := Order_Currency r;
  Order_Customer := Order_Customer r;
  Order_Email := Order_Email r;
  Order_ID := Order_ID r;
  Order_Items := Order_Items r;
  Order_Livemode := Order_Livemode r;
  Order_Metadata := Order_Metadata r;
  Order_Returns := Order_Returns r;
  Order_SelectedShippingMethod := Order_SelectedShippingMethod r;
  Order_Shipping := Order_Shipping r;
  Order_ShippingMethods := x;
  Order_Status := Order_Status r;
  Order_StatusTransitions := Order_StatusTransitions r;
  Order_Updated := Order_Updated r
|}.

Definition set_Order_Status (x : string) (r : Order) : Order := {|
  Order_Amount := Order_Amount r;
  Order_AmountReturned := Order_AmountReturned r;
  Order_Application := Order_Application r;
  Order_ApplicationFee := Order_ApplicationFee r;
  Order_Charge := Order_Charge r;
  Order_Created := Order_Created r;
  Order_Currency := Order_Currency r;
  Order_Customer := Order_Customer r;
  Order_Email := Order_Email r;
  Order_ID := Order_ID r;
  Order_Items := Order_Items r;
  Order_Livemode := Order_Livemode r;
  Order_Metadata := Order_Metadata r;
  Order_Returns := Order_Returns r;
  Order_SelectedShippingMethod := Order_SelectedShippingMethod r;
  Order_Shipping := Order_Shipping r;
  Order_ShippingMethods := Order_ShippingMethods r;
  Order_Status := x;
  Order_StatusTransitions := Order_StatusTransitions r;
  Order_Updated := Order_Updated r
|}.

Definition set_Order_StatusTransitions (x : StatusTransitions) (r : Order) : Order := {|
  Order_Amount := Order_Amount r;
  Order_AmountReturned := Order_AmountReturned r;
  Order_Application := Order_Application r;
  Order_ApplicationFee := Order_ApplicationFee r;
  Order_Charge := Order_Charge r;
  Order_Created := Order_Created r;
  Order_Currency := Order_Currency r;
  Order_Customer := Order_Customer r;
  Order_Email := Order_Email r;
  Order_ID := Order_ID r;
  Order_Items := Order_Items r;
  Order_Livemode := Order_Livemode r;
  Order_Metadata := Order_Metadata r;
  Order_Returns := Order_Returns r;
  Order_SelectedShippingMethod := Order_SelectedShippingMethod r;
  Order_Shipping := Order_Shipping r;
  Order_ShippingMethods := Order_ShippingMethods r;
  Order_Status := Order_Status r;
  Order_StatusTransitions := x;
  Order_Updated := Order_Updated r
|}.

Definition set_Order_Updated (x : Z) (r : Order) : Order := {|
  Order_Amount := Order_Amount r;
  Order_AmountReturned := Order_AmountReturned r;
  Order_Application := Order_Application r;
  Order_ApplicationFee := Order_ApplicationFee r;
  Order_Charge := Order_Charge r;
  Order_Created := Order_Created r;
  Order_Currency := Order_Currency r;
  Order_Customer := Order_Customer r;
  Order_Email := Order_Email r;
  Order_ID := Order_ID r;
  Order_Items := Order_Items r;
  Order_Livemode := Order_Livemode r;
  Order_Metadata := Order_Metadata r;
  Order_Returns := Order_Returns r;
  Order_SelectedShippingMethod := Order_SelectedShippingMethod r;
  Order_Shipping := Order_Shipping r;
  Order_ShippingMethods := Order_ShippingMethods r;
  Order_Status := Order_Status r;
  Order_StatusTransitions := Order_StatusTransitions r;
  Order_Updated := x
|}.


Definition Order_fields : list (json.Field Order) :=
    [ json.field "amount" Order_Amount set_Order_Amount json.int64;
      json.field "amount_returned" Order_AmountReturned set_Order_AmountReturned json.int64;
      json.field "application" Order_Application set_Order_Application json.string;
      json.field "application_fee" Order_ApplicationFee set_Order_ApplicationFee json.int64;
      json.field "charge" Order_Charge set_Order_Charge (json.ptr Charge_json);
      json.field "created" Order_Created set_Order_Created json.int64;
      json.field "currency" Order_Currency set_Order_Currency (json.named "stripe.Currency");
      json.field "customer" Order_Customer set_Order_Customer Customer_json;
      json.field "email" Order_Email set_Order_Email json.string;
      json.field "id" Order_ID set_Order_ID json.string;
      json.field "items" Order_Items set_Order_Items
        (json.slice (json.ptr OrderItem_json) "[]*stripe.OrderItem");
      json.field "livemode" Order_Livemode set_Order_Livemode json.bool;
      json.field "metadata" Order_Metadata set_Order_Metadata
        (json.map json.string "map[string]string");
      json.field "returns" Order_Returns set_Order_Returns (json.ptr OrderReturnList_json);
      json.field "selected_shipping_method" Order_SelectedShippingMethod
        set_Order_SelectedShippingMethod (json.ptr json.string);
      json.field "shipping" Order_Shipping set_Order_Shipping (json.ptr Shipping_json);
      json.field "shipping_methods" Order_ShippingMethods set_Order_ShippingMethods
        (json.slice (json.ptr ShippingMethod_json) "[]*stripe.ShippingMethod");
      json.field "status" Order_Status set_Order_Status json.string;
      json.field "status_transitions" Order_StatusTransitions set_Order_StatusTransitions
        StatusTransitions_json;
      json.field "updated" Order_Updated set_Order_Updated json.int64 ].

(** The fields of [type order Order], the same struct without the method. *)
Definition order : json.Decoder Order :=
  json.struct "stripe.order" Order_zero Order_fields.

(** ** order.go: Order.UnmarshalJSON *)

(** Modelled from the spec: ParseID is declared outside src/. The spec has
    it as the attempt to interpret the payload as a bare JSON string, giving
    that string when it succeeds. *)
Definition ParseID (data : json.bytes) : string * bool :=
  match json.scan data with
  | Some (json.Str id) => (id, true)
  | _ => (EmptyString, false)
  end.

(** UnmarshalJSON handles deserialization of an Order. This custom
    unmarshaling is needed because the resulting property may be an id or the
    full struct if it was expanded. *)
Definition Order_UnmarshalJSON (data : json.bytes) (o : Order) : outcome Order :=
  match ParseID data with
  | (id, true) => Returned (set_Order_ID id o) None
  | (_, false) =>
      match json.Unmarshal order data Order_zero with
      | Panicked => Panicked
      | Returned _ (Some err) => Returned o (Some err)
      | Returned v None => Returned v None
      end
  end.

(** The member name [k] is stored in the field ID. *)
Definition names_ID (k : string) : bool :=
  match json.findField Order_fields k with
  | Some f => String.eqb (json.name f) "id"
  | None => false
  end.

(** The string of the last member of an object that is stored in the field
    ID, or [id] when no member is. *)
Fixpoint lastID (ms : list (string * json.value)) (id : string) : string :=
  match ms with
  | [] => id
  | (k, j) :: ms' =>
      match j with
      | json.Str s => if names_ID k then lastID ms' s else lastID ms' id
      | _ => lastID ms' id
      end
  end.

End Order.

(** ** Payloads

    JSON texts are written with ['] where the text has a double quote. *)
Fixpoint dq (s : string) : string :=
  match s with
  | EmptyString => EmptyString
  | String c t => String (if json.isByte 39 c then json.chr 34 else c) (dq t)
  end.

Definition text (s : string) : json.bytes := json.Text (dq s).

(** What a pointer to a RawMessage is left as by a member's value. *)
Definition rawPointer (j : json.value) : option json.bytes :=
  match j with
  | json.Null => None
  | _ => Some (json.Scanned j)
  end.

(** Sibling resources kept as the bytes received, to run the decoders on
    payloads that have or lack them. *)
Definition Siblings_raw : Siblings := {|
  Charge := json.bytes;
  Charge_json := json.RawMessage;
  Customer := json.bytes;
  Customer_json := json.RawMessage;
  OrderReturnList := json.bytes;
  OrderReturnList_json := json.RawMessage;
  Address := json.bytes;
  Address_json := json.RawMessage
|}.

(** The member name [k] is stored in the field of Order whose json name
    is [n]. *)
Definition selects `{Siblings} (n k : string) : bool :=
  match json.findField Order_fields k with
  | Some f => String.eqb (json.name f) n
  | None => false
  end.

(** An element of the items array and what it leaves in Items. *)
Definition item_of (j : json.value) (it : option OrderItem) : Prop :=
  match j with
  | json.Null => it = None
  | _ => exists x, OrderItem_UnmarshalJSON (json.Scanned j) OrderItem_zero = Returned x None /\
                   it = Some x
  end.

(** Decoding the values [js] one after the other with [d], the first into
    [x] and each next one into what the one before left: the value left by
    the last one, if none of them reports an error. *)
Fixpoint decode_all {F : Type} (d : json.Decoder F) (js : list json.value) (x : F) :
    option F :=
  match js with
  | [] => Some x
  | j :: js' =>
      match json.decode d j x with
      | json.Stored x' None => decode_all d js' x'
      | _ => None
      end
  end.

(** The field with the json name [n] and the decoder [d] holds [x] after the
    members [ms] of an object were decoded into a zero order: [x] is what the
    members stored in that field leave, decoded in their order into the
    field's zero value (the zero value itself if there is none). *)
Definition populated `{Siblings} {F : Type} (n : string) (d : json.Decoder F)
    (ms : list (string * json.value)) (x : F) : Prop :=
  decode_all d (List.map snd (List.filter (fun m => selects n (fst m)) ms)) (json.zero d)
  = Some x.

(** Every declared field of the order [o] is populated from the members
    [ms]. *)
Definition Order_populated_from `{Siblings} (ms : list (string * json.value)) (o : Order) :
    Prop :=
  populated "amount" json.int64 ms (Order_Amount o) /\
  populated "amount_returned" json.int64 ms (Order_AmountReturned o) /\
  populated "application" json.string ms (Order_Application o) /\
  populated "application_fee" json.int64 ms (Order_ApplicationFee o) /\
  populated "charge" (json.ptr Charge_json) ms (Order_Charge o) /\
  populated "created" json.int64 ms (Order_Created o) /\
  populated "currency" (json.named "stripe.Currency") ms (Order_Currency o) /\
  populated "customer" Customer_json ms (Order_Customer o) /\
  populated "email" json.string ms (Order_Email o) /\
  populated "id" json.string ms (Order_ID o) /\
  populated "items" (json.slice (json.ptr OrderItem_json) "[]*stripe.OrderItem") ms
    (Order_Items o) /\
  populated "livemode" json.bool ms (Order_Livemode o) /\
  populated "metadata" (json.map json.string "map[string]string") ms (Order_Metadata o) /\
  populated "returns" (json.ptr OrderReturnList_json) ms (Order_Returns o) /\
  populated "selected_shipping_method" (json.ptr json.string) ms
    (Order_SelectedShippingMethod o) /\
  populated "shipping" (json.ptr Shipping_json) ms (Order_Shipping o) /\
  populated "shipping_methods"
    (json.slice (json.ptr ShippingMethod_json) "[]*stripe.ShippingMethod") ms
    (Order_ShippingMethods o) /\
  populated "status" json.string ms (Order_Status o) /\
  populated "status_transitions" StatusTransitions_json ms (Order_StatusTransitions o) /\
  populated "updated" json.int64 ms (Order_Updated o).

(** An order with every field set, as the service sends it, and what it
    decodes to when the sibling resources are kept as raw fragments. *)
Definition order_payload : string :=
  "{'id': 'order_123', 'amount': 1500, 'amount_returned': 200, 'application': 'ca_1', 'application_fee': 15, 'charge': 'ch_1', 'created': 1500000000, 'currency': 'usd', 'customer': 'cus_1', 'email': 'a@b.c', 'items': [{'amount': 1500, 'currency': 'usd', 'description': 'T-shirt', 'parent': {'id': 'sku_1'}, 'quantity': 2, 'type': 'sku'}, {'amount': -100, 'currency': 'usd', 'description': 'Ten off', 'parent': 'coup_1', 'quantity': 1, 'type': 'coupon'}], 'livemode': true, 'metadata': {'gift': 'yes'}, 'returns': {'data': []}, 'selected_shipping_method': 'ship_free', 'shipping': {'address': {'city': 'Oslo'}, 'carrier': 'Posten', 'name': 'A', 'phone': '555', 'tracking_number': 'tr_1'}, 'shipping_methods': [{'id': 'ship_free', 'amount': 10, 'currency': 'usd', 'delivery_estimate': {'type': 'range', 'date': '2018-01-03', 'earliest': '2018-01-01', 'latest': '2018-01-05'}, 'description': 'Free'}], 'status': 'paid', 'status_transitions': {'canceled': 11, 'fulfiled': 12, 'paid': 13, 'returned': 14}, 'updated': 1500000002}".

Definition order_decoded : @Order Siblings_raw :=
  {| Order_Amount := 1500;
     Order_AmountReturned := 200;
     Order_Application := "ca_1";
     Order_ApplicationFee := 15;
     Order_Charge := (Some (json.Scanned (json.Str "ch_1")) : option (@Charge Siblings_raw));
     Order_Created := 1500000000;
     Order_Currency := "usd";
     Order_Customer := json.Scanned (json.Str "cus_1");
     Order_Email := "a@b.c";
     Order_ID := "order_123";
     Order_Items :=
       [ Some {| OrderItem_Amount := 1500;
                 OrderItem_Currency := "usd";
                 OrderItem_Description := "T-shirt";
                 OrderItem_Parent :=
                   Some {| OrderItemParent_ID := EmptyString;
                           OrderItemParent_SKU := Some {| SKU_ID := "sku_1" |};
                           OrderItemParent_Type := EmptyString |};
                 OrderItem_Quantity := 2;
                 OrderItem_Type := OrderItemTypeSKU |};
         Some {| OrderItem_Amount := -100;
                 OrderItem_Currency := "usd";
                 OrderItem_Description := "Ten off";
                 OrderItem_Parent :=
                   Some {| OrderItemParent_ID := "coup_1";
                           OrderItemParent_SKU := None;
                           OrderItemParent_Type := EmptyString |};
                 OrderItem_Quantity := 1;
                 OrderItem_Type := OrderItemTypeCoupon |} ];
     Order_Livemode := true;
     Order_Metadata := {[ "gift" := "yes" ]};
     Order_Returns := Some (json.Scanned (json.Object [("data", json.Array [])]));
     Order_SelectedShippingMethod := Some "ship_free";
     Order_Shipping :=
       Some {| Shipping_Address :=
                 (Some (json.Scanned (json.Object [("city", json.Str "Oslo")]))
                  : option (@Address Siblings_raw));
               Shipping_Carrier := "Posten";
               Shipping_Name := "A";
               Shipping_Phone := "555";
               Shipping_TrackingNumber := "tr_1" |};
     Order_ShippingMethods :=
       [ Some {| ShippingMethod_Amount := 10;
                 ShippingMethod_ID := "ship_free";
                 ShippingMethod_Currency := "usd";
                 ShippingMethod_DeliveryEstimate :=
                   Some {| DeliveryEstimate_Date := "2018-01-03";
                           DeliveryEstimate_Earliest := "2018-01-01";
                           DeliveryEstimate_Latest := "2018-01-05";
                           DeliveryEstimate_Type := OrderDeliveryEstimateTypeRange |};
                 ShippingMethod_Description := "Free" |} ];
     Order_Status := OrderStatusPaid;
     Order_StatusTransitions :=
       {| StatusTransitions_Canceled := 11;
          StatusTransitions_Fulfilled := 12;
          StatusTransitions_Paid := 13;
          StatusTransitions_Returned := 14 |};
     Order_Updated := 1500000002 |}.

(** A decoder that panics on no value. *)
Definition never_panics {T : Type} (d : json.Decoder T) : Prop :=
  forall j v, json.decode d j v <> json.Panics.

(** ** Facts about the package *)

(** *** The scanner's fuel

    Every scanning function takes from the text at least one byte, so
    the fuel that [parse] gives is never what makes a text fail. *)

Lemma skipSpace_length (s : string) :
  (String.length (json.skipSpace s) <= String.length s)%nat.
Proof.
  induction s as [|c t IH]; cbn; [lia|].
  destruct (json.isSpace c); cbn; lia.
Qed.

Lemma digits_length (s : string) :
  forall ds r, json.digits s = (ds, r) -> (String.length r <= String.length s)%nat.
Proof.
  induction s as [|c t IH]; cbn; intros ds r Hd.
  - inversion Hd. cbn. lia.
  - destruct (json.isDigit c).
    + destruct (json.digits t) as [ds' r'] eqn:Hd'. inversion Hd; subst.
      specialize (IH _ _ eq_refl). lia.
    + inversion Hd; subst. cbn. lia.
Qed.

Lemma exponent_length (lit s lit' r : string) :
  json.exponent lit s = Some (lit', r) -> (String.length r <= String.length s)%nat.
Proof.
  unfold json.exponent. destruct s as [|c t]; [intros Hx; inversion Hx; cbn; lia|].
  destruct (_ || _).
  - destruct t as [|c1 t1].
    + cbn. discriminate.
    + destruct (_ || _).
      * destruct (json.digits t1) as [ds r'] eqn:Hd. apply digits_length in Hd.
        destruct ds; [discriminate|]. intros Hx; inversion Hx; subst. cbn. lia.
      * destruct (json.digits (String c1 t1)) as [ds r'] eqn:Hd. apply digits_length in Hd.
        destruct ds; [discriminate|]. intros Hx; inversion Hx; subst. cbn in *. lia.
  - intros Hx; inversion Hx; subst. lia.
Qed.

Lemma fraction_length (lit s lit' r : string) :
  json.fraction lit s = Some (lit', r) -> (String.length r <= String.length s)%nat.
Proof.
  unfold json.fraction. destruct s as [|c t]; [intros Hx; inversion Hx; cbn; lia|].
  destruct (json.isByte 46 c).
  - destruct (json.digits t) as [ds r'] eqn:Hd. apply digits_length in Hd.
    destruct ds; [discriminate|]. intros Hx. apply exponent_length in Hx. cbn. lia.
  - apply exponent_length.
Qed.

Lemma number_length (s lit r : string) :
  json.number s = Some (lit, r) -> (String.length r < String.length s)%nat.
Proof.
  unfold json.number. destruct s as [|c t]; [discriminate|].
  destruct (json.isByte 45 c).
  - destruct t as [|c1 t1]; [discriminate|].
    destruct (json.isByte 48 c1).
    + intros Hx. apply fraction_length in Hx. cbn. lia.
    + destruct (json.between 49 57 c1); [|discriminate].
      destruct (json.digits t1) as [ds r'] eqn:Hd. apply digits_length in Hd.
      intros Hx. apply fraction_length in Hx. cbn. lia.
  - destruct (json.isByte 48 c).
    + intros Hx. apply fraction_length in Hx. cbn. lia.
    + destruct (json.between 49 57 c); [|discriminate].
      destruct (json.digits t) as [ds r'] eqn:Hd. apply digits_length in Hd.
      intros Hx. apply fraction_length in Hx. cbn. lia.
Qed.

Lemma literal_length (lit s r : string) :
  json.literal lit s = Some r -> (String.length r <= String.length s)%nat.
Proof.
  revert s. induction lit as [|a l IH]; intros s; cbn.
  - intros Hx; inversion Hx; lia.
  - destruct s as [|b t]; [discriminate|]. destruct (Ascii.eqb a b); [|discriminate].
    intros Hx. apply IH in Hx. cbn. lia.
Qed.

Lemma prepend_Some (p : string) (o : option (string * string)) (x r : string) :
  json.prepend p o = Some (x, r) -> exists x', o = Some (x', r).
Proof. destruct o as [[x' r']|]; cbn; [|discriminate]. intros Hx; inversion Hx; eauto. Qed.

Lemma unquote_length (n : nat) :
  forall s x r, (String.length s <= n)%nat ->
  json.unquote s = Some (x, r) -> (String.length r < String.length s)%nat.
Proof.
  induction n as [|n IH]; intros s x r Hn.
  - destruct s; [discriminate|cbn in Hn; lia].
  - destruct s as [|c t]; [discriminate|]. cbn [json.unquote]. cbn [String.length] in Hn.
    repeat match goal with
    | |- context [if ?b then _ else _] => destruct b
    | |- context [match ?t with EmptyString => _ | String _ _ => _ end] => destruct t
    | |- context [match ?o with Some _ => _ | None => _ end] => destruct o
    end.
    all: try discriminate.
    all: try match goal with
         | |- Some _ = Some _ -> _ => intros Hx; injection Hx as <- <-; cbn [String.length]; lia
         end.
    all: intros Hx; apply prepend_Some in Hx as [x' Hx]; apply IH in Hx;
      cbn [String.length] in *; lia.
Qed.

Ltac skip_space s :=
  let Hl := fresh "Hl" in
  pose proof (skipSpace_length s) as Hl;
  destruct (json.skipSpace s) eqn:?; cbn [String.length] in Hl.

Ltac replay :=
  repeat match goal with
         | H : ?x = _ |- context [?x] => rewrite H
         | H : forall f' : nat, _ -> _ = Some _ |- _ => rewrite H by lia
         end.

Ltac case_byte n c := destruct (json.isByte n c) eqn:?.

Ltac done_here :=
  let Hx := fresh "Hx" in
  intros Hx; injection Hx as <- <-;
  cbn [String.length] in *;
  split; [lia|];
  let f' := fresh "f'" in let Hf := fresh "Hf" in
  intros [|f'] Hf; [lia|];
  cbn [json.scanValue json.scanElems json.scanMembers]; replay; reflexivity.

Lemma scan_fuel (f : nat) :
  (forall s v r, json.scanValue f s = Some (v, r) ->
     (String.length r < String.length s)%nat /\
     forall f', (2 * (String.length s - String.length r) <= S f')%nat ->
       json.scanValue f' s = Some (v, r)) /\
  (forall s vs r, json.scanElems f s = Some (vs, r) ->
     (String.length r < String.length s)%nat /\
     forall f', (2 * (String.length s - String.length r) <= S f')%nat ->
       json.scanElems f' s = Some (vs, r)) /\
  (forall s ms r, json.scanMembers f s = Some (ms, r) ->
     (String.length r < String.length s)%nat /\
     forall f', (2 * (String.length s - String.length r) <= S f')%nat ->
       json.scanMembers f' s = Some (ms, r)).
Proof.
  induction f as [|f (IHv & IHe & IHm)]; [repeat split; discriminate|].
  split; [|split].
  - intros s v r. cbn [json.scanValue].
    skip_space s; [discriminate|].
    case_byte 123%N a.
    { skip_space s0; [discriminate|]. case_byte 125%N a0; [done_here|].
      destruct (json.scanMembers f (String a0 s1)) as [[ms r']|] eqn:Hm; [|discriminate].
      apply IHm in Hm as [Hlen Hfuel]. done_here. }
    case_byte 91%N a.
    { skip_space s0; [discriminate|]. case_byte 93%N a0; [done_here|].
      destruct (json.scanElems f (String a0 s1)) as [[vs r']|] eqn:He; [|discriminate].
      apply IHe in He as [Hlen Hfuel]. done_here. }
    case_byte 34%N a.
    { destruct (json.unquote s0) as [[x r']|] eqn:Hq; [|discriminate].
      pose proof (unquote_length _ _ _ _ (le_n _) Hq). done_here. }
    case_byte 110%N a.
    { destruct (json.literal "ull" s0) as [r'|] eqn:Hq; [|discriminate].
      pose proof (literal_length _ _ _ Hq). done_here. }
    case_byte 116%N a.
    { destruct (json.literal "rue" s0) as [r'|] eqn:Hq; [|discriminate].
      pose proof (literal_length _ _ _ Hq). done_here. }
    case_byte 102%N a.
    { destruct (json.literal "alse" s0) as [r'|] eqn:Hq; [|discriminate].
      pose proof (literal_length _ _ _ Hq). done_here. }
    destruct (json.number (String a s0)) as [[lit r']|] eqn:Hq; [|discriminate].
    pose proof (number_length _ _ _ Hq). done_here.
  - intros s vs r. cbn [json.scanElems].
    destruct (json.scanValue f s) as [[v r1]|] eqn:Hv; [|discriminate].
    apply IHv in Hv as [Hlen Hfuel].
    skip_space r1; [discriminate|].
    case_byte 44%N a.
    { destruct (json.scanElems f s0) as [[vs' r']|] eqn:He; [|discriminate].
      apply IHe in He as [Hlen' Hfuel']. done_here. }
    case_byte 93%N a; [done_here|discriminate].
  - intros s ms r. cbn [json.scanMembers].
    skip_space s; [discriminate|].
    case_byte 34%N a; [|discriminate].
    destruct (json.unquote s0) as [[k r1]|] eqn:Hq; [|discriminate].
    pose proof (unquote_length _ _ _ _ (le_n _) Hq).
    skip_space r1; [discriminate|].
    case_byte 58%N a0; [|discriminate].
    destruct (json.scanValue f s1) as [[v r2]|] eqn:Hv; [|discriminate].
    apply IHv in Hv as [Hlen Hfuel].
    skip_space r2; [discriminate|].
    case_byte 44%N a1.
    { destruct (json.scanMembers f s2) as [[ms' r']|] eqn:Hm; [|discriminate].
      apply IHm in Hm as [Hlen' Hfuel']. done_here. }
    case_byte 125%N a1; [done_here|discriminate].
Qed.

(** The fuel of [parse] is enough: a text that is scanned as one value with
    some fuel is scanned as that value by [parse]. *)
Lemma parse_fuel (f : nat) (s : string) (v : json.value) (r : string) :
  json.scanValue f s = Some (v, r) ->
  json.skipSpace r = EmptyString ->
  json.parse s = Some v.
Proof.
  intros Hv Hr. unfold json.parse.
  destruct (proj1 (scan_fuel f) _ _ _ Hv) as [Hlen Hfuel].
  rewrite Hfuel by lia. rewrite Hr. reflexivity.
Qed.

Lemma Unmarshal_scanned {T : Type} (d : json.Decoder T) (j : json.value) (v : T) :
  json.Unmarshal d (json.Scanned j) v =
  match json.decode d j v with
  | json.Stored v' saved => Returned v' saved
  | json.Aborted v' err => Returned v' (Some err)
  | json.Panics => Panicked
  end.
Proof. reflexivity. Qed.

Lemma Unmarshal_scan {T : Type} (d : json.Decoder T) (data : json.bytes) (j : json.value) (v : T) :
  json.scan data = Some j ->
  json.Unmarshal d data v = json.Unmarshal d (json.Scanned j) v.
Proof. intros Hs. unfold json.Unmarshal. rewrite Hs. reflexivity. Qed.

Lemma Unmarshal_SyntaxError {T : Type} (d : json.Decoder T) (data : json.bytes) (v : T) :
  json.scan data = None ->
  json.Unmarshal d data v = Returned v (Some SyntaxError).
Proof. intros Hs. unfold json.Unmarshal. rewrite Hs. reflexivity. Qed.

(** A pointer that was given a value other than null points somewhere,
    whatever became of the decoding of what it points to. *)
Lemma ptr_allocates {T : Type} (d : json.Decoder T) (j : json.value) (p q : option T)
    (err : option error) :
  j <> json.Null ->
  json.Unmarshal (json.ptr d) (json.Scanned j) p = Returned q err ->
  is_Some q.
Proof.
  intros Hj. rewrite Unmarshal_scanned. cbn.
  destruct j; try congruence;
    destruct (json.decode d _ _); cbn; intros Hq; inversion Hq; eauto.
Qed.

(** The map of raw members, in closed form: decoding them cannot fail. *)
Lemma entries_RawMessage (ms : list (string * json.value)) :
  forall (m : gmap string (option json.bytes)) (saved : option error),
  json.entries (json.ptr json.RawMessage) ms m saved =
  json.Stored (foldl (fun m '(k, j) => <[k := rawPointer j]> m) m ms) saved.
Proof.
  induction ms as [|[k j] ms IH]; intros m saved; [reflexivity|].
  cbn [json.entries foldl].
  replace (json.decode (json.ptr json.RawMessage) j (json.zero (json.ptr json.RawMessage)))
    with (json.Stored (rawPointer j) None) by (destruct j; reflexivity).
  rewrite IH. destruct saved; reflexivity.
Qed.

Lemma rawObject_lookup (ms : list (string * json.value)) :
  forall (m : gmap string (option json.bytes)) (k : string) (p : option json.bytes),
  foldl (fun m '(k, j) => <[k := rawPointer j]> m) m ms !! k = Some p ->
  m !! k = Some p \/ exists j, (k, j) ∈ ms /\ p = rawPointer j.
Proof.
  induction ms as [|[k0 j0] ms IH]; intros m k p; cbn [foldl].
  - auto.
  - intros Hl. destruct (IH _ _ _ Hl) as [Hm | (j & Hin & ->)].
    + destruct (decide (k0 = k)) as [->|Hne].
      * rewrite lookup_insert_eq in Hm. inversion Hm; subst.
        right. exists j0. split; [left | reflexivity].
      * rewrite lookup_insert_ne in Hm by assumption. auto.
    + right. exists j. split; [right; assumption | reflexivity].
Qed.

(** What the second pass leaves under a key is nil, for no member or a null
    one, or the bytes of a member of the object. *)
Lemma Unmarshal_rawObject (data : json.bytes) (rawObject : gmap string (option json.bytes))
    (err : option error) (k : string) (raw : json.bytes) :
  json.Unmarshal rawObject_json data ∅ = Returned rawObject err ->
  default None (rawObject !! k) = Some raw ->
  exists ms j, json.scan data = Some (json.Object ms) /\ (k, j) ∈ ms /\
    j <> json.Null /\ raw = json.Scanned j.
Proof.
  unfold json.Unmarshal. destruct (json.scan data) as [j0|] eqn:Hs.
  - destruct j0; cbn; intros Hr; inversion Hr; subst; clear Hr;
      try (rewrite lookup_empty; cbn; discriminate).
    rewrite entries_RawMessage in H0. inversion H0; subst; clear H0.
    destruct (_ !! k) as [p|] eqn:Hl; cbn; [|discriminate].
    intros ->. apply rawObject_lookup in Hl as [Hl | (j & Hin & Hp)].
    + rewrite lookup_empty in Hl. discriminate.
    + exists members, j. destruct j; cbn in Hp; try discriminate;
        inversion Hp; subst; repeat split; auto; discriminate.
  - intros Hr. inversion Hr; subst. rewrite lookup_empty. cbn. discriminate.
Qed.

Lemma rawObject_absent (ms : list (string * json.value)) (k : string) :
  (forall j, (k, j) ∉ ms) ->
  forall m : gmap string (option json.bytes),
  m !! k = None ->
  foldl (fun m '(k, j) => <[k := rawPointer j]> m) m ms !! k = None.
Proof.
  intros Hno m Hm.
  destruct (foldl _ m ms !! k) as [p|] eqn:Hl; [|reflexivity].
  apply rawObject_lookup in Hl as [Hl | (j & Hin & _)]; [congruence|].
  destruct (Hno j Hin).
Qed.

(** Only a string is stored in a string without error, null apart. *)
Lemma string_stored (j : json.value) (v s : string) :
  j <> json.Null ->
  json.Unmarshal json.string (json.Scanned j) v = Returned s None ->
  j = json.Str s.
Proof.
  intros Hj. rewrite Unmarshal_scanned.
  destruct j; cbn; intros Hr; inversion Hr; congruence.
Qed.

(** The two passes of OrderItem.UnmarshalJSON read the same payload: where
    the first goes through, so does the second; where the second fails, the
    first has failed. *)
Lemma fragments_follow_scalars (data : json.bytes) (v : OrderItem) :
  json.Unmarshal orderItem data OrderItem_zero = Returned v None ->
  exists rawObject, json.Unmarshal rawObject_json data ∅ = Returned rawObject None.
Proof.
  unfold json.Unmarshal. destruct (json.scan data) as [[| | | | |ms]|]; cbn;
    try discriminate; intros _.
  - eauto.
  - rewrite entries_RawMessage. eauto.
Qed.

Lemma fragments_error (data : json.bytes) (rawObject : gmap string (option json.bytes))
    (err : error) :
  json.Unmarshal rawObject_json data ∅ = Returned rawObject (Some err) ->
  exists err' v, json.Unmarshal orderItem data OrderItem_zero = Returned v (Some err').
Proof.
  unfold json.Unmarshal. destruct (json.scan data) as [[| | | | |ms]|]; cbn;
    try discriminate; try (intros _; eexists _, _; reflexivity).
  rewrite entries_RawMessage. discriminate.
Qed.

(** ** OrderItem.UnmarshalJSON, branch by branch *)

Section OrderItemBranches.

Variables (data : json.bytes) (oi v : OrderItem).
Variables (rawObject : gmap string (option json.bytes)) (raw : json.bytes).

Hypothesis scalars : json.Unmarshal orderItem data OrderItem_zero = Returned v None.
Hypothesis fragments : json.Unmarshal rawObject_json data ∅ = Returned rawObject None.
Hypothesis parent : default None (rawObject !! "parent") = Some raw.

Lemma UnmarshalJSON_coupon (id : string) (err : option error) :
  OrderItem_Type v = OrderItemTypeCoupon ->
  json.Unmarshal json.string raw EmptyString = Returned id err ->
  OrderItem_UnmarshalJSON data oi =
  Returned (with_Parent {| OrderItemParent_ID := id;
                           OrderItemParent_SKU := None;
                           OrderItemParent_Type :=
                             match err with
                             | Some _ => OrderItemParentTypeCoupon
                             | None => EmptyString
                             end |} v) err.
Proof.
  intros Hty Hin. unfold OrderItem_UnmarshalJSON.
  rewrite scalars. cbn zeta. rewrite fragments, Hty, parent. cbn.
  rewrite Hin. destruct err; reflexivity.
Qed.

Lemma UnmarshalJSON_shipping (id : string) (err : option error) :
  OrderItem_Type v = OrderItemTypeShipping ->
  json.Unmarshal json.string raw EmptyString = Returned id err ->
  OrderItem_UnmarshalJSON data oi =
  Returned (with_Parent {| OrderItemParent_ID := id;
                           OrderItemParent_SKU := None;
                           OrderItemParent_Type :=
                             match err with
                             | Some _ => OrderItemParentTypeShipping
                             | None => EmptyString
                             end |} v) err.
Proof.
  intros Hty Hin. unfold OrderItem_UnmarshalJSON.
  rewrite scalars. cbn zeta. rewrite fragments, Hty, parent. cbn.
  rewrite Hin. destruct err; reflexivity.
Qed.

Lemma UnmarshalJSON_sku (s : option SKU) (err : option error) :
  OrderItem_Type v = OrderItemTypeSKU ->
  json.Unmarshal (json.ptr SKU_json) raw None = Returned s err ->
  OrderItem_UnmarshalJSON data oi =
  match err, s with
  | None, _ =>
      Returned (with_Parent {| OrderItemParent_ID := EmptyString;
                               OrderItemParent_SKU := s;
                               OrderItemParent_Type := EmptyString |} v) None
  | Some _, Some sku =>
      Returned (with_Parent {| OrderItemParent_ID := SKU_ID sku;
                               OrderItemParent_SKU := s;
                               OrderItemParent_Type := OrderItemParentTypeSKU |} v) err
  | Some _, None => Panicked
  end.
Proof.
  intros Hty Hin. unfold OrderItem_UnmarshalJSON.
  rewrite scalars. cbn zeta. rewrite fragments, Hty, parent. cbn.
  rewrite Hin. destruct err, s; reflexivity.
Qed.

(** The parent fragment is the bytes of a member that is not null. *)
Lemma parent_fragment :
  exists ms j, json.scan data = Some (json.Object ms) /\ ("parent", j) ∈ ms /\
    j <> json.Null /\ raw = json.Scanned j.
Proof. exact (Unmarshal_rawObject _ _ _ _ _ fragments parent). Qed.

End OrderItemBranches.

(** A call that returns no error went through both passes, and through the
    decoding of the parent fragment where the type asks for one. *)
Lemma UnmarshalJSON_success (data : json.bytes) (oi oi' : OrderItem) :
  OrderItem_UnmarshalJSON data oi = Returned oi' None ->
  exists v rawObject parent,
    json.Unmarshal orderItem data OrderItem_zero = Returned v None /\
    json.Unmarshal rawObject_json data ∅ = Returned rawObject None /\
    oi' = with_Parent parent v /\
    ((exists raw id,
        (OrderItem_Type v = OrderItemTypeCoupon \/ OrderItem_Type v = OrderItemTypeShipping) /\
        default None (rawObject !! "parent") = Some raw /\
        json.Unmarshal json.string raw EmptyString = Returned id None /\
        parent = {| OrderItemParent_ID := id;
                    OrderItemParent_SKU := None;
                    OrderItemParent_Type := EmptyString |})
     \/ (exists raw s,
        OrderItem_Type v = OrderItemTypeSKU /\
        default None (rawObject !! "parent") = Some raw /\
        json.Unmarshal (json.ptr SKU_json) raw None = Returned s None /\
        parent = {| OrderItemParent_ID := EmptyString;
                    OrderItemParent_SKU := s;
                    OrderItemParent_Type := EmptyString |})
     \/ (OrderItem_Type v <> OrderItemTypeCoupon /\
         OrderItem_Type v <> OrderItemTypeShipping /\
         OrderItem_Type v <> OrderItemTypeSKU /\
         parent = OrderItemParent_zero)).
Proof.
  unfold OrderItem_UnmarshalJSON.
  destruct (json.Unmarshal orderItem data OrderItem_zero) as [v [e|]|] eqn:Hs;
    try discriminate.
  cbn zeta.
  destruct (json.Unmarshal rawObject_json data ∅) as [rawObject [e|]|] eqn:Hr;
    try discriminate.
  destruct (String.eqb (OrderItem_Type v) OrderItemTypeCoupon) eqn:Hc.
  { apply String.eqb_eq in Hc.
    destruct (default None (rawObject !! "parent")) as [raw|] eqn:Hp; try discriminate.
    destruct (json.Unmarshal json.string raw _) as [id [e|]|] eqn:Hin; try discriminate.
    intros Hret. inversion Hret; subst oi'.
    exists v, rawObject. eexists. repeat split. left. exists raw, id. auto. }
  destruct (String.eqb (OrderItem_Type v) OrderItemTypeShipping) eqn:Hsh.
  { apply String.eqb_eq in Hsh.
    destruct (default None (rawObject !! "parent")) as [raw|] eqn:Hp; try discriminate.
    destruct (json.Unmarshal json.string raw _) as [id [e|]|] eqn:Hin; try discriminate.
    intros Hret. inversion Hret; subst oi'.
    exists v, rawObject. eexists. repeat split. left. exists raw, id. auto. }
  destruct (String.eqb (OrderItem_Type v) OrderItemTypeSKU) eqn:Hk.
  { apply String.eqb_eq in Hk.
    destruct (default None (rawObject !! "parent")) as [raw|] eqn:Hp; try discriminate.
    destruct (json.Unmarshal (json.ptr SKU_json) raw _) as [s [e|]|] eqn:Hin.
    - cbn. destruct s; discriminate.
    - intros Hret. inversion Hret; subst oi'.
      exists v, rawObject. eexists. repeat split. right. left. exists raw, s. auto.
    - discriminate. }
  apply String.eqb_neq in Hc, Hsh, Hk.
  intros Hret. inversion Hret; subst oi'.
  exists v, rawObject, OrderItemParent_zero. repeat split. right. right. auto.
Qed.

Lemma with_Parent_Type (p : OrderItemParent) (v : OrderItem) :
  OrderItem_Type (with_Parent p v) = OrderItem_Type v.
Proof. reflexivity. Qed.

Lemma with_Parent_Parent (p : OrderItemParent) (v : OrderItem) :
  OrderItem_Parent (with_Parent p v) = Some p.
Proof. reflexivity. Qed.

(** ** The item's parent: what the decoder does *)

(** C1 (as the code has it). On an item of type coupon whose parent is the
    bare string coup_1, OrderItem.UnmarshalJSON returns no error and
    Parent.ID is coup_1, but Parent.Type is left empty, not coupon; the same
    on an item of type shipping. *)
Theorem coupon_parent_decoded_untagged :
  OrderItem_UnmarshalJSON
    (text "{'amount': 500, 'currency': 'usd', 'description': 'Ten off', 'parent': 'coup_1', 'quantity': null, 'type': 'coupon'}")
    OrderItem_zero =
  Returned {| OrderItem_Amount := 500;
              OrderItem_Currency := "usd";
              OrderItem_Description := "Ten off";
              OrderItem_Parent :=
                Some {| OrderItemParent_ID := "coup_1";
                        OrderItemParent_SKU := None;
                        OrderItemParent_Type := EmptyString |};
              OrderItem_Quantity := 0;
              OrderItem_Type := OrderItemTypeCoupon |} None
  /\
  OrderItem_UnmarshalJSON
    (text "{'amount': 700, 'currency': 'usd', 'description': 'Ground', 'parent': 'ship_1', 'quantity': null, 'type': 'shipping'}")
    OrderItem_zero =
  Returned {| OrderItem_Amount := 700;
              OrderItem_Currency := "usd";
              OrderItem_Description := "Ground";
              OrderItem_Parent :=
                Some {| OrderItemParent_ID := "ship_1";
                        OrderItemParent_SKU := None;
                        OrderItemParent_Type := EmptyString |};
              OrderItem_Quantity := 0;
              OrderItem_Type := OrderItemTypeShipping |} None.
Proof. split; vm_compute; reflexivity. Qed.

(** C4 (as the code has it). On an item of type sku whose parent is the
    object with id sku_1, OrderItem.UnmarshalJSON returns no error and
    Parent.SKU.ID is sku_1, but Parent.ID is left empty, not copied from the
    SKU, and Parent.Type is left empty, not sku. *)
Theorem sku_parent_decoded_not_copied :
  OrderItem_UnmarshalJSON
    (text "{'amount': 1500, 'currency': 'usd', 'description': 'T-shirt', 'parent': {'id': 'sku_1', 'object': 'sku', 'price': 1500}, 'quantity': 1, 'type': 'sku'}")
    OrderItem_zero =
  Returned {| OrderItem_Amount := 1500;
              OrderItem_Currency := "usd";
              OrderItem_Description := "T-shirt";
              OrderItem_Parent :=
                Some {| OrderItemParent_ID := EmptyString;
                        OrderItemParent_SKU := Some {| SKU_ID := "sku_1" |};
                        OrderItemParent_Type := EmptyString |};
              OrderItem_Quantity := 1;
              OrderItem_Type := OrderItemTypeSKU |} None.
Proof. vm_compute. reflexivity. Qed.

(** C2. For an item of type coupon, shipping or sku whose two passes went
    through and whose parent fragment is there, Parent.Type is assigned
    exactly when the type-specific decode of the fragment returns an error
    (it is then the tag of the branch), and is left empty when that decode
    succeeds; the call returns what the decode returned. *)
Theorem tag_assigned_only_on_inner_error (data : json.bytes) (oi v : OrderItem)
    (rawObject : gmap string (option json.bytes)) (raw : json.bytes) :
  json.Unmarshal orderItem data OrderItem_zero = Returned v None ->
  json.Unmarshal rawObject_json data ∅ = Returned rawObject None ->
  default None (rawObject !! "parent") = Some raw ->
  (OrderItem_Type v = OrderItemTypeCoupon ->
   forall id err, json.Unmarshal json.string raw EmptyString = Returned id err ->
   exists p, OrderItem_UnmarshalJSON data oi = Returned (with_Parent p v) err /\
     OrderItemParent_Type p =
       match err with Some _ => OrderItemParentTypeCoupon | None => EmptyString end)
  /\
  (OrderItem_Type v = OrderItemTypeShipping ->
   forall id err, json.Unmarshal json.string raw EmptyString = Returned id err ->
   exists p, OrderItem_UnmarshalJSON data oi = Returned (with_Parent p v) err /\
     OrderItemParent_Type p =
       match err with Some _ => OrderItemParentTypeShipping | None => EmptyString end)
  /\
  (OrderItem_Type v = OrderItemTypeSKU ->
   forall s err, json.Unmarshal (json.ptr SKU_json) raw None = Returned s err ->
   exists p, OrderItem_UnmarshalJSON data oi = Returned (with_Parent p v) err /\
     OrderItemParent_Type p =
       match err with Some _ => OrderItemParentTypeSKU | None => EmptyString end).
Proof.
  intros Hs Hr Hp. repeat split.
  - intros Hty id err Hin.
    rewrite (UnmarshalJSON_coupon _ oi _ _ _ Hs Hr Hp id err Hty Hin).
    eexists. split; [reflexivity|]. destruct err; reflexivity.
  - intros Hty id err Hin.
    rewrite (UnmarshalJSON_shipping _ oi _ _ _ Hs Hr Hp id err Hty Hin).
    eexists. split; [reflexivity|]. destruct err; reflexivity.
  - intros Hty s err Hin.
    rewrite (UnmarshalJSON_sku _ oi _ _ _ Hs Hr Hp s err Hty Hin).
    destruct (parent_fragment _ _ _ Hr Hp) as (ms & j & _ & _ & Hj & ->).
    destruct (ptr_allocates _ _ _ _ _ Hj Hin) as [sku ->].
    destruct err; eexists; split; reflexivity.
Qed.

Lemma tag_assigned_only_on_inner_error_witness :
  exists p,
    OrderItem_UnmarshalJSON (text "{'type': 'shipping', 'parent': {'id': 'ship_1'}}")
      OrderItem_zero =
    Returned (with_Parent p (set_OrderItem_Type OrderItemTypeShipping OrderItem_zero))
      (Some (UnmarshalTypeError "object" "string")) /\
    OrderItemParent_Type p = OrderItemParentTypeShipping.
Proof.
  refine (proj1 (proj2 (tag_assigned_only_on_inner_error
    (text "{'type': 'shipping', 'parent': {'id': 'ship_1'}}") OrderItem_zero
    (set_OrderItem_Type OrderItemTypeShipping OrderItem_zero)
    (<["parent" := Some (json.Scanned (json.Object [("id", json.Str "ship_1")]))]>
       (<["type" := Some (json.Scanned (json.Str "shipping"))]> ∅))
    (json.Scanned (json.Object [("id", json.Str "ship_1")])) _ _ _))
    _ EmptyString (Some (UnmarshalTypeError "object" "string")) _);
    vm_compute; reflexivity.
Defined.

(** C3 (as the code has it). Where both passes went through and the
    parent fragment is there, an error of the type-specific decode of the
    fragment is not swallowed: it is the error OrderItem.UnmarshalJSON
    returns, and the item it leaves has the scalars of the first pass and a
    tagged parent: for a coupon or a shipping item the parent holds the ID
    the failed decode left and the tag coupon or shipping; for a sku item
    it points to the SKU the failed decode left, holds a copy of its ID and
    the tag sku. *)
Theorem inner_error_is_returned (data : json.bytes) (oi v : OrderItem)
    (rawObject : gmap string (option json.bytes)) (raw : json.bytes) (e : error) :
  json.Unmarshal orderItem data OrderItem_zero = Returned v None ->
  json.Unmarshal rawObject_json data ∅ = Returned rawObject None ->
  default None (rawObject !! "parent") = Some raw ->
  (OrderItem_Type v = OrderItemTypeCoupon ->
   forall id, json.Unmarshal json.string raw EmptyString = Returned id (Some e) ->
   OrderItem_UnmarshalJSON data oi =
   Returned (with_Parent {| OrderItemParent_ID := id;
                            OrderItemParent_SKU := None;
                            OrderItemParent_Type := OrderItemParentTypeCoupon |} v)
     (Some e))
  /\
  (OrderItem_Type v = OrderItemTypeShipping ->
   forall id, json.Unmarshal json.string raw EmptyString = Returned id (Some e) ->
   OrderItem_UnmarshalJSON data oi =
   Returned (with_Parent {| OrderItemParent_ID := id;
                            OrderItemParent_SKU := None;
                            OrderItemParent_Type := OrderItemParentTypeShipping |} v)
     (Some e))
  /\
  (OrderItem_Type v = OrderItemTypeSKU ->
   forall q, json.Unmarshal (json.ptr SKU_json) raw None = Returned q (Some e) ->
   exists s, q = Some s /\
     OrderItem_UnmarshalJSON data oi =
     Returned (with_Parent {| OrderItemParent_ID := SKU_ID s;
                              OrderItemParent_SKU := Some s;
                              OrderItemParent_Type := OrderItemParentTypeSKU |} v)
       (Some e)).
Proof.
  intros Hs Hr Hp. split; [|split].
  - intros Hty id Hin.
    rewrite (UnmarshalJSON_coupon _ oi _ _ _ Hs Hr Hp id _ Hty Hin). reflexivity.
  - intros Hty id Hin.
    rewrite (UnmarshalJSON_shipping _ oi _ _ _ Hs Hr Hp id _ Hty Hin). reflexivity.
  - intros Hty q Hin.
    rewrite (UnmarshalJSON_sku _ oi _ _ _ Hs Hr Hp q _ Hty Hin).
    destruct (parent_fragment _ _ _ Hr Hp) as (ms & j & _ & _ & Hj & ->).
    destruct (ptr_allocates _ _ _ _ _ Hj Hin) as [s ->].
    exists s. split; reflexivity.
Qed.

Lemma inner_error_is_returned_witness :
  OrderItem_UnmarshalJSON
    (text "{'amount': 500, 'quantity': 2, 'type': 'coupon', 'parent': ['coup_1']}")
    OrderItem_zero =
  Returned {| OrderItem_Amount := 500;
              OrderItem_Currency := EmptyString;
              OrderItem_Description := EmptyString;
              OrderItem_Parent :=
                Some {| OrderItemParent_ID := EmptyString;
                        OrderItemParent_SKU := None;
                        OrderItemParent_Type := OrderItemParentTypeCoupon |};
              OrderItem_Quantity := 2;
              OrderItem_Type := OrderItemTypeCoupon |}
    (Some (UnmarshalTypeError "array" "string"))
  /\
  OrderItem_UnmarshalJSON
    (text "{'type': 'sku', 'quantity': 1, 'parent': {'id': 'sku_1', 'id': 5}}")
    OrderItem_zero =
  Returned {| OrderItem_Amount := 0;
              OrderItem_Currency := EmptyString;
              OrderItem_Description := EmptyString;
              OrderItem_Parent :=
                Some {| OrderItemParent_ID := "sku_1";
                        OrderItemParent_SKU := Some {| SKU_ID := "sku_1" |};
                        OrderItemParent_Type := OrderItemParentTypeSKU |};
              OrderItem_Quantity := 1;
              OrderItem_Type := OrderItemTypeSKU |}
    (Some (UnmarshalTypeError "number" "string")).
Proof.
  split.
  - refine (proj1 (inner_error_is_returned
      (text "{'amount': 500, 'quantity': 2, 'type': 'coupon', 'parent': ['coup_1']}")
      OrderItem_zero
      (set_OrderItem_Quantity 2
         (set_OrderItem_Amount 500 (set_OrderItem_Type OrderItemTypeCoupon OrderItem_zero)))
      (<["parent" := Some (json.Scanned (json.Array [json.Str "coup_1"]))]>
         (<["type" := Some (json.Scanned (json.Str "coupon"))]>
            (<["quantity" := Some (json.Scanned (json.Number "2"))]>
               (<["amount" := Some (json.Scanned (json.Number "500"))]> ∅))))
      (json.Scanned (json.Array [json.Str "coup_1"]))
      (UnmarshalTypeError "array" "string") _ _ _) _ EmptyString _);
      vm_compute; reflexivity.
  - destruct (proj2 (proj2 (inner_error_is_returned
      (text "{'type': 'sku', 'quantity': 1, 'parent': {'id': 'sku_1', 'id': 5}}")
      OrderItem_zero
      (set_OrderItem_Quantity 1 (set_OrderItem_Type OrderItemTypeSKU OrderItem_zero))
      (<["parent" := Some (json.Scanned (json.Object [("id", json.Str "sku_1");
                                                      ("id", json.Number "5")]))]>
         (<["quantity" := Some (json.Scanned (json.Number "1"))]>
            (<["type" := Some (json.Scanned (json.Str "sku"))]> ∅)))
      (json.Scanned (json.Object [("id", json.Str "sku_1"); ("id", json.Number "5")]))
      (UnmarshalTypeError "number" "string")
      ltac:(vm_compute; reflexivity) ltac:(vm_compute; reflexivity)
      ltac:(vm_compute; reflexivity)))
      ltac:(vm_compute; reflexivity) (Some {| SKU_ID := "sku_1" |})
      ltac:(vm_compute; reflexivity)) as (s & Hs & Hret).
    injection Hs as <-. exact Hret.
Defined.

(** C3, the claim as stated, fails on an item of type coupon whose parent
    is the number 5: both passes go through, the decode of the fragment into
    Parent.ID fails, and the call returns that error. *)
Lemma inner_error_not_swallowed :
  let data := text "{'type': 'coupon', 'parent': 5}" in
  let e := UnmarshalTypeError "number" "string" in
  exists v rawObject,
    json.Unmarshal orderItem data OrderItem_zero = Returned v None /\
    json.Unmarshal rawObject_json data ∅ = Returned rawObject None /\
    OrderItem_Type v = OrderItemTypeCoupon /\
    default None (rawObject !! "parent") = Some (json.Scanned (json.Number "5")) /\
    json.Unmarshal json.string (json.Scanned (json.Number "5")) EmptyString =
      Returned EmptyString (Some e) /\
    OrderItem_UnmarshalJSON data OrderItem_zero =
      Returned (with_Parent {| OrderItemParent_ID := EmptyString;
                               OrderItemParent_SKU := None;
                               OrderItemParent_Type := OrderItemParentTypeCoupon |} v)
        (Some e).
Proof.
  exists (set_OrderItem_Type OrderItemTypeCoupon OrderItem_zero).
  exists (<["parent" := Some (json.Scanned (json.Number "5"))]>
            (<["type" := Some (json.Scanned (json.Str "coupon"))]> ∅)).
  repeat split; vm_compute; reflexivity.
Qed.

Lemma ptr_decode {T : Type} (d : json.Decoder T) (j : json.value) (p : option T) :
  j <> json.Null ->
  json.decode (json.ptr d) j p =
  json.mapResult Some (json.decode d j (default (json.zero d) p)).
Proof. intros Hj. destruct j; congruence || reflexivity. Qed.

(** C6 (as the code has it). After a call that returns no error the item
    has a parent, and: for an item of type coupon or shipping, Parent.ID is
    the string that a parent member of the payload holds (a string that may
    be empty); for an item of type sku, Parent.SKU points to the SKU decoded
    from a parent member of the payload. *)
Theorem parent_after_success (data : json.bytes) (oi oi' : OrderItem) :
  OrderItem_UnmarshalJSON data oi = Returned oi' None ->
  exists parent, OrderItem_Parent oi' = Some parent /\
    (OrderItem_Type oi' = OrderItemTypeCoupon \/ OrderItem_Type oi' = OrderItemTypeShipping ->
     exists ms, json.scan data = Some (json.Object ms) /\
       ("parent", json.Str (OrderItemParent_ID parent)) ∈ ms) /\
    (OrderItem_Type oi' = OrderItemTypeSKU ->
     exists ms j s, json.scan data = Some (json.Object ms) /\ ("parent", j) ∈ ms /\
       json.decode SKU_json j SKU_zero = json.Stored s None /\
       OrderItemParent_SKU parent = Some s).
Proof.
  intros Hret.
  destruct (UnmarshalJSON_success _ _ _ Hret)
    as (v & rawObject & p & Hs & Hr & -> & Hcases).
  exists p. rewrite with_Parent_Type. split; [reflexivity|].
  destruct Hcases as [(raw & id & Hty & Hp & Hin & ->)
                     | [(raw & s & Hty & Hp & Hin & ->) | (Hc & Hsh & Hk & ->)]].
  - split.
    + intros _. destruct (parent_fragment _ _ _ Hr Hp) as (ms & j & Hscan & Hmem & Hj & ->).
      apply (string_stored _ _ _ Hj) in Hin. subst j. exists ms. split; assumption.
    + intros Hk. destruct Hty as [Hty | Hty]; rewrite Hty in Hk; discriminate.
  - split.
    + intros [Hc | Hsh]; [rewrite Hty in Hc | rewrite Hty in Hsh]; discriminate.
    + intros _. destruct (parent_fragment _ _ _ Hr Hp) as (ms & j & Hscan & Hmem & Hj & ->).
      rewrite Unmarshal_scanned, (ptr_decode _ _ _ Hj) in Hin.
      change (default (json.zero SKU_json) None) with SKU_zero in Hin.
      destruct (json.decode SKU_json j SKU_zero) as [sku saved|sku err|] eqn:Hd;
        cbn in Hin; inversion Hin; subst.
      exists ms, j, sku. repeat split; assumption.
  - split; [intros [? | ?] | intros ?]; contradiction.
Qed.

Lemma parent_after_success_witness :
  exists parent,
    Some {| OrderItemParent_ID := EmptyString;
            OrderItemParent_SKU := Some {| SKU_ID := "sku_1" |};
            OrderItemParent_Type := EmptyString |} = Some parent /\
    (OrderItemTypeSKU = OrderItemTypeCoupon \/ OrderItemTypeSKU = OrderItemTypeShipping ->
     exists ms, json.scan (text "{'type': 'sku', 'parent': {'id': 'sku_1'}}") =
                  Some (json.Object ms) /\
       ("parent", json.Str (OrderItemParent_ID parent)) ∈ ms) /\
    (OrderItemTypeSKU = OrderItemTypeSKU ->
     exists ms j s, json.scan (text "{'type': 'sku', 'parent': {'id': 'sku_1'}}") =
                      Some (json.Object ms) /\ ("parent", j) ∈ ms /\
       json.decode SKU_json j SKU_zero = json.Stored s None /\
       OrderItemParent_SKU parent = Some s).
Proof.
  apply (parent_after_success (text "{'type': 'sku', 'parent': {'id': 'sku_1'}}")
           OrderItem_zero
           {| OrderItem_Amount := 0;
              OrderItem_Currency := EmptyString;
              OrderItem_Description := EmptyString;
              OrderItem_Parent :=
                Some {| OrderItemParent_ID := EmptyString;
                        OrderItemParent_SKU := Some {| SKU_ID := "sku_1" |};
                        OrderItemParent_Type := EmptyString |};
              OrderItem_Quantity := 0;
              OrderItem_Type := OrderItemTypeSKU |}).
  vm_compute. reflexivity.
Defined.

(** C6, the claim as stated, fails on an item of type coupon whose parent
    is the empty string: the call returns no error and Parent.ID is empty. *)
Lemma coupon_parent_may_be_empty :
  OrderItem_UnmarshalJSON (text "{'type': 'coupon', 'parent': ''}") OrderItem_zero =
  Returned {| OrderItem_Amount := 0;
              OrderItem_Currency := EmptyString;
              OrderItem_Description := EmptyString;
              OrderItem_Parent :=
                Some {| OrderItemParent_ID := EmptyString;
                        OrderItemParent_SKU := None;
                        OrderItemParent_Type := EmptyString |};
              OrderItem_Quantity := 0;
              OrderItem_Type := OrderItemTypeCoupon |} None.
Proof. vm_compute. reflexivity. Qed.

(** C9. An item object of type coupon, shipping or sku that has no member
    named parent makes OrderItem.UnmarshalJSON panic: the map of raw
    fragments has nothing under the key, and the nil pointer it gives is
    dereferenced. *)
Theorem missing_parent_panics (data : json.bytes) (ms : list (string * json.value))
    (oi v : OrderItem) :
  json.scan data = Some (json.Object ms) ->
  (forall j, ("parent", j) ∉ ms) ->
  json.Unmarshal orderItem data OrderItem_zero = Returned v None ->
  OrderItem_Type v = OrderItemTypeCoupon \/ OrderItem_Type v = OrderItemTypeShipping \/
    OrderItem_Type v = OrderItemTypeSKU ->
  OrderItem_UnmarshalJSON data oi = Panicked.
Proof.
  intros Hscan Hno Hs Hty.
  assert (Hr : json.Unmarshal rawObject_json data ∅ =
               Returned (foldl (fun m '(k, j) => <[k := rawPointer j]> m) ∅ ms) None).
  { unfold json.Unmarshal. rewrite Hscan. cbn. rewrite entries_RawMessage. reflexivity. }
  assert (Hp : default None
                 (foldl (fun (m : gmap string (option json.bytes)) '(k, j) =>
                           <[k := rawPointer j]> m) ∅ ms !! "parent") = None).
  { rewrite (rawObject_absent ms "parent" Hno ∅) by apply lookup_empty. reflexivity. }
  unfold OrderItem_UnmarshalJSON. rewrite Hs. cbn zeta. rewrite Hr, Hp.
  destruct Hty as [-> | [-> | ->]]; reflexivity.
Qed.

Lemma missing_parent_panics_witness :
  OrderItem_UnmarshalJSON (text "{'amount': 100, 'type': 'coupon'}") OrderItem_zero = Panicked.
Proof.
  apply (missing_parent_panics (text "{'amount': 100, 'type': 'coupon'}")
           [("amount", json.Number "100"); ("type", json.Str "coupon")]
           OrderItem_zero
           (set_OrderItem_Amount 100 (set_OrderItem_Type OrderItemTypeCoupon OrderItem_zero))).
  - vm_compute. reflexivity.
  - intros j Hin. repeat (apply elem_of_cons in Hin as [Hin | Hin]; [discriminate|]).
    apply elem_of_nil in Hin. exact Hin.
  - vm_compute. reflexivity.
  - left. reflexivity.
Defined.

(** C10 (as the code has it). For an item of type sku whose parent fragment
    is there and fails to decode as a SKU, Parent.SKU has been made to point
    to a SKU before the decoding of it failed: [oi.Parent.SKU.ID] is read
    from it, and the call returns the error with Parent.ID a copy of that ID
    and Parent.Type sku. It does not panic. *)
Theorem sku_error_path_reads_allocated_SKU (data : json.bytes) (oi v : OrderItem)
    (rawObject : gmap string (option json.bytes)) (raw : json.bytes)
    (q : option SKU) (e : error) :
  json.Unmarshal orderItem data OrderItem_zero = Returned v None ->
  OrderItem_Type v = OrderItemTypeSKU ->
  json.Unmarshal rawObject_json data ∅ = Returned rawObject None ->
  default None (rawObject !! "parent") = Some raw ->
  json.Unmarshal (json.ptr SKU_json) raw None = Returned q (Some e) ->
  exists s, q = Some s /\
    OrderItem_UnmarshalJSON data oi =
    Returned (with_Parent {| OrderItemParent_ID := SKU_ID s;
                             OrderItemParent_SKU := Some s;
                             OrderItemParent_Type := OrderItemParentTypeSKU |} v) (Some e).
Proof.
  intros Hs Hty Hr Hp Hin.
  rewrite (UnmarshalJSON_sku _ oi _ _ _ Hs Hr Hp q _ Hty Hin).
  destruct (parent_fragment _ _ _ Hr Hp) as (ms & j & _ & _ & Hj & ->).
  destruct (ptr_allocates _ _ _ _ _ Hj Hin) as [s ->].
  exists s. split; reflexivity.
Qed.

Lemma sku_error_path_reads_allocated_SKU_witness :
  exists s, Some SKU_zero = Some s /\
    OrderItem_UnmarshalJSON (text "{'type': 'sku', 'parent': 5}") OrderItem_zero =
    Returned (with_Parent {| OrderItemParent_ID := SKU_ID s;
                             OrderItemParent_SKU := Some s;
                             OrderItemParent_Type := OrderItemParentTypeSKU |}
                (set_OrderItem_Type OrderItemTypeSKU OrderItem_zero))
      (Some (UnmarshalTypeError "number" "stripe.SKU")).
Proof.
  apply (sku_error_path_reads_allocated_SKU
           (text "{'type': 'sku', 'parent': 5}") OrderItem_zero
           (set_OrderItem_Type OrderItemTypeSKU OrderItem_zero)
           (<["parent" := Some (json.Scanned (json.Number "5"))]>
              (<["type" := Some (json.Scanned (json.Str "sku"))]> ∅))
           (json.Scanned (json.Number "5")));
    vm_compute; reflexivity.
Defined.

(** C10, the claim as stated, has no input: no payload of an item of type
    sku gets through both passes with a parent fragment whose decoding as a
    SKU fails and leaves Parent.SKU nil. *)
Lemma no_nil_SKU_on_error_path :
  ~ exists (data : json.bytes) (v : OrderItem)
      (rawObject : gmap string (option json.bytes)) (raw : json.bytes) (e : error),
      json.Unmarshal orderItem data OrderItem_zero = Returned v None /\
      OrderItem_Type v = OrderItemTypeSKU /\
      json.Unmarshal rawObject_json data ∅ = Returned rawObject None /\
      default None (rawObject !! "parent") = Some raw /\
      json.Unmarshal (json.ptr SKU_json) raw None = Returned None (Some e).
Proof.
  intros (data & v & rawObject & raw & e & Hs & Hty & Hr & Hp & Hin).
  destruct (parent_fragment _ _ _ Hr Hp) as (ms & j & _ & _ & Hj & ->).
  destruct (ptr_allocates _ _ _ _ _ Hj Hin) as [s Hq]. discriminate.
Qed.

(** ** Order.UnmarshalJSON *)

Section OrderFacts.

Context `{Siblings}.

(** A saved error stays to the end of the object. *)
Lemma members_saved {T : Type} (fields : list (json.Field T)) (ms : list (string * json.value)) :
  forall (v v' : T) (e : error) (saved : option error),
  json.members fields ms v (Some e) = json.Stored v' saved -> saved = Some e.
Proof.
  induction ms as [|[k j] ms IH]; intros v v' e saved; cbn [json.members].
  - intros Hm. inversion Hm. reflexivity.
  - destruct (json.findField fields k) as [f|]; [|apply IH].
    destruct (json.store f j v) as [w e'| |]; try discriminate.
    cbn [json.saveError]. apply IH.
Qed.

Lemma members_no_error {T : Type} (fields : list (json.Field T))
    (ms : list (string * json.value)) (v v' : T) (saved : option error) :
  json.members fields ms v saved = json.Stored v' None -> saved = None.
Proof.
  destruct saved as [e|]; [|reflexivity].
  intros Hm. apply members_saved in Hm. discriminate.
Qed.

Lemma findField_In {T : Type} (fields : list (json.Field T)) (k : string) (f : json.Field T) :
  json.findField fields k = Some f -> In f fields.
Proof.
  unfold json.findField.
  destruct (find _ fields) as [g|] eqn:Hexact.
  - intros Hf. inversion Hf; subst. apply (find_some _ _ Hexact).
  - intros Hfold. apply (find_some _ _ Hfold).
Qed.

Lemma lastID_skip (k : string) (j : json.value) (ms : list (string * json.value))
    (id : string) :
  names_ID k = false -> lastID ((k, j) :: ms) id = lastID ms id.
Proof. intros Hn. cbn [lastID]. rewrite Hn. destruct j; reflexivity. Qed.

(** Storing the members of an object in an order leaves in ID the string of
    the last member stored there. *)
Lemma members_ID (ms : list (string * json.value)) :
  forall (v v' : Order) (saved : option error),
  json.members Order_fields ms v saved = json.Stored v' None ->
  Order_ID v' = lastID ms (Order_ID v).
Proof.
  induction ms as [|[k j] ms IH]; intros v v' saved; cbn [json.members].
  - intros Hm. inversion Hm. reflexivity.
  - destruct (json.findField Order_fields k) as [f|] eqn:Hf.
    + assert (Hn : names_ID k = String.eqb (json.name f) "id")
        by (unfold names_ID; rewrite Hf; reflexivity).
      apply findField_In in Hf. cbn [Order_fields In] in Hf.
      repeat (destruct Hf as [<- | Hf]); try contradiction;
        cbn [json.field json.store json.name] in *;
        try (rewrite (lastID_skip k j ms _ Hn);
             match goal with
             | |- context [json.mapResult _ ?r] =>
                 destruct r as [w e| |]; cbn [json.mapResult];
                 try discriminate; intros Hm; apply IH in Hm; exact Hm
             end).
      destruct j; cbn [json.decode json.string json.mismatch json.mapResult lastID];
        try rewrite Hn; cbn [String.eqb];
        intros Hm;
        try (apply members_no_error in Hm; destruct saved; discriminate);
        apply IH in Hm; exact Hm.
    + assert (Hn : names_ID k = false) by (unfold names_ID; rewrite Hf; reflexivity).
      rewrite (lastID_skip k j ms _ Hn). apply IH.
Qed.

(** What Order.UnmarshalJSON returns, by the shape of the payload. *)
Lemma Order_UnmarshalJSON_scan (data : json.bytes) (o : Order) :
  Order_UnmarshalJSON data o =
  match json.scan data with
  | None => Returned o (Some SyntaxError)
  | Some (json.Str id) => Returned (set_Order_ID id o) None
  | Some j =>
      match json.decode order j Order_zero with
      | json.Stored v None => Returned v None
      | json.Stored _ (Some err) | json.Aborted _ err => Returned o (Some err)
      | json.Panics => Panicked
      end
  end.
Proof.
  unfold Order_UnmarshalJSON, ParseID, json.Unmarshal.
  destruct (json.scan data) as [j|]; [|reflexivity].
  destruct j; try reflexivity;
    destruct (json.decode order _ Order_zero) as [v [e|]|v e|]; reflexivity.
Qed.

End OrderFacts.

(** *** The fields of an order, one by one *)

Section Populate.

Context `{Siblings}.

Section Field.

Variables (F : Type) (n : string) (get : Order -> F) (set : F -> Order -> Order).
Variable d : json.Decoder F.

Hypothesis get_set : forall x v, get (set x v) = x.
Hypothesis fields :
  forall f, In f Order_fields ->
    (String.eqb (json.name f) n = true /\
     forall j v, json.store f j v =
                 json.mapResult (fun x => set x v) (json.decode d j (get v)))
    \/
    (String.eqb (json.name f) n = false /\
     forall j v v' e, json.store f j v = json.Stored v' e -> get v' = get v).

Lemma members_populate (ms : list (string * json.value)) :
  forall (v v' : Order) (saved : option error),
  json.members Order_fields ms v saved = json.Stored v' None ->
  decode_all d (List.map snd (List.filter (fun m => selects n (fst m)) ms)) (get v)
  = Some (get v').
Proof.
  induction ms as [|[k j] ms IH]; intros v v' saved;
    cbn [json.members List.filter fst].
  - intros Hm. inversion Hm. reflexivity.
  - destruct (json.findField Order_fields k) as [f|] eqn:Hf.
    + assert (Hsel : selects n k = String.eqb (json.name f) n)
        by (unfold selects; rewrite Hf; reflexivity).
      rewrite Hsel.
      apply findField_In in Hf. destruct (fields f Hf) as [[Hn Hst] | [Hn Hkeep]]; rewrite Hn.
      * cbn [List.map snd decode_all]. rewrite Hst.
        destruct (json.decode d j (get v)) as [x e| |]; cbn [json.mapResult];
          try discriminate.
        intros Hm. pose proof (members_no_error _ _ _ _ _ Hm) as Hnone.
        destruct saved, e; try discriminate.
        rewrite <- (get_set x v). exact (IH _ _ _ Hm).
      * destruct (json.store f j v) as [v1 e| |] eqn:Hst; try discriminate.
        intros Hm. rewrite <- (Hkeep _ _ _ _ Hst). exact (IH _ _ _ Hm).
    + assert (Hsel : selects n k = false) by (unfold selects; rewrite Hf; reflexivity).
      rewrite Hsel. apply IH.
Qed.

Lemma decode_all_app (l1 l2 : list json.value) (x : F) :
  decode_all d (l1 ++ l2)%list x =
  match decode_all d l1 x with
  | Some y => decode_all d l2 y
  | None => None
  end.
Proof.
  revert x. induction l1 as [|j l1 IH]; intros x; cbn [app decode_all]; [reflexivity|].
  destruct (json.decode d j x) as [x' [e|]| |]; auto.
Qed.

Lemma members_failing (pre post : list (string * json.value)) (k : string) (j : json.value)
    (f : json.Field Order) (v v1 : Order) :
  json.members Order_fields pre v None = json.Stored v1 None ->
  json.findField Order_fields k = Some f ->
  String.eqb (json.name f) n = true ->
  (forall v2, json.store f j v1 <> json.Stored v2 None) ->
  decode_all d
    (List.map snd (List.filter (fun m => selects n (fst m)) (pre ++ (k, j) :: post)%list))
    (get v) = None.
Proof.
  intros Hpre Hf Hn Hfail.
  rewrite List.filter_app, List.map_app, decode_all_app, (members_populate _ _ _ _ Hpre).
  cbn [List.filter fst].
  assert (Hsel : selects n k = true) by (unfold selects; rewrite Hf; exact Hn).
  rewrite Hsel. cbn [List.map snd decode_all].
  destruct (fields f (findField_In _ _ _ Hf)) as [[_ Hst] | [Hn' _]]; [|congruence].
  destruct (json.decode d j (get v1)) as [x [e|]| |] eqn:Hd; try reflexivity.
  exfalso. apply (Hfail (set x v1)). rewrite Hst, Hd. reflexivity.
Qed.

End Field.

End Populate.

(** Each field of Order_fields is the one named or leaves it alone. *)
Ltac field_cases :=
  let f := fresh "f" in let Hin := fresh "Hin" in
  intros f Hin; cbn [Order_fields In] in Hin;
  repeat (destruct Hin as [<- | Hin]); try contradiction;
  first
    [ left; split; [reflexivity | intros; reflexivity]
    | right; split; [reflexivity|];
      let j := fresh "j" in let v := fresh "v" in let v' := fresh "v'" in
      let e := fresh "e" in let Hst := fresh "Hst" in
      intros j v v' e Hst; cbn [json.field json.store] in Hst;
      match type of Hst with
      | json.mapResult _ ?r = _ => destruct r; cbn [json.mapResult] in Hst;
                                   try discriminate; injection Hst as <- _; reflexivity
      end ].

(** What an object decoded without error leaves in each field. *)
Lemma Order_populated `{Siblings} (ms : list (string * json.value)) (o' : Order) (saved : option error) :
  json.members Order_fields ms Order_zero saved = json.Stored o' None ->
  populated "amount" json.int64 ms (Order_Amount o') /\
  populated "amount_returned" json.int64 ms (Order_AmountReturned o') /\
  populated "application" json.string ms (Order_Application o') /\
  populated "application_fee" json.int64 ms (Order_ApplicationFee o') /\
  populated "charge" (json.ptr Charge_json) ms (Order_Charge o') /\
  populated "created" json.int64 ms (Order_Created o') /\
  populated "currency" (json.named "stripe.Currency") ms (Order_Currency o') /\
  populated "customer" Customer_json ms (Order_Customer o') /\
  populated "email" json.string ms (Order_Email o') /\
  populated "id" json.string ms (Order_ID o') /\
  populated "items" (json.slice (json.ptr OrderItem_json) "[]*stripe.OrderItem") ms
    (Order_Items o') /\
  populated "livemode" json.bool ms (Order_Livemode o') /\
  populated "metadata" (json.map json.string "map[string]string") ms (Order_Metadata o') /\
  populated "returns" (json.ptr OrderReturnList_json) ms (Order_Returns o') /\
  populated "selected_shipping_method" (json.ptr json.string) ms
    (Order_SelectedShippingMethod o') /\
  populated "shipping" (json.ptr Shipping_json) ms (Order_Shipping o') /\
  populated "shipping_methods"
    (json.slice (json.ptr ShippingMethod_json) "[]*stripe.ShippingMethod") ms
    (Order_ShippingMethods o') /\
  populated "status" json.string ms (Order_Status o') /\
  populated "status_transitions" StatusTransitions_json ms (Order_StatusTransitions o') /\
  populated "updated" json.int64 ms (Order_Updated o').
Proof.
  intros Hm. unfold populated.
  repeat apply conj.
  - refine (members_populate _ "amount" Order_Amount
      set_Order_Amount json.int64
      _ _ ms _ _ _ Hm); [reflexivity | field_cases].
  - refine (members_populate _ "amount_returned" Order_AmountReturned
      set_Order_AmountReturned json.int64
      _ _ ms _ _ _ Hm); [reflexivity | field_cases].
  - refine (members_populate _ "application" Order_Application
      set_Order_Application json.string
      _ _ ms _ _ _ Hm); [reflexivity | field_cases].
  - refine (members_populate _ "application_fee" Order_ApplicationFee
      set_Order_ApplicationFee json.int64
      _ _ ms _ _ _ Hm); [reflexivity | field_cases].
  - refine (members_populate _ "charge" Order_Charge
      set_Order_Charge (json.ptr Charge_json)
      _ _ ms _ _ _ Hm); [reflexivity | field_cases].
  - refine (members_populate _ "created" Order_Created
      set_Order_Created json.int64
      _ _ ms _ _ _ Hm); [reflexivity | field_cases].
  - refine (members_populate _ "currency" Order_Currency
      set_Order_Currency (json.named "stripe.Currency")
      _ _ ms _ _ _ Hm); [reflexivity | field_cases].
  - refine (members_populate _ "customer" Order_Customer
      set_Order_Customer Customer_json
      _ _ ms _ _ _ Hm); [reflexivity | field_cases].
  - refine (members_populate _ "email" Order_Email
      set_Order_Email json.string
      _ _ ms _ _ _ Hm); [reflexivity | field_cases].
  - refine (members_populate _ "id" Order_ID
      set_Order_ID json.string
      _ _ ms _ _ _ Hm); [reflexivity | field_cases].
  - refine (members_populate _ "items" Order_Items
      set_Order_Items (json.slice (json.ptr OrderItem_json) "[]*stripe.OrderItem")
      _ _ ms _ _ _ Hm); [reflexivity | field_cases].
  - refine (members_populate _ "livemode" Order_Livemode
      set_Order_Livemode json.bool
      _ _ ms _ _ _ Hm); [reflexivity | field_cases].
  - refine (members_populate _ "metadata" Order_Metadata
      set_Order_Metadata (json.map json.string "map[string]string")
      _ _ ms _ _ _ Hm); [reflexivity | field_cases].
  - refine (members_populate _ "returns" Order_Returns
      set_Order_Returns (json.ptr OrderReturnList_json)
      _ _ ms _ _ _ Hm); [reflexivity | field_cases].
  - refine (members_populate _ "selected_shipping_method" Order_SelectedShippingMethod
      set_Order_SelectedShippingMethod (json.ptr json.string)
      _ _ ms _ _ _ Hm); [reflexivity | field_cases].
  - refine (members_populate _ "shipping" Order_Shipping
      set_Order_Shipping (json.ptr Shipping_json)
      _ _ ms _ _ _ Hm); [reflexivity | field_cases].
  - refine (members_populate _ "shipping_methods" Order_ShippingMethods
      set_Order_ShippingMethods (json.slice (json.ptr ShippingMethod_json) "[]*stripe.ShippingMethod")
      _ _ ms _ _ _ Hm); [reflexivity | field_cases].
  - refine (members_populate _ "status" Order_Status
      set_Order_Status json.string
      _ _ ms _ _ _ Hm); [reflexivity | field_cases].
  - refine (members_populate _ "status_transitions" Order_StatusTransitions
      set_Order_StatusTransitions StatusTransitions_json
      _ _ ms _ _ _ Hm); [reflexivity | field_cases].
  - refine (members_populate _ "updated" Order_Updated
      set_Order_Updated json.int64
      _ _ ms _ _ _ Hm); [reflexivity | field_cases].
Qed.

(** The first member of an object that is not stored without error. *)
Lemma members_fail_split {T : Type} (fields : list (json.Field T))
    (ms : list (string * json.value)) :
  forall v : T,
  (forall v', json.members fields ms v None <> json.Stored v' None) ->
  exists pre k j post f v1,
    ms = (pre ++ (k, j) :: post)%list /\
    json.members fields pre v None = json.Stored v1 None /\
    json.findField fields k = Some f /\
    forall v2, json.store f j v1 <> json.Stored v2 None.
Proof.
  induction ms as [|[k j] ms IH]; intros v Hfail.
  - destruct (Hfail v). reflexivity.
  - cbn [json.members] in Hfail.
    destruct (json.findField fields k) as [f|] eqn:Hf.
    + destruct (json.store f j v) as [v1 [e|]|v1 e|] eqn:Hst.
      * exists [], k, j, ms, f, v. repeat split; [exact Hf|]. intros v2. rewrite Hst. discriminate.
      * destruct (IH v1 Hfail) as (pre & k' & j' & post & f' & v2 & -> & Hpre & Hf' & Hst').
        exists ((k, j) :: pre), k', j', post, f', v2. repeat split; [|exact Hf'|exact Hst'].
        cbn [json.members]. rewrite Hf, Hst. exact Hpre.
      * exists [], k, j, ms, f, v. repeat split; [exact Hf|]. intros v2. rewrite Hst. discriminate.
      * exists [], k, j, ms, f, v. repeat split; [exact Hf|]. intros v2. rewrite Hst. discriminate.
    + destruct (IH v Hfail) as (pre & k' & j' & post & f' & v2 & -> & Hpre & Hf' & Hst').
      exists ((k, j) :: pre), k', j', post, f', v2. repeat split; [|exact Hf'|exact Hst'].
      cbn [json.members]. rewrite Hf. exact Hpre.
Qed.

Lemma Order_ext `{Siblings} (a b : Order) :
  Order_Amount a = Order_Amount b ->
  Order_AmountReturned a = Order_AmountReturned b ->
  Order_Application a = Order_Application b ->
  Order_ApplicationFee a = Order_ApplicationFee b ->
  Order_Charge a = Order_Charge b ->
  Order_Created a = Order_Created b ->
  Order_Currency a = Order_Currency b ->
  Order_Customer a = Order_Customer b ->
  Order_Email a = Order_Email b ->
  Order_ID a = Order_ID b ->
  Order_Items a = Order_Items b ->
  Order_Livemode a = Order_Livemode b ->
  Order_Metadata a = Order_Metadata b ->
  Order_Returns a = Order_Returns b ->
  Order_SelectedShippingMethod a = Order_SelectedShippingMethod b ->
  Order_Shipping a = Order_Shipping b ->
  Order_ShippingMethods a = Order_ShippingMethods b ->
  Order_Status a = Order_Status b ->
  Order_StatusTransitions a = Order_StatusTransitions b ->
  Order_Updated a = Order_Updated b ->
  a = b.
Proof.
  destruct a, b; cbn. intros. subst. reflexivity.
Qed.

Ltac failing_field :=
  match goal with
  | Hfail : forall v2, json.store (json.field ?n ?get ?set ?d) ?j ?v1 <> _,
    Hpre : json.members Order_fields ?pre Order_zero None = json.Stored ?v1 None,
    Hf : json.findField Order_fields ?k = Some _,
    Hp : populated ?n ?d (?pre ++ (?k, ?j) :: ?post)%list ?x |- _ =>
      let Hnone := fresh "Hnone" in
      unshelve epose proof (members_failing _ n get set d _ _ pre post k j _ Order_zero v1
                     Hpre Hf eq_refl Hfail) as Hnone;
      [reflexivity | field_cases |];
      unfold populated in Hp;
      exact (eq_ind (Some x) (fun r => match r with Some _ => True | None => False end) I
               None (eq_trans (eq_sym Hp) Hnone))
  end.

(** The converse of [Order_populated]. *)
Lemma Order_populated_returns `{Siblings} (ms : list (string * json.value)) (o' : Order) :
  Order_populated_from ms o' ->
  json.members Order_fields ms Order_zero None = json.Stored o' None.
Proof.
  intros Hpop.
  assert (Hok : exists v, json.members Order_fields ms Order_zero None = json.Stored v None).
  { destruct (json.members Order_fields ms Order_zero None) as [v [e|]|v e|] eqn:Hm;
      [|eauto| |]; exfalso;
      (destruct (members_fail_split Order_fields ms Order_zero)
         as (pre & k & j & post & f & v1 & -> & Hpre & Hf & Hfail);
       [intros v'; rewrite Hm; discriminate|]);
      pose proof (findField_In _ _ _ Hf) as Hin;
      unfold Order_populated_from in Hpop;
      repeat match goal with H : _ /\ _ |- _ => destruct H end;
      cbn [Order_fields In] in Hin;
      repeat (destruct Hin as [<- | Hin]); try contradiction; failing_field. }
  destruct Hok as [v Hm]. rewrite Hm. f_equal.
  pose proof (Order_populated ms v None Hm) as Hv.
  unfold Order_populated_from, populated in *.
  repeat match goal with H : _ /\ _ |- _ => destruct H end.
  apply Order_ext; congruence.
Qed.

(** *** Panics of the package's decoders *)

Lemma int64_never_panics : never_panics json.int64.
Proof. intros j v. destruct j; cbn; try discriminate. destruct (json.ParseInt lit); discriminate. Qed.

Lemma string_never_panics : never_panics json.string.
Proof. intros j v. destruct j; discriminate. Qed.

Lemma named_never_panics (n : string) : never_panics (json.named n).
Proof. intros j v. destruct j; discriminate. Qed.

Lemma bool_never_panics : never_panics json.bool.
Proof. intros j v. destruct j; discriminate. Qed.

Lemma ptr_never_panics {T : Type} (d : json.Decoder T) :
  never_panics d -> never_panics (json.ptr d).
Proof.
  intros Hd j p. destruct j; cbn; try discriminate;
    match goal with
    | |- json.mapResult _ ?r <> _ => pose proof (Hd _ _ : r <> json.Panics); destruct r
    end; cbn; congruence.
Qed.

Lemma elements_never_panic {T : Type} (d : json.Decoder T) (js : list json.value) :
  (forall j v, j ∈ js -> json.decode d j v <> json.Panics) ->
  forall vs saved, json.elements d js vs saved <> json.Panics.
Proof.
  induction js as [|j js IH]; intros Hd vs saved; cbn [json.elements]; [discriminate|].
  pose proof (Hd j (hd (json.zero d) vs) ltac:(left)) as Hj.
  assert (Hrest : forall vs saved, json.elements d js vs saved <> json.Panics).
  { apply IH. intros j' v' Hin. apply Hd. right. exact Hin. }
  destruct (json.decode d j _) as [w e|w e|]; [|discriminate|congruence].
  specialize (Hrest (tl vs) (json.saveError saved e)).
  destruct (json.elements d js _ _); cbn; congruence.
Qed.

Lemma slice_never_panics {T : Type} (d : json.Decoder T) (n : string) :
  never_panics d -> never_panics (json.slice d n).
Proof.
  intros Hd j vs. destruct j; cbn; try discriminate.
  apply elements_never_panic. intros j v _. apply Hd.
Qed.

Lemma map_never_panics {T : Type} (d : json.Decoder T) (n : string) :
  never_panics d -> never_panics (json.map d n).
Proof.
  intros Hd j m. destruct j; cbn; try discriminate.
  generalize (@None error) as saved. revert m.
  induction members as [|[k j] ms IH]; intros m saved; cbn [json.entries]; [discriminate|].
  pose proof (Hd j (json.zero d)) as Hj.
  destruct (json.decode d j _); first [congruence | apply IH].
Qed.

Lemma members_never_panic {T : Type} (fields : list (json.Field T))
    (ms : list (string * json.value)) :
  (forall k j f v, (k, j) ∈ ms -> json.findField fields k = Some f ->
                   json.store f j v <> json.Panics) ->
  forall v saved, json.members fields ms v saved <> json.Panics.
Proof.
  induction ms as [|[k j] ms IH]; intros Hf v saved; cbn [json.members]; [discriminate|].
  assert (Hrest : forall v saved, json.members fields ms v saved <> json.Panics).
  { apply IH. intros k' j' f v' Hin. apply Hf. right. exact Hin. }
  destruct (json.findField fields k) as [f|] eqn:Hk; [|apply Hrest].
  pose proof (Hf k j f v ltac:(left) Hk) as Hj.
  destruct (json.store f j v); first [congruence | apply Hrest].
Qed.

Lemma field_never_panics {T F : Type} (n : string) (get : T -> F) (set : F -> T -> T)
    (d : json.Decoder F) :
  never_panics d -> forall j v, json.store (json.field n get set d) j v <> json.Panics.
Proof.
  intros Hd j v. cbn. pose proof (Hd j (get v)) as Hj.
  destruct (json.decode d j (get v)); cbn; congruence.
Qed.

Lemma struct_never_panics {T : Type} (n : string) (z : T) (fields : list (json.Field T)) :
  (forall f, In f fields -> forall j v, json.store f j v <> json.Panics) ->
  never_panics (json.struct n z fields).
Proof.
  intros Hf j v. destruct j; cbn; try discriminate.
  apply members_never_panic. intros k j f v' _ Hk. apply Hf. exact (findField_In _ _ _ Hk).
Qed.

Ltac struct_fields :=
  apply struct_never_panics;
  let f := fresh "f" in let Hin := fresh "Hin" in
  intros f Hin; cbn [In] in Hin;
  repeat (destruct Hin as [<- | Hin]); try contradiction;
  apply field_never_panics;
  auto using int64_never_panics, string_never_panics, named_never_panics,
    bool_never_panics, ptr_never_panics.

Lemma StatusTransitions_never_panics : never_panics StatusTransitions_json.
Proof. struct_fields. Qed.

Lemma DeliveryEstimate_never_panics : never_panics DeliveryEstimate_json.
Proof. struct_fields. Qed.

Lemma ShippingMethod_never_panics : never_panics ShippingMethod_json.
Proof.
  pose proof DeliveryEstimate_never_panics. struct_fields.
Qed.

Lemma Shipping_never_panics `{Siblings} :
  never_panics Address_json -> never_panics Shipping_json.
Proof. intros HA. struct_fields. Qed.

(** A panic of OrderItem.UnmarshalJSON does not depend on the receiver. *)
Lemma panic_any_receiver (data : json.bytes) (oi other : OrderItem) :
  OrderItem_UnmarshalJSON data oi = Panicked ->
  OrderItem_UnmarshalJSON data other = Panicked.
Proof.
  unfold OrderItem_UnmarshalJSON.
  destruct (json.Unmarshal orderItem data OrderItem_zero) as [v [e|]|];
    [discriminate | auto | auto].
Qed.

Lemma item_never_panics (j : json.value) (p : option OrderItem) :
  OrderItem_UnmarshalJSON (json.Scanned j) OrderItem_zero <> Panicked ->
  json.decode (json.ptr OrderItem_json) j p <> json.Panics.
Proof.
  intros Hj. destruct j; cbn [json.decode json.ptr]; try discriminate;
    match goal with
    | |- json.mapResult _ (json.decode OrderItem_json ?j ?x) <> _ =>
        cbn [json.decode OrderItem_json json.unmarshaler];
        destruct (OrderItem_UnmarshalJSON (json.Scanned j) x) as [w [e|]|] eqn:Hx;
        cbn; try discriminate;
        exfalso; apply Hj; exact (panic_any_receiver _ _ _ Hx)
    end.
Qed.

(** An object panics in the decoding of an order only through an item or
    through a sibling resource. *)
Lemma order_members_never_panic `{Siblings} (ms : list (string * json.value)) :
  never_panics Charge_json -> never_panics Customer_json ->
  never_panics OrderReturnList_json -> never_panics Address_json ->
  (forall k js j, (k, json.Array js) ∈ ms -> selects "items" k = true -> j ∈ js ->
     OrderItem_UnmarshalJSON (json.Scanned j) OrderItem_zero <> Panicked) ->
  forall v saved, json.members Order_fields ms v saved <> json.Panics.
Proof.
  intros HCh HCu HRe HAd Hitems.
  pose proof StatusTransitions_never_panics.
  pose proof ShippingMethod_never_panics.
  pose proof (Shipping_never_panics HAd).
  apply members_never_panic. intros k j f v Hin Hk.
  assert (Hsel : selects "items" k = String.eqb (json.name f) "items")
    by (unfold selects; rewrite Hk; reflexivity).
  apply findField_In in Hk. cbn [Order_fields In] in Hk.
  repeat (destruct Hk as [<- | Hk]); try contradiction;
    try (apply field_never_panics;
         auto using int64_never_panics, string_never_panics, named_never_panics,
           bool_never_panics, ptr_never_panics, slice_never_panics, map_never_panics; fail).
  cbn [json.field json.store json.name] in *.
  assert (Hd : json.decode (json.slice (json.ptr OrderItem_json) "[]*stripe.OrderItem") j
                 (Order_Items v) <> json.Panics).
  { destruct j; cbn [json.decode json.slice]; try discriminate.
    apply elements_never_panic. intros j' p Hj'. apply item_never_panics.
    exact (Hitems k elems j' Hin Hsel Hj'). }
  destruct (json.decode _ j (Order_Items v)); cbn; congruence.
Qed.

Lemma RawMessage_never_panics : never_panics json.RawMessage.
Proof. intros j v. discriminate. Qed.

(** C5. On the bare JSON string order_123, Order.UnmarshalJSON returns no
    error and only sets ID: every other field is as it was, at its zero value
    in a new order. On a JSON object that ParseID does not take for a
    reference, the call returns no error exactly when every declared field
    can be populated from the object, and the order it leaves is the one so
    populated: each field holds what the members stored in it leave, decoded
    in their order into the field's zero value. This holds for any decoders
    of the sibling resources. *)
Theorem bare_reference_sets_only_ID `{Siblings} :
  (forall o : Order,
     Order_UnmarshalJSON (text "'order_123'") o = Returned (set_Order_ID "order_123" o) None) /\
  Order_UnmarshalJSON (text "'order_123'") Order_zero =
    Returned {| Order_Amount := 0;
                Order_AmountReturned := 0;
                Order_Application := EmptyString;
                Order_ApplicationFee := 0;
                Order_Charge := None;
                Order_Created := 0;
                Order_Currency := EmptyString;
                Order_Customer := json.zero Customer_json;
                Order_Email := EmptyString;
                Order_ID := "order_123";
                Order_Items := [];
                Order_Livemode := false;
                Order_Metadata := ∅;
                Order_Returns := None;
                Order_SelectedShippingMethod := None;
                Order_Shipping := None;
                Order_ShippingMethods := [];
                Order_Status := EmptyString;
                Order_StatusTransitions :=
                  {| StatusTransitions_Canceled := 0;
                     StatusTransitions_Fulfilled := 0;
                     StatusTransitions_Paid := 0;
                     StatusTransitions_Returned := 0 |};
                Order_Updated := 0 |} None /\
  (forall (data : json.bytes) (id : string) (ms : list (string * json.value))
          (o o' : Order),
     ParseID data = (id, false) ->
     json.scan data = Some (json.Object ms) ->
     (Order_UnmarshalJSON data o = Returned o' None <-> Order_populated_from ms o')).
Proof.
  assert (Hs : json.scan (text "'order_123'") = Some (json.Str "order_123"))
    by (vm_compute; reflexivity).
  split; [|split].
  - intros o. rewrite Order_UnmarshalJSON_scan, Hs. reflexivity.
  - rewrite Order_UnmarshalJSON_scan, Hs. reflexivity.
  - intros data id ms o o' Hid Hscan. unfold Order_UnmarshalJSON, json.Unmarshal.
    rewrite Hid, Hscan. cbn [json.decode order json.struct]. split.
    + destruct (json.members Order_fields ms Order_zero None) as [v [e|]|v e|] eqn:Hm;
        try discriminate.
      intros Hret. injection Hret as <-.
      exact (Order_populated ms v None Hm).
    + intros Hpop. rewrite (Order_populated_returns ms o' Hpop). reflexivity.
Qed.

Lemma bare_reference_sets_only_ID_witness :
  exists ms,
    json.scan (text order_payload) = Some (json.Object ms) /\
    Order_UnmarshalJSON (text order_payload) Order_zero = Returned order_decoded None /\
    Order_populated_from ms order_decoded.
Proof.
  eexists. split; [vm_compute; reflexivity|].
  assert (Hret : Order_UnmarshalJSON (text order_payload) Order_zero
                 = Returned order_decoded None) by (vm_compute; reflexivity).
  split; [exact Hret|].
  apply (proj2 (proj2 (@bare_reference_sets_only_ID Siblings_raw))
           (text order_payload) EmptyString _ Order_zero order_decoded).
  - vm_compute. reflexivity.
  - vm_compute. reflexivity.
  - exact Hret.
Defined.

(** C7 (as the code has it). After a call of Order.UnmarshalJSON that
    returns no error, ID is the string of a bare reference; for an object
    it is the string of the last member stored in the field ID, and empty
    when the object has none; for null it is empty. No other payload is
    decoded without error. *)
Theorem ID_after_success `{Siblings} (data : json.bytes) (o o' : Order) :
  Order_UnmarshalJSON data o = Returned o' None ->
  match json.scan data with
  | Some (json.Str id) => Order_ID o' = id
  | Some (json.Object ms) => Order_ID o' = lastID ms EmptyString
  | Some json.Null => Order_ID o' = EmptyString
  | _ => False
  end.
Proof.
  rewrite Order_UnmarshalJSON_scan.
  destruct (json.scan data) as [[| | | | |ms]|]; cbn; try discriminate.
  - intros Hret. inversion Hret. reflexivity.
  - intros Hret. inversion Hret. reflexivity.
  - destruct (json.members Order_fields ms Order_zero None) as [v [e|]|v e|] eqn:Hm;
      try discriminate.
    intros Hret. inversion Hret; subst. apply (members_ID _ _ _ _ Hm).
Qed.

Lemma ID_after_success_witness :
  Order_ID (set_Order_Status OrderStatusPaid
              (set_Order_ID "order_123" (@Order_zero Siblings_raw))) =
  @lastID Siblings_raw [("id", json.Str "order_123"); ("status", json.Str "paid")] EmptyString.
Proof.
  apply (@ID_after_success Siblings_raw
           (text "{'id': 'order_123', 'status': 'paid'}") Order_zero
           (set_Order_Status OrderStatusPaid (set_Order_ID "order_123" Order_zero))).
  vm_compute. reflexivity.
Defined.

(** C7, the claim as stated, fails on the object with no members: the call
    returns no error and the order's ID is empty. *)
Lemma empty_object_has_no_ID :
  exists o' : @Order Siblings_raw,
    Order_UnmarshalJSON (text "{}") Order_zero = Returned o' None /\
    Order_ID o' = EmptyString.
Proof. exists Order_zero. split; vm_compute; reflexivity. Qed.

(** C8 (as the code has it). On a payload that ParseID does not take for
    a reference, Order.UnmarshalJSON hands back what json.Unmarshal reports
    and leaves the order as it was: a SyntaxError for a text that is no JSON
    value; an UnmarshalTypeError naming the kind of the value for a value
    that is neither null nor an object; and for an object from which the
    declared fields cannot all be populated, the error of json.Unmarshal, as
    long as no decoder of a sibling resource panics and
    OrderItem.UnmarshalJSON panics on no element of an array stored in Items.
    A panic of json.Unmarshal is a panic of the call. In
    OrderItem.UnmarshalJSON an error of the first pass is returned with the
    item as it was, and a payload on which the second pass fails gets an
    error as well (from the first pass: the second cannot fail where the
    first went through). *)
Theorem unmatched_payload_is_rejected `{Siblings} (data : json.bytes) :
  (forall (o : Order) (id : string),
     ParseID data = (id, false) ->
     json.scan data = None ->
     Order_UnmarshalJSON data o = Returned o (Some SyntaxError)) /\
  (forall (o : Order) (id : string) (j : json.value),
     ParseID data = (id, false) ->
     json.scan data = Some j ->
     j <> json.Null ->
     (forall ms, j <> json.Object ms) ->
     exists v ty,
       json.Unmarshal order data Order_zero =
         Returned v (Some (UnmarshalTypeError (json.kind j) ty)) /\
       Order_UnmarshalJSON data o = Returned o (Some (UnmarshalTypeError (json.kind j) ty))) /\
  (forall (o : Order) (id : string) (ms : list (string * json.value)),
     ParseID data = (id, false) ->
     json.scan data = Some (json.Object ms) ->
     (forall o', ~ Order_populated_from ms o') ->
     never_panics Charge_json -> never_panics Customer_json ->
     never_panics OrderReturnList_json -> never_panics Address_json ->
     (forall k js j, (k, json.Array js) ∈ ms -> selects "items" k = true -> j ∈ js ->
        OrderItem_UnmarshalJSON (json.Scanned j) OrderItem_zero <> Panicked) ->
     exists v err,
       json.Unmarshal order data Order_zero = Returned v (Some err) /\
       Order_UnmarshalJSON data o = Returned o (Some err)) /\
  (forall (o : Order) (id : string),
     ParseID data = (id, false) ->
     json.Unmarshal order data Order_zero = Panicked ->
     Order_UnmarshalJSON data o = Panicked) /\
  (forall (oi v : OrderItem) (err : error),
     json.Unmarshal orderItem data OrderItem_zero = Returned v (Some err) ->
     OrderItem_UnmarshalJSON data oi = Returned oi (Some err)) /\
  (forall (oi : OrderItem) (rawObject : gmap string (option json.bytes)) (err : error),
     json.Unmarshal rawObject_json data ∅ = Returned rawObject (Some err) ->
     exists err', OrderItem_UnmarshalJSON data oi = Returned oi (Some err')).
Proof.
  repeat apply conj.
  - intros o id Hid Hscan. unfold Order_UnmarshalJSON, json.Unmarshal.
    rewrite Hid, Hscan. reflexivity.
  - intros o id j Hid Hscan Hnull Hobj. unfold Order_UnmarshalJSON, json.Unmarshal.
    rewrite Hid, Hscan.
    destruct j; try congruence; try (destruct (Hobj _ eq_refl));
      eexists _, _; split; reflexivity.
  - intros o id ms Hid Hscan Hfail HCh HCu HRe HAd Hitems.
    unfold Order_UnmarshalJSON, json.Unmarshal. rewrite Hid, Hscan.
    pose proof (order_members_never_panic ms HCh HCu HRe HAd Hitems Order_zero None) as Hnp.
    cbn [json.decode order json.struct] in *.
    destruct (json.members Order_fields ms Order_zero None) as [v [e|]|v e|] eqn:Hm;
      [eexists _, _; split; reflexivity
      | destruct (Hfail v (Order_populated ms v None Hm))
      | eexists _, _; split; reflexivity
      | congruence].
  - intros o id Hid Hpanic. unfold Order_UnmarshalJSON. rewrite Hid, Hpanic. reflexivity.
  - intros oi v err Hs. unfold OrderItem_UnmarshalJSON. rewrite Hs. reflexivity.
  - intros oi rawObject err Hr.
    destruct (fragments_error _ _ _ Hr) as (err' & v & Hs).
    unfold OrderItem_UnmarshalJSON. rewrite Hs. eauto.
Qed.

Lemma unmatched_payload_is_rejected_witness :
  (exists v,
     json.Unmarshal (@order Siblings_raw)
       (text "{'id': 'order_123', 'amount': '15.00', 'items': [{'type': 'tax'}]}") Order_zero =
       Returned v (Some (UnmarshalTypeError "string" "int64")) /\
     @Order_UnmarshalJSON Siblings_raw
       (text "{'id': 'order_123', 'amount': '15.00', 'items': [{'type': 'tax'}]}") Order_zero =
     Returned Order_zero (Some (UnmarshalTypeError "string" "int64"))) /\
  OrderItem_UnmarshalJSON (text "{'amount': 500, 'type': 5, 'parent': 'coup_1'}")
    (set_OrderItem_Quantity 2 OrderItem_zero) =
  Returned (set_OrderItem_Quantity 2 OrderItem_zero)
    (Some (UnmarshalTypeError "number" "stripe.OrderItemType")).
Proof.
  split;
    [|apply (proj1 (proj2 (proj2 (proj2 (proj2 (@unmatched_payload_is_rejected Siblings_raw
               (text "{'amount': 500, 'type': 5, 'parent': 'coup_1'}"))))))
             (set_OrderItem_Quantity 2 OrderItem_zero)
             (set_OrderItem_Amount 500 OrderItem_zero));
      vm_compute; reflexivity].
  destruct (proj1 (proj2 (proj2 (@unmatched_payload_is_rejected Siblings_raw
              (text "{'id': 'order_123', 'amount': '15.00', 'items': [{'type': 'tax'}]}"))))
              Order_zero EmptyString
              [("id", json.Str "order_123"); ("amount", json.Str "15.00");
               ("items", json.Array [json.Object [("type", json.Str "tax")]])])
    as (v & err & Hu & Hret).
  - vm_compute. reflexivity.
  - vm_compute. reflexivity.
  - intros o' (Hamount & _). unfold populated in Hamount. vm_compute in Hamount.
    discriminate.
  - exact RawMessage_never_panics.
  - exact RawMessage_never_panics.
  - exact RawMessage_never_panics.
  - exact RawMessage_never_panics.
  - intros k js j Hin _ Hj.
    repeat (apply elem_of_cons in Hin as [Hin | Hin]; [try discriminate|]).
    + injection Hin as -> ->.
      apply elem_of_cons in Hj as [-> | Hj]; [|apply elem_of_nil in Hj; destruct Hj].
      vm_compute. discriminate.
    + apply elem_of_nil in Hin. destruct Hin.
  - exists v.
    assert (He : err = UnmarshalTypeError "string" "int64").
    { vm_compute in Hu. injection Hu as _ Hu. symmetry. exact Hu. }
    subst err. split; assumption.
Defined.

(** C8, the claim as stated, fails on null: it is no bare JSON string and
    no object, and Order.UnmarshalJSON returns no error on it, leaving a
    zero order. *)
Lemma null_is_accepted :
  ParseID (text "null") = (EmptyString, false) /\
  json.scan (text "null") = Some json.Null /\
  (forall o : @Order Siblings_raw,
     Order_UnmarshalJSON (text "null") o = Returned Order_zero None).
Proof.
  split; [|split]; [vm_compute; reflexivity ..|].
  intros o. rewrite Order_UnmarshalJSON_scan. vm_compute. reflexivity.
Qed.

(** ** Further properties of OrderItem.UnmarshalJSON *)

(** The decoders that order.go hands to the package for an item do not
    panic and are not given up. *)
Lemma members_Stored {T : Type} (fields : list (json.Field T)) :
  (forall f j v, In f fields -> exists v' e, json.store f j v = json.Stored v' e) ->
  forall ms v saved, exists v' e, json.members fields ms v saved = json.Stored v' e.
Proof.
  intros Hf ms. induction ms as [|[k j] ms IH]; intros v saved; cbn [json.members].
  - eauto.
  - destruct (json.findField fields k) as [f|] eqn:Hk; [|apply IH].
    apply findField_In in Hk. destruct (Hf f j v Hk) as (v' & e & ->). apply IH.
Qed.

Lemma int64_Stored (j : json.value) (v : Z) :
  exists v' e, json.decode json.int64 j v = json.Stored v' e.
Proof.
  destruct j; cbn; eauto. destruct (json.ParseInt lit); eauto.
Qed.

Lemma string_Stored (j : json.value) (v : string) :
  exists v' e, json.decode json.string j v = json.Stored v' e.
Proof. destruct j; cbn; eauto. Qed.

Lemma named_Stored (n : string) (j : json.value) (v : string) :
  exists v' e, json.decode (json.named n) j v = json.Stored v' e.
Proof. destruct j; cbn; eauto. Qed.

Lemma field_Stored {T F : Type} (n : string) (get : T -> F) (set : F -> T -> T)
    (d : json.Decoder F) :
  (forall j x, exists x' e, json.decode d j x = json.Stored x' e) ->
  forall j v, exists v' e, json.store (json.field n get set d) j v = json.Stored v' e.
Proof.
  intros Hd j v. cbn. destruct (Hd j (get v)) as (x' & e & ->). cbn. eauto.
Qed.

Lemma struct_Stored {T : Type} (n : string) (z : T) (fields : list (json.Field T)) :
  (forall f j v, In f fields -> exists v' e, json.store f j v = json.Stored v' e) ->
  forall j v, exists v' e, json.decode (json.struct n z fields) j v = json.Stored v' e.
Proof.
  intros Hf j v. destruct j; cbn; eauto. apply members_Stored, Hf.
Qed.

Lemma orderItem_Stored (j : json.value) (v : OrderItem) :
  exists v' e, json.decode orderItem j v = json.Stored v' e.
Proof.
  apply struct_Stored. intros f j' v' Hin. cbn [In] in Hin.
  repeat (destruct Hin as [<- | Hin]); try contradiction;
    apply field_Stored; auto using int64_Stored, string_Stored, named_Stored.
Qed.

Lemma SKU_Stored (j : json.value) (v : SKU) :
  exists v' e, json.decode SKU_json j v = json.Stored v' e.
Proof.
  apply struct_Stored. intros f j' v' Hin. cbn [In] in Hin.
  repeat (destruct Hin as [<- | Hin]); try contradiction;
    apply field_Stored; auto using string_Stored.
Qed.

Lemma Unmarshal_Returned {T : Type} (d : json.Decoder T) :
  (forall j v, exists v' e, json.decode d j v = json.Stored v' e) ->
  forall data v, exists v' e, json.Unmarshal d data v = Returned v' e.
Proof.
  intros Hd data v. unfold json.Unmarshal. destruct (json.scan data) as [j|]; [|eauto].
  destruct (Hd j v) as (v' & e & ->). eauto.
Qed.

Lemma ptr_Stored {T : Type} (d : json.Decoder T) :
  (forall j v, exists v' e, json.decode d j v = json.Stored v' e) ->
  forall j p, exists p' e, json.decode (json.ptr d) j p = json.Stored p' e.
Proof.
  intros Hd j p. destruct j; cbn; eauto;
    match goal with |- context [json.decode d ?j ?x] => destruct (Hd j x) as (x' & e & ->) end;
    cbn; eauto.
Qed.

Lemma fragments_Returned (data : json.bytes) :
  exists rawObject e, json.Unmarshal rawObject_json data ∅ = Returned rawObject e.
Proof.
  unfold json.Unmarshal. destruct (json.scan data) as [[| | | | |ms]|]; cbn; eauto.
  rewrite entries_RawMessage. eauto.
Qed.

(** X1. Where the scalars of an item decode and its type is none of
    coupon, shipping and sku (discount, tax, the empty type of a null
    payload, any other word), OrderItem.UnmarshalJSON returns no error with
    the scalars decoded and an empty parent: the parent fragment is not read,
    whether it is there, null or missing. *)
Theorem other_types_leave_parent_empty (data : json.bytes) (oi v : OrderItem) :
  json.Unmarshal orderItem data OrderItem_zero = Returned v None ->
  OrderItem_Type v <> OrderItemTypeCoupon ->
  OrderItem_Type v <> OrderItemTypeShipping ->
  OrderItem_Type v <> OrderItemTypeSKU ->
  OrderItem_UnmarshalJSON data oi = Returned (with_Parent OrderItemParent_zero v) None.
Proof.
  intros Hs Hc Hsh Hk.
  destruct (fragments_follow_scalars _ _ Hs) as [rawObject Hr].
  unfold OrderItem_UnmarshalJSON. rewrite Hs. cbn zeta. rewrite Hr.
  apply String.eqb_neq in Hc, Hsh, Hk. rewrite Hc, Hsh, Hk. reflexivity.
Qed.

Lemma other_types_leave_parent_empty_witness :
  OrderItem_UnmarshalJSON (text "{'amount': -500, 'type': 'discount', 'parent': null}")
    OrderItem_zero =
  Returned (with_Parent OrderItemParent_zero
              (set_OrderItem_Amount (-500)
                 (set_OrderItem_Type OrderItemTypeDiscount OrderItem_zero))) None.
Proof.
  apply other_types_leave_parent_empty; vm_compute; (reflexivity || discriminate).
Defined.

(** The map of raw members keeps under a key what its last member left. *)
Lemma rawObject_preserved (ms : list (string * json.value)) (k : string) :
  (forall j, (k, j) ∉ ms) ->
  forall m : gmap string (option json.bytes),
  foldl (fun m '(k, j) => <[k := rawPointer j]> m) m ms !! k = m !! k.
Proof.
  induction ms as [|[k0 j0] ms IH]; intros Hno m; cbn [foldl]; [reflexivity|].
  rewrite IH.
  - apply lookup_insert_ne. intros ->. apply (Hno j0). left.
  - intros j Hin. apply (Hno j). right. exact Hin.
Qed.

Lemma rawObject_last (ms ms' : list (string * json.value)) (k : string) (j : json.value)
    (m : gmap string (option json.bytes)) :
  (forall j', (k, j') ∉ ms') ->
  foldl (fun m '(k, j) => <[k := rawPointer j]> m) m (ms ++ (k, j) :: ms') !! k =
  Some (rawPointer j).
Proof.
  intros Hno. rewrite foldl_app. cbn [foldl].
  rewrite (rawObject_preserved ms' k Hno). apply lookup_insert_eq.
Qed.

Lemma Unmarshal_rawObject_Object (data : json.bytes) (ms : list (string * json.value)) :
  json.scan data = Some (json.Object ms) ->
  json.Unmarshal rawObject_json data ∅ =
  Returned (foldl (fun (m : gmap string (option json.bytes)) '(k, j) =>
                     <[k := rawPointer j]> m) ∅ ms) None.
Proof.
  intros Hscan. unfold json.Unmarshal. rewrite Hscan. cbn.
  rewrite entries_RawMessage. reflexivity.
Qed.

(** X2. An item object of type coupon, shipping or sku whose last member
    named parent is null makes OrderItem.UnmarshalJSON panic, as a missing
    one does: null leaves a nil pointer in the map of raw fragments. *)
Theorem null_parent_panics (data : json.bytes) (ms ms' : list (string * json.value))
    (oi v : OrderItem) :
  json.scan data = Some (json.Object (ms ++ ("parent", json.Null) :: ms')) ->
  (forall j, ("parent", j) ∉ ms') ->
  json.Unmarshal orderItem data OrderItem_zero = Returned v None ->
  OrderItem_Type v = OrderItemTypeCoupon \/ OrderItem_Type v = OrderItemTypeShipping \/
    OrderItem_Type v = OrderItemTypeSKU ->
  OrderItem_UnmarshalJSON data oi = Panicked.
Proof.
  intros Hscan Hno Hs Hty.
  pose proof (Unmarshal_rawObject_Object _ _ Hscan) as Hr.
  unfold OrderItem_UnmarshalJSON. rewrite Hs. cbn zeta. rewrite Hr.
  rewrite (rawObject_last ms ms' "parent" json.Null ∅ Hno). cbn [rawPointer default].
  destruct Hty as [-> | [-> | ->]]; reflexivity.
Qed.

Lemma null_parent_panics_witness :
  OrderItem_UnmarshalJSON (text "{'parent': 'ship_1', 'type': 'shipping', 'parent': null}")
    OrderItem_zero = Panicked.
Proof.
  apply (null_parent_panics
           (text "{'parent': 'ship_1', 'type': 'shipping', 'parent': null}")
           [("parent", json.Str "ship_1"); ("type", json.Str "shipping")] []
           OrderItem_zero (set_OrderItem_Type OrderItemTypeShipping OrderItem_zero)).
  - vm_compute. reflexivity.
  - intros j Hin. apply elem_of_nil in Hin. exact Hin.
  - vm_compute. reflexivity.
  - right. left. reflexivity.
Defined.

(** X3. OrderItem.UnmarshalJSON panics in one way only: the scalars
    decode, the type is coupon, shipping or sku, and the map of raw fragments
    has nil under parent. No other payload makes it panic. *)
Theorem panics_only_on_nil_parent (data : json.bytes) (oi : OrderItem) :
  OrderItem_UnmarshalJSON data oi = Panicked <->
  exists v rawObject,
    json.Unmarshal orderItem data OrderItem_zero = Returned v None /\
    json.Unmarshal rawObject_json data ∅ = Returned rawObject None /\
    (OrderItem_Type v = OrderItemTypeCoupon \/ OrderItem_Type v = OrderItemTypeShipping \/
     OrderItem_Type v = OrderItemTypeSKU) /\
    default None (rawObject !! "parent") = None.
Proof.
  split.
  - unfold OrderItem_UnmarshalJSON.
    destruct (Unmarshal_Returned orderItem orderItem_Stored data OrderItem_zero)
      as (v & e & Hs).
    rewrite Hs. destruct e as [e|]; [discriminate|]. cbn zeta.
    destruct (fragments_Returned data) as (rawObject & e & Hr).
    rewrite Hr. destruct e as [e|]; [discriminate|].
    destruct (default None (rawObject !! "parent")) as [raw|] eqn:Hp.
    + destruct (parent_fragment _ _ _ Hr Hp) as (ms & j & _ & _ & Hj & ->).
      destruct (Unmarshal_Returned json.string string_Stored (json.Scanned j) EmptyString)
        as (id & e & Hid).
      destruct (Unmarshal_Returned (json.ptr SKU_json) (ptr_Stored _ SKU_Stored)
                  (json.Scanned j) None) as (q & e' & Hq).
      cbn [OrderItemParent_ID OrderItemParent_SKU OrderItemParent_zero].
      rewrite Hid, Hq.
      destruct (ptr_allocates _ _ _ _ _ Hj Hq) as [s ->].
      repeat match goal with
             | |- context [if ?b then _ else _] => destruct b
             end; cbn; discriminate.
    + intros Hpanic. exists v, rawObject. repeat split; try assumption.
      destruct (String.eqb_spec (OrderItem_Type v) OrderItemTypeCoupon); [auto|].
      destruct (String.eqb_spec (OrderItem_Type v) OrderItemTypeShipping); [auto|].
      destruct (String.eqb_spec (OrderItem_Type v) OrderItemTypeSKU); [auto|].
      discriminate.
  - intros (v & rawObject & Hs & Hr & Hty & Hp).
    unfold OrderItem_UnmarshalJSON. rewrite Hs. cbn zeta. rewrite Hr, Hp.
    destruct Hty as [-> | [-> | ->]]; reflexivity.
Qed.

Lemma panics_only_on_nil_parent_witness :
  OrderItem_UnmarshalJSON (text "{'type': 'sku', 'Parent': {'id': 'sku_1'}}") OrderItem_zero =
  Panicked.
Proof.
  apply (proj2 (panics_only_on_nil_parent
                  (text "{'type': 'sku', 'Parent': {'id': 'sku_1'}}") OrderItem_zero)).
  exists (set_OrderItem_Type OrderItemTypeSKU OrderItem_zero).
  exists (<["Parent" := Some (json.Scanned (json.Object [("id", json.Str "sku_1")]))]>
            (<["type" := Some (json.Scanned (json.Str "sku"))]> ∅)).
  repeat split; try (vm_compute; reflexivity). right. right. reflexivity.
Defined.

(** X4. Once the scalars decode, nothing of the receiver is read or kept:
    OrderItem.UnmarshalJSON gives the same outcome whatever the item held
    before, so an item decoded again from the same payload does not change
    and a reused item keeps no parent of an earlier payload. *)
Theorem receiver_is_overwritten (data : json.bytes) (oi oi' v : OrderItem)
    (err : option error) :
  json.Unmarshal orderItem data OrderItem_zero = Returned v None ->
  OrderItem_UnmarshalJSON data oi = Returned oi' err ->
  (forall other, OrderItem_UnmarshalJSON data other = Returned oi' err) /\
  OrderItem_UnmarshalJSON data oi' = Returned oi' err /\
  exists p, oi' = with_Parent p v.
Proof.
  intros Hs Hret.
  assert (Hany : forall other, OrderItem_UnmarshalJSON data other = Returned oi' err).
  { intros other. rewrite <- Hret. unfold OrderItem_UnmarshalJSON. rewrite Hs. reflexivity. }
  split; [exact Hany|]. split; [apply Hany|].
  revert Hret. unfold OrderItem_UnmarshalJSON. rewrite Hs. cbn zeta.
  repeat match goal with
         | |- Returned _ _ = Returned _ _ -> _ =>
             let Hx := fresh in intros Hx; injection Hx as <- <-; eexists; reflexivity
         | |- Panicked = Returned _ _ -> _ => discriminate
         | |- context [match ?x with _ => _ end] => destruct x
         end.
Qed.

Lemma receiver_is_overwritten_witness :
  (forall other,
     OrderItem_UnmarshalJSON (text "{'type': 'tax', 'amount': 80}") other =
     Returned (with_Parent OrderItemParent_zero
                 (set_OrderItem_Amount 80 (set_OrderItem_Type OrderItemTypeTax OrderItem_zero)))
       None) /\
  OrderItem_UnmarshalJSON (text "{'type': 'tax', 'amount': 80}")
    (with_Parent OrderItemParent_zero
       (set_OrderItem_Amount 80 (set_OrderItem_Type OrderItemTypeTax OrderItem_zero))) =
  Returned (with_Parent OrderItemParent_zero
              (set_OrderItem_Amount 80 (set_OrderItem_Type OrderItemTypeTax OrderItem_zero)))
    None /\
  exists p,
    with_Parent OrderItemParent_zero
      (set_OrderItem_Amount 80 (set_OrderItem_Type OrderItemTypeTax OrderItem_zero)) =
    with_Parent p
      (set_OrderItem_Amount 80 (set_OrderItem_Type OrderItemTypeTax OrderItem_zero)).
Proof.
  apply (receiver_is_overwritten (text "{'type': 'tax', 'amount': 80}") OrderItem_zero);
    vm_compute; reflexivity.
Defined.

(** X5. Of several members named parent the last decides. For an item of
    type coupon or shipping whose scalars decode and whose last parent
    member is not null: a string becomes Parent.ID and the call returns no
    error; any other value leaves Parent.ID empty, tags the parent and is
    returned as the error of storing that kind of value in a string. *)
Theorem last_parent_member_decides (data : json.bytes) (ms ms' : list (string * json.value))
    (j : json.value) (oi v : OrderItem) (tag : OrderItemParentType) :
  json.scan data = Some (json.Object (ms ++ ("parent", j) :: ms')) ->
  (forall j', ("parent", j') ∉ ms') ->
  j <> json.Null ->
  json.Unmarshal orderItem data OrderItem_zero = Returned v None ->
  OrderItem_Type v = OrderItemTypeCoupon /\ tag = OrderItemParentTypeCoupon \/
  OrderItem_Type v = OrderItemTypeShipping /\ tag = OrderItemParentTypeShipping ->
  OrderItem_UnmarshalJSON data oi =
  match j with
  | json.Str s =>
      Returned (with_Parent {| OrderItemParent_ID := s;
                               OrderItemParent_SKU := None;
                               OrderItemParent_Type := EmptyString |} v) None
  | _ =>
      Returned (with_Parent {| OrderItemParent_ID := EmptyString;
                               OrderItemParent_SKU := None;
                               OrderItemParent_Type := tag |} v)
        (Some (UnmarshalTypeError (json.kind j) "string"))
  end.
Proof.
  intros Hscan Hno Hj Hs Hty.
  pose proof (Unmarshal_rawObject_Object _ _ Hscan) as Hr.
  assert (Hp : default None
                 (foldl (fun (m : gmap string (option json.bytes)) '(k, j) =>
                           <[k := rawPointer j]> m) ∅ (ms ++ ("parent", j) :: ms')
                  !! "parent") = Some (json.Scanned j)).
  { rewrite (rawObject_last ms ms' "parent" j ∅ Hno). destruct j; congruence || reflexivity. }
  destruct Hty as [[Hty ->] | [Hty ->]].
  - destruct j; try congruence;
      exact (UnmarshalJSON_coupon _ oi _ _ _ Hs Hr Hp _ _ Hty eq_refl).
  - destruct j; try congruence;
      exact (UnmarshalJSON_shipping _ oi _ _ _ Hs Hr Hp _ _ Hty eq_refl).
Qed.

Lemma last_parent_member_decides_witness :
  OrderItem_UnmarshalJSON (text "{'parent': 5, 'type': 'coupon', 'parent': 'coup_2'}")
    OrderItem_zero =
  Returned (with_Parent {| OrderItemParent_ID := "coup_2";
                           OrderItemParent_SKU := None;
                           OrderItemParent_Type := EmptyString |}
              (set_OrderItem_Type OrderItemTypeCoupon OrderItem_zero)) None.
Proof.
  apply (last_parent_member_decides
           (text "{'parent': 5, 'type': 'coupon', 'parent': 'coup_2'}")
           [("parent", json.Number "5"); ("type", json.Str "coupon")] []
           (json.Str "coup_2") OrderItem_zero
           (set_OrderItem_Type OrderItemTypeCoupon OrderItem_zero)
           OrderItemParentTypeCoupon).
  - vm_compute. reflexivity.
  - intros j Hin. apply elem_of_nil in Hin. exact Hin.
  - discriminate.
  - vm_compute. reflexivity.
  - left. split; reflexivity.
Defined.

(** X10. For an item of type sku whose scalars decode and whose last parent
    member is not null, that member is stored in a new SKU and what becomes
    of that decides: without error the call returns none and leaves Parent.ID
    and Parent.Type empty beside the SKU; with an error the call returns it,
    and Parent.ID is the ID the SKU was left with, Parent.Type sku. *)
Theorem last_parent_member_decides_sku (data : json.bytes)
    (ms ms' : list (string * json.value)) (j : json.value) (oi v : OrderItem) :
  json.scan data = Some (json.Object (ms ++ ("parent", j) :: ms')) ->
  (forall j', ("parent", j') ∉ ms') ->
  j <> json.Null ->
  json.Unmarshal orderItem data OrderItem_zero = Returned v None ->
  OrderItem_Type v = OrderItemTypeSKU ->
  exists (s : SKU) (err : option error),
    json.decode SKU_json j SKU_zero = json.Stored s err /\
    OrderItem_UnmarshalJSON data oi =
    match err with
    | None =>
        Returned (with_Parent {| OrderItemParent_ID := EmptyString;
                                 OrderItemParent_SKU := Some s;
                                 OrderItemParent_Type := EmptyString |} v) None
    | Some _ =>
        Returned (with_Parent {| OrderItemParent_ID := SKU_ID s;
                                 OrderItemParent_SKU := Some s;
                                 OrderItemParent_Type := OrderItemParentTypeSKU |} v) err
    end.
Proof.
  intros Hscan Hno Hj Hs Hty.
  pose proof (Unmarshal_rawObject_Object _ _ Hscan) as Hr.
  assert (Hp : default None
                 (foldl (fun (m : gmap string (option json.bytes)) '(k, j) =>
                           <[k := rawPointer j]> m) ∅ (ms ++ ("parent", j) :: ms')
                  !! "parent") = Some (json.Scanned j)).
  { rewrite (rawObject_last ms ms' "parent" j ∅ Hno). destruct j; congruence || reflexivity. }
  destruct (SKU_Stored j SKU_zero) as (s & err & Hd).
  exists s, err. split; [exact Hd|].
  assert (Hin : json.Unmarshal (json.ptr SKU_json) (json.Scanned j) None =
                Returned (Some s) err).
  { rewrite Unmarshal_scanned, (ptr_decode _ _ _ Hj).
    change (default (json.zero SKU_json) None) with SKU_zero. rewrite Hd. reflexivity. }
  rewrite (UnmarshalJSON_sku _ oi _ _ _ Hs Hr Hp _ _ Hty Hin).
  destruct err; reflexivity.
Qed.

Lemma last_parent_member_decides_sku_witness :
  exists (s : SKU) (err : option error),
    json.decode SKU_json
      (json.Object [("id", json.Str "sku_1"); ("id", json.Array [])]) SKU_zero =
      json.Stored s err /\
    OrderItem_UnmarshalJSON
      (text "{'type': 'sku', 'parent': {'id': 'sku_1', 'id': []}}") OrderItem_zero =
    match err with
    | None =>
        Returned (with_Parent {| OrderItemParent_ID := EmptyString;
                                 OrderItemParent_SKU := Some s;
                                 OrderItemParent_Type := EmptyString |}
                    (set_OrderItem_Type OrderItemTypeSKU OrderItem_zero)) None
    | Some _ =>
        Returned (with_Parent {| OrderItemParent_ID := SKU_ID s;
                                 OrderItemParent_SKU := Some s;
                                 OrderItemParent_Type := OrderItemParentTypeSKU |}
                    (set_OrderItem_Type OrderItemTypeSKU OrderItem_zero)) err
    end.
Proof.
  apply (last_parent_member_decides_sku
           (text "{'type': 'sku', 'parent': {'id': 'sku_1', 'id': []}}")
           [("type", json.Str "sku")] []
           (json.Object [("id", json.Str "sku_1"); ("id", json.Array [])])
           OrderItem_zero (set_OrderItem_Type OrderItemTypeSKU OrderItem_zero)).
  - vm_compute. reflexivity.
  - intros j Hin. apply elem_of_nil in Hin. exact Hin.
  - discriminate.
  - vm_compute. reflexivity.
  - reflexivity.
Defined.

(** ** Further properties of Order.UnmarshalJSON *)

Section OrderItems.

Context `{Siblings}.

Lemma members_app {T : Type} (fields : list (json.Field T)) (a b : list (string * json.value)) :
  forall (v : T) (saved : option error),
  json.members fields (a ++ b) v saved =
  match json.members fields a v saved with
  | json.Stored v1 s1 => json.members fields b v1 s1
  | json.Aborted v1 err => json.Aborted v1 err
  | json.Panics => json.Panics
  end.
Proof.
  induction a as [|[k j] a IH]; intros v saved; cbn [app json.members]; [reflexivity|].
  destruct (json.findField fields k) as [f|]; [|apply IH].
  destruct (json.store f j v); try reflexivity. apply IH.
Qed.

(** Members that are not stored in Items leave Items alone. *)
Lemma members_keep_Items (ms : list (string * json.value)) :
  (forall k j, (k, j) ∈ ms -> selects "items" k = false) ->
  forall (v v' : Order) (saved saved' : option error),
  json.members Order_fields ms v saved = json.Stored v' saved' ->
  Order_Items v' = Order_Items v.
Proof.
  induction ms as [|[k j] ms IH]; intros Hno v v' saved saved'; cbn [json.members].
  - intros Hm. inversion Hm. reflexivity.
  - assert (Hk : selects "items" k = false) by (apply (Hno k j); left).
    assert (Hms : forall k' j', (k', j') ∈ ms -> selects "items" k' = false)
      by (intros k' j' Hin; apply (Hno k' j'); right; exact Hin).
    unfold selects in Hk.
    destruct (json.findField Order_fields k) as [f|] eqn:Hf; [|apply (IH Hms)].
    apply findField_In in Hf. cbn [Order_fields In] in Hf.
    repeat (destruct Hf as [<- | Hf]); try contradiction;
      cbn [json.field json.store json.name] in *; try discriminate;
      match goal with
      | |- context [json.mapResult _ ?r] =>
          destruct r as [w e| |]; cbn [json.mapResult];
          try discriminate; intros Hm; apply (IH Hms) in Hm; exact Hm
      end.
Qed.

(** The member stored in Items is stored element by element. *)
Lemma member_Items (k : string) (j : json.value) (ms : list (string * json.value))
    (v : Order) (saved : option error) :
  selects "items" k = true ->
  json.members Order_fields ((k, j) :: ms) v saved =
  match json.decode (json.slice (json.ptr OrderItem_json) "[]*stripe.OrderItem") j
          (Order_Items v) with
  | json.Stored items e =>
      json.members Order_fields ms (set_Order_Items items v) (json.saveError saved e)
  | json.Aborted items err => json.Aborted (set_Order_Items items v) err
  | json.Panics => json.Panics
  end.
Proof.
  unfold selects. cbn [json.members].
  destruct (json.findField Order_fields k) as [f|] eqn:Hf; [|discriminate].
  apply findField_In in Hf. cbn [Order_fields In] in Hf.
  repeat (destruct Hf as [<- | Hf]); try contradiction;
    cbn [json.field json.store json.name]; try discriminate.
  intros _. destruct (json.decode _ j (Order_Items v)); reflexivity.
Qed.

(** What the package does with one element of Items. *)
Lemma item_decode (j : json.value) :
  j <> json.Null ->
  json.decode (json.ptr OrderItem_json) j None =
  match OrderItem_UnmarshalJSON (json.Scanned j) OrderItem_zero with
  | Returned x None => json.Stored (Some x) None
  | Returned x (Some err) => json.Aborted (Some x) err
  | Panicked => json.Panics
  end.
Proof.
  intros Hj. rewrite (ptr_decode _ _ _ Hj). cbn.
  destruct (OrderItem_UnmarshalJSON (json.Scanned j) OrderItem_zero) as [x [e|]|];
    reflexivity.
Qed.

Lemma elements_items (js : list json.value) :
  forall (items : list (option OrderItem)) (saved saved' : option error),
  json.elements (json.ptr OrderItem_json) js [] saved = json.Stored items saved' ->
  saved' = saved /\ Forall2 item_of js items.
Proof.
  induction js as [|j js IH]; intros items saved saved'; cbn [json.elements hd tl].
  - intros Hm. inversion Hm. split; [reflexivity | constructor].
  - change (json.zero (json.ptr OrderItem_json)) with (@None OrderItem).
    assert (Hnull : j = json.Null \/ j <> json.Null)
      by (destruct j; auto; right; discriminate).
    destruct Hnull as [-> | Hj].
    + cbn. destruct (json.elements _ js [] _) as [items' e| |] eqn:He; try discriminate.
      cbn. intros Hm. inversion Hm; subst. apply IH in He as [-> Hall].
      split; [destruct saved; reflexivity|]. constructor; [reflexivity | exact Hall].
    + rewrite (item_decode j Hj).
      destruct (OrderItem_UnmarshalJSON (json.Scanned j) OrderItem_zero) as [x [e|]|] eqn:Hx;
        try discriminate.
      destruct (json.elements _ js [] _) as [items' e| |] eqn:He; try discriminate.
      cbn. intros Hm. inversion Hm; subst. apply IH in He as [-> Hall].
      split; [destruct saved; reflexivity|].
      constructor; [|exact Hall].
      destruct j; try congruence; exists x; split; (exact Hx || reflexivity).
Qed.

End OrderItems.

Lemma item_of_value (j : json.value) (it : option OrderItem) :
  j <> json.Null -> item_of j it ->
  exists x, OrderItem_UnmarshalJSON (json.Scanned j) OrderItem_zero = Returned x None /\
            it = Some x.
Proof. intros Hj Hit. destruct j; try congruence; exact Hit. Qed.

Lemma elements_prefix `{Siblings} (js1 : list json.value) :
  Forall (fun j' => exists it, item_of j' it) js1 ->
  forall (rest : list json.value) (saved : option error),
  exists items1,
    json.elements (json.ptr OrderItem_json) (js1 ++ rest) [] saved =
    json.mapResult (app items1) (json.elements (json.ptr OrderItem_json) rest [] saved).
Proof.
  induction 1 as [|j js1 [it Hit] _ IH]; intros rest saved.
  - exists []. cbn [app]. destruct (json.elements _ rest [] saved); reflexivity.
  - destruct (IH rest saved) as [items1 Hrest].
    exists (it :: items1). cbn [app json.elements hd tl].
    change (json.zero (json.ptr OrderItem_json)) with (@None OrderItem).
    assert (Hd : json.decode (json.ptr OrderItem_json) j None = json.Stored it None).
    { assert (Hnull : j = json.Null \/ j <> json.Null)
        by (destruct j; auto; right; discriminate).
      destruct Hnull as [-> | Hj].
      - change (it = None) in Hit. subst it. reflexivity.
      - apply item_of_value in Hit as (x & Hx & ->); [|exact Hj].
        rewrite (item_decode j Hj), Hx. reflexivity. }
    rewrite Hd. replace (json.saveError saved None) with saved by (destruct saved; reflexivity).
    rewrite Hrest.
    destruct (json.elements _ rest [] saved); reflexivity.
Qed.

(** X6. An object with one member stored in Items, an array, is decoded by
    Order.UnmarshalJSON without error only if OrderItem.UnmarshalJSON decodes
    every element of the array that is not null without error; Items then
    holds, in the order of the array, a pointer to each item so decoded and
    nil for each null. *)
Theorem items_decoded_one_by_one `{Siblings} (data : json.bytes)
    (before after : list (string * json.value)) (k : string) (js : list json.value)
    (o o' : Order) :
  json.scan data = Some (json.Object (before ++ (k, json.Array js) :: after)) ->
  selects "items" k = true ->
  (forall k' j', (k', j') ∈ (before ++ after)%list -> selects "items" k' = false) ->
  Order_UnmarshalJSON data o = Returned o' None ->
  Forall2 item_of js (Order_Items o').
Proof.
  intros Hscan Hk Hno. rewrite Order_UnmarshalJSON_scan, Hscan.
  cbn [json.decode order json.struct].
  rewrite members_app.
  destruct (json.members Order_fields before Order_zero None) as [v1 s1| |] eqn:Hb;
    try discriminate.
  assert (Hv1 : Order_Items v1 = []).
  { apply (members_keep_Items before) in Hb; [exact Hb|].
    intros k' j' Hin. apply (Hno k' j'). apply elem_of_app. left. exact Hin. }
  rewrite (member_Items _ _ _ _ _ Hk). cbn [json.decode json.slice]. rewrite Hv1.
  destruct (json.elements _ js [] None) as [items e| |] eqn:He; try discriminate.
  apply elements_items in He as [-> Hall].
  destruct (json.members Order_fields after _ _) as [v [e|]|v e|] eqn:Ha; try discriminate.
  intros Hret. inversion Hret; subst.
  apply (members_keep_Items after) in Ha.
  - rewrite Ha. exact Hall.
  - intros k' j' Hin. apply (Hno k' j'). apply elem_of_app. right. exact Hin.
Qed.

Lemma items_decoded_one_by_one_witness :
  Forall2 item_of
    [json.Object [("type", json.Str "tax"); ("amount", json.Number "80")]; json.Null]
    [Some (with_Parent OrderItemParent_zero
             (set_OrderItem_Amount 80 (set_OrderItem_Type OrderItemTypeTax OrderItem_zero)));
     None].
Proof.
  apply (@items_decoded_one_by_one Siblings_raw
           (text "{'id': 'or_1', 'Items': [{'type': 'tax', 'amount': 80}, null], 'status': 'paid'}")
           [("id", json.Str "or_1")] [("status", json.Str "paid")] "Items"
           [json.Object [("type", json.Str "tax"); ("amount", json.Number "80")]; json.Null]
           Order_zero
           (set_Order_Status OrderStatusPaid
              (set_Order_Items
                 [Some (with_Parent OrderItemParent_zero
                          (set_OrderItem_Amount 80
                             (set_OrderItem_Type OrderItemTypeTax OrderItem_zero)));
                  None]
                 (set_Order_ID "or_1" Order_zero)))).
  - vm_compute. reflexivity.
  - vm_compute. reflexivity.
  - intros k' j' Hin.
    repeat (apply elem_of_cons in Hin as [Hin | Hin];
            [injection Hin as -> ->; vm_compute; reflexivity|]).
    apply elem_of_nil in Hin. destruct Hin.
  - vm_compute. reflexivity.
Defined.

(** X7. A failing item fails the whole order. Where the members before the
    one stored in Items are stored, and the elements of the array before an
    element decode, what OrderItem.UnmarshalJSON does on that element decides:
    its panic is the panic of Order.UnmarshalJSON, and its error is the error
    Order.UnmarshalJSON returns, leaving the order as it was. *)
Theorem failing_item_fails_the_order `{Siblings} (data : json.bytes)
    (before after : list (string * json.value)) (k : string)
    (js1 js2 : list json.value) (j : json.value) (o v1 : Order) (s1 : option error) :
  json.scan data = Some (json.Object (before ++ (k, json.Array (js1 ++ j :: js2)) :: after)) ->
  selects "items" k = true ->
  (forall k' j', (k', j') ∈ before -> selects "items" k' = false) ->
  json.members Order_fields before Order_zero None = json.Stored v1 s1 ->
  Forall (fun j' => exists it, item_of j' it) js1 ->
  j <> json.Null ->
  match OrderItem_UnmarshalJSON (json.Scanned j) OrderItem_zero with
  | Panicked => Order_UnmarshalJSON data o = Panicked
  | Returned _ (Some err) => Order_UnmarshalJSON data o = Returned o (Some err)
  | Returned _ None => True
  end.
Proof.
  intros Hscan Hk Hno Hb Hjs1 Hj. rewrite Order_UnmarshalJSON_scan, Hscan.
  cbn [json.decode order json.struct].
  rewrite members_app, Hb.
  assert (Hv1 : Order_Items v1 = []) by (apply (members_keep_Items before Hno) in Hb; exact Hb).
  rewrite (member_Items _ _ _ _ _ Hk). cbn [json.decode json.slice]. rewrite Hv1.
  destruct (elements_prefix js1 Hjs1 (j :: js2) None) as [items1 ->].
  cbn [json.elements hd tl].
  change (json.zero (json.ptr OrderItem_json)) with (@None OrderItem).
  rewrite (item_decode j Hj).
  destruct (OrderItem_UnmarshalJSON (json.Scanned j) OrderItem_zero) as [x [e|]|];
    [reflexivity | exact I | reflexivity].
Qed.

Lemma failing_item_fails_the_order_witness :
  @Order_UnmarshalJSON Siblings_raw
    (text "{'id': 'or_1', 'items': [null, {'type': 'coupon'}], 'status': 'paid'}")
    Order_zero = Panicked.
Proof.
  exact (@failing_item_fails_the_order Siblings_raw
           (text "{'id': 'or_1', 'items': [null, {'type': 'coupon'}], 'status': 'paid'}")
           [("id", json.Str "or_1")] [("status", json.Str "paid")] "items"
           [json.Null] [] (json.Object [("type", json.Str "coupon")])
           Order_zero (set_Order_ID "or_1" Order_zero) None
           ltac:(vm_compute; reflexivity)
           ltac:(vm_compute; reflexivity)
           ltac:(intros k' j' Hin; apply elem_of_cons in Hin as [Hin | Hin];
                 [injection Hin as -> ->; vm_compute; reflexivity
                 | apply elem_of_nil in Hin; destruct Hin])
           ltac:(vm_compute; reflexivity)
           ltac:(constructor; [exists None; reflexivity | constructor])
           ltac:(discriminate)).
Defined.

(** X8. The time of fulfilment is read from the member named fulfiled.
    A member named fulfilled, in any case of its letters, is stored in no
    field of StatusTransitions: decoding an object gives what decoding it
    without those members gives. *)
Theorem fulfilled_member_is_skipped (ms : list (string * json.value))
    (v : StatusTransitions) :
  json.decode StatusTransitions_json (json.Object ms) v =
  json.decode StatusTransitions_json
    (json.Object
       (List.filter (fun m => negb (String.eqb (json.foldName (fst m)) "FULFILLED")) ms)) v.
Proof.
  cbn [json.decode StatusTransitions_json json.struct].
  generalize (@None error) as saved. revert v.
  induction ms as [|[k j] ms IH]; intros v saved; [reflexivity|].
  cbn [List.filter fst].
  destruct (String.eqb_spec (json.foldName k) "FULFILLED") as [Hk | Hk]; cbn [negb].
  - rewrite <- IH. cbn [json.members].
    replace (json.findField _ k) with (@None (json.Field StatusTransitions)); [reflexivity|].
    unfold json.findField. cbn [find json.field json.name].
    repeat match goal with
           | |- context [String.eqb ?n k] =>
               destruct (String.eqb_spec n k) as [<- | _]; [vm_compute in Hk; discriminate|]
           end.
    rewrite Hk. reflexivity.
  - cbn [json.members].
    destruct (json.findField _ k) as [f|]; [|apply IH].
    destruct (json.store f j v); try reflexivity. apply IH.
Qed.
